(** * Verification of the multi-timeframe technical signal engine

    Shallow embedding of the scalping bot's core:
    - [src/utils/helpers.py]                  (Fibonacci targets, ATR stop),
    - [src/indicators/technical_analysis.py]  (indicator snapshot),
    - [src/strategies/signal_generator.py]    (entry scoring, quality gate),
    - [src/strategies/exit_manager.py]        (prioritised exit rules),
    - the gating fragment of [main.py].

    Conventions of the embedding.
    - Prices, volumes and indicator values are IEEE doubles in the program;
      here they are exact rationals [Q].  A value that is [None] or [NaN] in
      the program is [None] here (both fail every comparison and the callers
      never tell them apart otherwise).  Two places do tell them apart and
      keep the non-finite values explicit ([fnum]): the division by a
      caller-supplied number that may be zero ([_check_trailing_stop]), and
      the [price] and [stop_loss] of a signal, which the quality gate reads
      with [not x or x <= 0], a test that a NaN passes.
    - A [pandas.DataFrame] is a list of candles (the index holds the
      timestamp) together with the columns that were assigned to it later.
      The program mutates frames in place; every function that writes to a
      frame returns the frame it leaves behind.
    - [try: ... except Exception: return default] is written out as a match
      on an [option]-valued body.
    - Python dictionaries with string keys are [gmap string _]; a key read
      with [d.get(k, default)] on a record-like dictionary is a record field
      that already holds the default when the key is missing. *)

From Stdlib Require Import QArith Qabs Qminmax Lqa ZArith List String Ascii Lia.
From stdpp Require Import gmap strings list fin_maps.
Import ListNotations.

Local Open Scope Q_scope.

(** ** Python values *)

Module Py.

(** Comparison of numbers, as booleans. *)
Definition ltb (x y : Q) : bool :=
  match x ?= y with Lt => true | _ => false end.
Definition leb (x y : Q) : bool :=
  match x ?= y with Gt => false | _ => true end.
Definition gtb (x y : Q) : bool := ltb y x.
Definition geb (x y : Q) : bool := leb y x.
Definition eqb (x y : Q) : bool :=
  match x ?= y with Eq => true | _ => false end.

(** Truth value of a number: [0] and [0.0] are false. *)
Definition truthy (x : Q) : bool := negb (eqb x 0).

(** [str.upper] and [str.lower] on ASCII text. *)
Definition upper_ascii (c : ascii) : ascii :=
  let n := nat_of_ascii c in
  if ((97 <=? n) && (n <=? 122))%nat then ascii_of_nat (n - 32) else c.
Definition lower_ascii (c : ascii) : ascii :=
  let n := nat_of_ascii c in
  if ((65 <=? n) && (n <=? 90))%nat then ascii_of_nat (n + 32) else c.

Fixpoint upper (s : string) : string :=
  match s with
  | EmptyString => EmptyString
  | String c r => String (upper_ascii c) (upper r)
  end.
Fixpoint lower (s : string) : string :=
  match s with
  | EmptyString => EmptyString
  | String c r => String (lower_ascii c) (lower r)
  end.

(** Truth value of a string: only the empty string is false. *)
Definition truthy_str (s : string) : bool :=
  match s with EmptyString => false | _ => true end.

(** Result of a float division whose divisor may be zero.  NumPy scalars do
    not raise on division by zero: they produce an infinity or a NaN. *)
Inductive fnum := Fin (q : Q) | PosInf | NegInf | NaN.

Definition fdiv (x y : Q) : fnum :=
  if eqb y 0 then
    match x ?= 0 with Gt => PosInf | Lt => NegInf | Eq => NaN end
  else Fin (x / y).

Definition fscale (x : fnum) (k : Q) : fnum :=
  match x with
  | Fin q => Fin (q * k)
  | PosInf => if ltb 0 k then PosInf else if ltb k 0 then NegInf else NaN
  | NegInf => if ltb 0 k then NegInf else if ltb k 0 then PosInf else NaN
  | NaN => NaN
  end.

(** [x <= k] for such a result. *)
Definition fleb (x : fnum) (k : Q) : bool :=
  match x with
  | Fin q => leb q k
  | NegInf => true
  | PosInf | NaN => false
  end.

(** Truth value of a float: only zero is false (a NaN is true). *)
Definition ftruthy (x : fnum) : bool :=
  match x with Fin q => truthy q | _ => true end.

End Py.

(** ** pandas series and frames *)

(** A numeric series; [None] is a missing value ([NaN]). *)
Abbreviation Series := (list (option Q)).

Module Pd.

(** [s.iloc[-1]]; raises [IndexError] (here [None]) on an empty series. *)
Definition iloc_last {A} (l : list A) : option A := last l.

(** [s.iloc[-k]] for [k >= 1]. *)
Definition iloc_neg {A} (k : nat) (l : list A) : option A :=
  if (k <=? length l)%nat then l !! (length l - k)%nat else None.

(** [s.iloc[-a:-b]] for [a >= b >= 1] (bounds are clamped as Python does). *)
Definition iloc_slice_neg {A} (a b : nat) (l : list A) : list A :=
  let n := length l in
  take ((n - b) - (n - a)) (drop (n - a) l).

(** [s.tail(n)]: the last [n] entries (all of them if there are fewer). *)
Definition tail {A} (n : nat) (l : list A) : list A :=
  drop (length l - n) l.

(** [s.max()] and [s.min()] of a series without missing values; [None] on
    an empty series. *)
Definition max (l : list Q) : option Q :=
  match l with [] => None | x :: r => Some (fold_left Qmax r x) end.
Definition min (l : list Q) : option Q :=
  match l with [] => None | x :: r => Some (fold_left Qmin r x) end.

Definition sum (l : list Q) : Q := fold_left Qplus l 0.

(** [s.mean()]; [None] on an empty series. *)
Definition mean (l : list Q) : option Q :=
  match l with
  | [] => None
  | _ => Some (sum l / inject_Z (Z.of_nat (length l)))
  end.

(** [s.shift(1)]: every value moves one row down, the first is missing. *)
Definition shift1 (l : list Q) : Series :=
  match l with [] => [] | _ => None :: (Some <$> removelast l) end.

(** The window of [w] rows that ends at row [i] (inclusive), when it lies
    inside the series. *)
Definition window_at (w i : nat) (l : list Q) : option (list Q) :=
  if ((1 <=? w) && (w <=? S i) && (S i <=? length l))%nat
  then Some (take w (drop (S i - w) l)) else None.

(** [s.rolling(window=w).agg()]: row [i] aggregates rows [i-w+1 .. i] and is
    missing while fewer than [w] rows are available. *)
Definition rolling (w : nat) (agg : list Q → option Q) (l : list Q) : Series :=
  (λ i, window_at w i l ≫= agg) <$> seq 0 (length l).

(** [s.rolling(window=w, center=True).agg()]: the label of each window is
    moved back by [(w-1)//2] rows, so the last [(w-1)//2] rows are missing. *)
Definition rolling_center (w : nat) (agg : list Q → option Q) (l : list Q) : Series :=
  let off := ((w - 1) / 2)%nat in
  (λ i, window_at w (i + off) l ≫= agg) <$> seq 0 (length l).

(** [s.dropna()]. *)
Definition dropna (s : Series) : list Q := omap id s.

End Pd.

(** One row of a frame returned by the exchange client: the index entry
    (timestamp) and the five numeric columns. *)
Record Candle := mkCandle {
  timestamp : Z;
  open : Q;
  high : Q;
  low : Q;
  close : Q;
  volume : Q
}.

(** A frame: its rows, and the columns assigned after its creation, in the
    order of their first assignment. *)
Record DataFrame := mkDF {
  rows : list Candle;
  extra : list (string * Series)
}.

Definition df_of (cs : list Candle) : DataFrame := mkDF cs [].

Definition base_columns : list string :=
  ["open"; "high"; "low"; "close"; "volume"]%string.

(** [list(df.columns)]. *)
Definition columns (df : DataFrame) : list string :=
  base_columns ++ (fst <$> extra df).

(** [len(df)] and [df.empty]. *)
Definition len (df : DataFrame) : nat := length (rows df).
Definition empty (df : DataFrame) : bool :=
  match rows df with [] => true | _ => false end.

Definition col (f : Candle → Q) (df : DataFrame) : list Q := f <$> rows df.

(** [df[name] = s]: overwrite the column if it exists, else append it. *)
Fixpoint assign (name : string) (s : Series) (cols : list (string * Series))
  : list (string * Series) :=
  match cols with
  | [] => [(name, s)]
  | (n, v) :: r =>
      if String.eqb n name then (n, s) :: r else (n, v) :: assign name s r
  end.

Definition set_column (name : string) (s : Series) (df : DataFrame) : DataFrame :=
  mkDF (rows df) (assign name s (extra df)).

(** ** The indicator library ([ta])

    [technical_analysis.py] delegates RSI, EMA, OBV and ATR to the third-party
    package [ta].  The engine is written against this interface; a call that
    raises is [None]. *)
Class TA := {
  RSIIndicator : list Q → nat → option Series;
  EMAIndicator : list Q → nat → option Series;
  OnBalanceVolumeIndicator : list Q → list Q → option Series;
  AverageTrueRange : list Q → list Q → list Q → nat → option Series
}.

(** ** The indicator snapshot (the dictionary built by
    [get_comprehensive_analysis]).  A field is [None] when its key is missing
    or holds [None]/[NaN]. *)
Module Analysis.
Record t := mk {
  rsi_7 : option Q;
  rsi_14 : option Q;
  ema_20 : option Q;
  ema_50 : option Q;
  obv : option Q;
  obv_trend : option string;
  atr : option Q;
  trend : option string;
  volume_spike : option bool;
  candlestick_patterns : option (gmap string bool);
  support : option Q;
  resistance : option Q;
  current_price : option Q;
  current_volume : option Q
}.

(** The empty dictionary [{}]. *)
Definition empty : t :=
  mk None None None None None None None None None None None None None None.
End Analysis.

(** ** [src/indicators/technical_analysis.py] *)

Module TechnicalAnalysis.
Section WithLibrary.
Context `{lib : TA}.

(** [calculate_rsi], [calculate_ema], [calculate_obv], [calculate_atr]: the
    library's series, or an empty series when the library raises. *)
Definition calculate_rsi (df : DataFrame) (period : nat) : Series :=
  default [] (RSIIndicator (col close df) period).

Definition calculate_ema (df : DataFrame) (period : nat) : Series :=
  default [] (EMAIndicator (col close df) period).

Definition calculate_obv (df : DataFrame) : Series :=
  default [] (OnBalanceVolumeIndicator (col close df) (col volume df)).

Definition calculate_atr (df : DataFrame) (period : nat) : Series :=
  default [] (AverageTrueRange (col high df) (col low df) (col close df) period).

(** [detect_volume_spike(df, multiplier, lookback)]. *)
Definition detect_volume_spike (df : DataFrame) (multiplier : Q) (lookback : nat) : bool :=
  if (len df <? lookback + 1)%nat then false
  else
    match Pd.iloc_last (col volume df),
          Pd.mean (Pd.iloc_slice_neg (lookback + 1) 1 (col volume df)) with
    | Some current_volume, Some avg_volume =>
        Py.gtb current_volume (avg_volume * multiplier)
    | _, _ => false
    end.

Definition body_size (c : Candle) : Q := Qabs (close c - open c).
Definition lower_shadow (c : Candle) : Q := Qmin (open c) (close c) - low c.
Definition upper_shadow (c : Candle) : Q := high c - Qmax (open c) (close c).
Definition candle_range (c : Candle) : Q := high c - low c.

Definition _is_doji (c : Candle) : bool :=
  Py.leb (body_size c) (candle_range c * 0.1).

Definition _is_hammer (c : Candle) : bool :=
  Py.geb (lower_shadow c) (body_size c * 2)
  && Py.leb (upper_shadow c) (body_size c * 0.5)
  && Py.gtb (body_size c) 0.

Definition _is_inverted_hammer (c : Candle) : bool :=
  Py.geb (upper_shadow c) (body_size c * 2)
  && Py.leb (lower_shadow c) (body_size c * 0.5)
  && Py.gtb (body_size c) 0.

Definition _is_bullish_engulfing (prev cur : Candle) : bool :=
  let prev_bearish := Py.ltb (close prev) (open prev) in
  let current_bullish := Py.gtb (close cur) (open cur) in
  let engulfs := Py.ltb (open cur) (close prev) && Py.gtb (close cur) (open prev) in
  prev_bearish && current_bullish && engulfs.

Definition _is_bearish_engulfing (prev cur : Candle) : bool :=
  let prev_bullish := Py.gtb (close prev) (open prev) in
  let current_bearish := Py.ltb (close cur) (open cur) in
  let engulfs := Py.gtb (open cur) (close prev) && Py.ltb (close cur) (open prev) in
  prev_bullish && current_bearish && engulfs.

Definition _is_bullish_pinbar (c : Candle) : bool :=
  Py.geb (lower_shadow c) (candle_range c * 0.6)
  && Py.leb (body_size c) (candle_range c * 0.3)
  && Py.leb (upper_shadow c) (candle_range c * 0.2).

Definition _is_bearish_pinbar (c : Candle) : bool :=
  Py.geb (upper_shadow c) (candle_range c * 0.6)
  && Py.leb (body_size c) (candle_range c * 0.3)
  && Py.leb (lower_shadow c) (candle_range c * 0.2).

(** [identify_candlestick_patterns]: the empty dictionary below three rows,
    else all seven flags of the last candle (and of the one before it). *)
Definition identify_candlestick_patterns (df : DataFrame) : gmap string bool :=
  if (len df <? 3)%nat then ∅
  else
    match Pd.iloc_neg 2 (rows df), Pd.iloc_last (rows df) with
    | Some prev, Some cur =>
        <["bearish_pinbar" := _is_bearish_pinbar cur]>
        (<["bullish_pinbar" := _is_bullish_pinbar cur]>
        (<["bearish_engulfing" := _is_bearish_engulfing prev cur]>
        (<["bullish_engulfing" := _is_bullish_engulfing prev cur]>
        (<["inverted_hammer" := _is_inverted_hammer cur]>
        (<["hammer" := _is_hammer cur]>
        (<["doji" := _is_doji cur]> ∅))))))
    | _, _ => ∅
    end.

(** [analyze_trend(df, fast_ema, slow_ema)]. *)
Definition analyze_trend (df : DataFrame) (fast_ema slow_ema : nat) : string :=
  if (len df <? Nat.max fast_ema slow_ema)%nat then "neutral"
  else
    match Pd.iloc_last (calculate_ema df fast_ema),
          Pd.iloc_last (calculate_ema df slow_ema) with
    | Some (Some f), Some (Some s) =>
        if Py.gtb f s then "bullish"
        else if Py.ltb f s then "bearish"
        else "neutral"
    | _, _ => "neutral"
    end.

(** [calculate_support_resistance(df, window)]: the pair
    [(support, resistance)]. *)
Definition calculate_support_resistance (df : DataFrame) (window : nat)
  : option Q * option Q :=
  if (len df <? window)%nat then (None, None)
  else
    let highs := Pd.rolling_center window Pd.max (col high df) in
    let lows := Pd.rolling_center window Pd.min (col low df) in
    let recent_high :=
      match Pd.iloc_last (Pd.dropna highs) with
      | Some h => Some h
      | None => Pd.max (col high df)
      end in
    let recent_low :=
      match Pd.iloc_last (Pd.dropna lows) with
      | Some l => Some l
      | None => Pd.min (col low df)
      end in
    (recent_low, recent_high).

(** The body of [get_comprehensive_analysis]; [None] when a statement
    raises ([.iloc[-1]] on an empty series). *)
Definition comprehensive_analysis_body (df : DataFrame) : option Analysis.t :=
  rsi_7 ← (if (7 <=? len df)%nat then Pd.iloc_last (calculate_rsi df 7) else Some None);
  rsi_14 ← (if (14 <=? len df)%nat then Pd.iloc_last (calculate_rsi df 14) else Some None);
  ema_20 ← (if (20 <=? len df)%nat then Pd.iloc_last (calculate_ema df 20) else Some None);
  ema_50 ← (if (50 <=? len df)%nat then Pd.iloc_last (calculate_ema df 50) else Some None);
  let obv := calculate_obv df in
  let obv_last := mjoin (Pd.iloc_last obv) in
  let obv_trend :=
    match Pd.iloc_last obv, Pd.iloc_neg 2 obv with
    | Some (Some x), Some (Some y) => if Py.gtb x y then "rising" else "falling"
    | _, _ => "falling"
    end in
  let atr := mjoin (Pd.iloc_last (calculate_atr df 14)) in
  let trend := analyze_trend df 20 50 in
  let volume_spike := detect_volume_spike df 2 20 in
  let patterns := identify_candlestick_patterns df in
  let sr_levels := calculate_support_resistance df 20 in
  current_price ← Pd.iloc_last (col close df);
  current_volume ← Pd.iloc_last (col volume df);
  Some (Analysis.mk rsi_7 rsi_14 ema_20 ema_50 obv_last (Some obv_trend) atr
          (Some trend) (Some volume_spike) (Some patterns)
          (fst sr_levels) (snd sr_levels)
          (Some current_price) (Some current_volume)).

(** [get_comprehensive_analysis(df)]: the snapshot, or [{}] on an exception. *)
Definition get_comprehensive_analysis (df : DataFrame) : Analysis.t :=
  default Analysis.empty (comprehensive_analysis_body df).

End WithLibrary.
End TechnicalAnalysis.

(** ** [config/config.py] *)

Module Config.
Definition RSI_OVERSOLD : Q := 30.
Definition RSI_OVERBOUGHT : Q := 70.
End Config.

(** ** [src/utils/helpers.py] *)

(** [calculate_fibonacci_levels(high, low, direction)]. *)
Definition calculate_fibonacci_levels (high low : Q) (direction : string)
  : gmap string Q :=
  let diff := high - low in
  if String.eqb (Py.lower direction) "long" then
    <["TP4" := low + diff * 1.618]>
    (<["TP3" := low + diff * 1]>
    (<["TP2" := low + diff * 0.618]>
    (<["TP1" := low + diff * 0.382]> ∅)))
  else
    <["TP4" := high - diff * 1.618]>
    (<["TP3" := high - diff * 1]>
    (<["TP2" := high - diff * 0.618]>
    (<["TP1" := high - diff * 0.382]> ∅))).

(** Row-wise maximum that skips missing values ([max(axis=1)]); the first
    operand is never missing. *)
Definition opt_max (x : Q) (o : option Q) : Q :=
  match o with Some y => Qmax x y | None => x end.

(** The four columns that [calculate_atr_stop_loss] writes into the frame
    it is given. *)
Definition high_low (df : DataFrame) : list Q :=
  (λ c, high c - low c) <$> rows df.
Definition high_close (df : DataFrame) : Series :=
  zip_with (λ c p, (λ pc, Qabs (high c - pc)) <$> p) (rows df) (Pd.shift1 (col close df)).
Definition low_close (df : DataFrame) : Series :=
  zip_with (λ c p, (λ pc, Qabs (low c - pc)) <$> p) (rows df) (Pd.shift1 (col close df)).
Definition true_range (df : DataFrame) : list Q :=
  zip_with (λ hl r, opt_max (opt_max hl (fst r)) (snd r))
    (high_low df) (zip (high_close df) (low_close df)).

(** [calculate_atr_stop_loss(df, atr_period, multiplier, direction)].
    Returns the value ([Some None] is Python's [None] or a NaN, [None] an
    [IndexError]) and the frame as the call leaves it: the four work columns
    are assigned on the caller's frame, not on a copy. *)
Definition calculate_atr_stop_loss (df : DataFrame) (atr_period : nat)
    (multiplier : Q) (direction : string) : option (option Q) * DataFrame :=
  if (len df <? atr_period)%nat then (Some None, df)
  else
    let df1 := set_column "high_low" (Some <$> high_low df) df in
    let df2 := set_column "high_close" (high_close df) df1 in
    let df3 := set_column "low_close" (low_close df) df2 in
    let df4 := set_column "true_range" (Some <$> true_range df) df3 in
    let result : option (option Q) :=
      match Pd.iloc_last (Pd.rolling atr_period Pd.mean (true_range df)),
            Pd.iloc_last (col close df) with
      | Some atr, Some current_price =>
          Some (match atr with
                | Some a =>
                    if String.eqb (Py.lower direction) "long"
                    then Some (current_price - a * multiplier)
                    else Some (current_price + a * multiplier)
                | None => None
                end)
      | _, _ => None
      end in
    (result, df4).

(** ** [src/strategies/signal_generator.py] *)

(** The texts appended to [reasons], one constructor per message (the
    formatted number is kept as the number). *)
Inductive Reason :=
  | BtcBullish | Rsi7Oversold (v : Q) | Rsi14Oversold (v : Q)
  | EmaBullish5m | ObvRising | VolumeSpike | Pattern (name : string)
  | NearSupport
  | BtcBearish | Rsi7Overbought (v : Q) | Rsi14Overbought (v : Q)
  | EmaBearish5m | ObvFalling | NearResistance.

(** The dictionary returned by [check_entry_conditions].  [price] and
    [stop_loss] are [None] for Python's [None] and hold a float otherwise,
    NaN included. *)
Module Signal.
Record t := mk {
  has_signal : bool;
  direction : option string;
  strength : Z;
  reasons : list Reason;
  price : option Py.fnum;
  rsi_7 : option Q;
  rsi_14 : option Q;
  volume_spike : bool;
  candlestick_patterns : gmap string bool;
  fibonacci_levels : gmap string Q;
  stop_loss : option Py.fnum
}.
End Signal.

(** The result of a scoring function: [{'score': _, 'reasons': _}]. *)
Record Conditions := mkConditions {
  score : Z;
  reasons : list Reason
}.

(** [if c: score += 1; reasons.append(r)]. *)
Definition hit (c : bool) (r : Reason) (acc : Conditions) : Conditions :=
  if c then mkConditions (score acc + 1) (reasons acc ++ [r]) else acc.

(** [rsi and rsi < threshold] (resp. [>]) guarding a hit whose message
    formats the value. *)
Definition hit_rsi (rsi : option Q) (test : Q → bool) (r : Q → Reason)
    (acc : Conditions) : Conditions :=
  match rsi with
  | Some v => hit (Py.truthy v && test v) (r v) acc
  | None => acc
  end.

(** [for pattern in names: if patterns.get(pattern): ...; break]. *)
Definition first_pattern (names : list string) (patterns : gmap string bool)
  : option string :=
  List.find (λ p, default false (patterns !! p)) names.

Definition hit_pattern (names : list string) (patterns : gmap string bool)
    (acc : Conditions) : Conditions :=
  match first_pattern names patterns with
  | Some p => hit true (Pattern p) acc
  | None => acc
  end.

Definition bullish_patterns : list string :=
  ["hammer"; "bullish_engulfing"; "bullish_pinbar"]%string.
Definition bearish_patterns : list string :=
  ["inverted_hammer"; "bearish_engulfing"; "bearish_pinbar"]%string.

(** [current_price and level and current_price <= level * 1.02]. *)
Definition near_support (current_price support : option Q) : bool :=
  match current_price, support with
  | Some p, Some s => Py.truthy p && Py.truthy s && Py.leb p (s * 1.02)
  | _, _ => false
  end.

(** [current_price and level and current_price >= level * 0.98]. *)
Definition near_resistance (current_price resistance : option Q) : bool :=
  match current_price, resistance with
  | Some p, Some r => Py.truthy p && Py.truthy r && Py.geb p (r * 0.98)
  | _, _ => false
  end.

Definition str_is (o : option string) (s : string) : bool :=
  match o with Some x => String.eqb x s | None => false end.

(** [_check_long_conditions(analysis_1m, analysis_5m, btc_trend)]. *)
Definition _check_long_conditions (analysis_1m analysis_5m : Analysis.t)
    (btc_trend : string) : Conditions :=
  let acc := mkConditions 0 [] in
  let acc := hit (String.eqb btc_trend "bullish") BtcBullish acc in
  let rsi_7 := Analysis.rsi_7 analysis_1m in
  let rsi_14 := Analysis.rsi_14 analysis_1m in
  let acc := hit_rsi rsi_7 (λ v, Py.ltb v Config.RSI_OVERSOLD) Rsi7Oversold acc in
  let acc := hit_rsi rsi_14 (λ v, Py.ltb v Config.RSI_OVERSOLD) Rsi14Oversold acc in
  let acc := hit (str_is (Analysis.trend analysis_5m) "bullish") EmaBullish5m acc in
  let acc := hit (str_is (Analysis.obv_trend analysis_1m) "rising") ObvRising acc in
  let acc := hit (default false (Analysis.volume_spike analysis_1m)) VolumeSpike acc in
  let patterns := default ∅ (Analysis.candlestick_patterns analysis_1m) in
  let acc := hit_pattern bullish_patterns patterns acc in
  let current_price := Analysis.current_price analysis_1m in
  let support := Analysis.support analysis_5m in
  let acc := hit (near_support current_price support) NearSupport acc in
  acc.

(** [_check_short_conditions(analysis_1m, analysis_5m, btc_trend)]. *)
Definition _check_short_conditions (analysis_1m analysis_5m : Analysis.t)
    (btc_trend : string) : Conditions :=
  let acc := mkConditions 0 [] in
  let acc := hit (String.eqb btc_trend "bearish") BtcBearish acc in
  let rsi_7 := Analysis.rsi_7 analysis_1m in
  let rsi_14 := Analysis.rsi_14 analysis_1m in
  let acc := hit_rsi rsi_7 (λ v, Py.gtb v Config.RSI_OVERBOUGHT) Rsi7Overbought acc in
  let acc := hit_rsi rsi_14 (λ v, Py.gtb v Config.RSI_OVERBOUGHT) Rsi14Overbought acc in
  let acc := hit (str_is (Analysis.trend analysis_5m) "bearish") EmaBearish5m acc in
  let acc := hit (str_is (Analysis.obv_trend analysis_1m) "falling") ObvFalling acc in
  let acc := hit (default false (Analysis.volume_spike analysis_1m)) VolumeSpike acc in
  let patterns := default ∅ (Analysis.candlestick_patterns analysis_1m) in
  let acc := hit_pattern bearish_patterns patterns acc in
  let current_price := Analysis.current_price analysis_1m in
  let resistance := Analysis.resistance analysis_5m in
  let acc := hit (near_resistance current_price resistance) NearResistance acc in
  acc.

(** The value of [calculate_atr_stop_loss] as its caller stores it: the
    number; Python's [None] on a frame shorter than the period; a NaN when
    the rolling mean of the last row is missing; nothing is stored when the
    call raised. *)
Definition stop_loss_value (df : DataFrame) (atr_period : nat)
    (result : option (option Q)) : option Py.fnum :=
  match result with
  | Some (Some s) => Some (Py.Fin s)
  | Some None => if (len df <? atr_period)%nat then None else Some Py.NaN
  | None => None
  end.

Module SignalGenerator.

(** The dictionary [signal] as [check_entry_conditions] initialises it. *)
Definition no_signal : Signal.t :=
  Signal.mk false None 0 [] None None None false ∅ ∅ None.

Section WithLibrary.
Context `{lib : TA}.

(** The branch taken when one side wins: fills the signal, computes the
    Fibonacci targets on the last 20 bars of the 5m frame and the ATR stop on
    the 1m frame.  When the stop computation raises, the handler returns the
    signal as filled so far. *)
Definition emit (base : Signal.t) (dir : string) (helper_dir : string)
    (c : Conditions) (df_1m df_5m : DataFrame) : Signal.t * DataFrame :=
  let fib :=
    match Pd.max (Pd.tail 20 (col high df_5m)),
          Pd.min (Pd.tail 20 (col low df_5m)) with
    | Some h, Some l => calculate_fibonacci_levels h l helper_dir
    | _, _ => ∅
    end in
  let '(stop, df_1m') := calculate_atr_stop_loss df_1m 14 2 helper_dir in
  (Signal.mk true (Some dir) (score c) (reasons c)
     (Signal.price base) (Signal.rsi_7 base) (Signal.rsi_14 base)
     (Signal.volume_spike base) (Signal.candlestick_patterns base)
     fib (stop_loss_value df_1m 14 stop),
   df_1m').

(** [check_entry_conditions(df_1m, df_5m, btc_trend)]: the signal, and the
    1m frame as the call leaves it. *)
Definition check_entry_conditions (df_1m df_5m : DataFrame) (btc_trend : string)
  : Signal.t * DataFrame :=
  if ((len df_1m <? 50) || (len df_5m <? 50))%nat then (no_signal, df_1m)
  else
    let analysis_1m := TechnicalAnalysis.get_comprehensive_analysis df_1m in
    let analysis_5m := TechnicalAnalysis.get_comprehensive_analysis df_5m in
    let signal :=
      Signal.mk false None 0 []
        (Py.Fin <$> Analysis.current_price analysis_1m)
        (Analysis.rsi_7 analysis_1m)
        (Analysis.rsi_14 analysis_1m)
        (default false (Analysis.volume_spike analysis_1m))
        (default ∅ (Analysis.candlestick_patterns analysis_1m))
        ∅ None in
    let long_conditions := _check_long_conditions analysis_1m analysis_5m btc_trend in
    let short_conditions := _check_short_conditions analysis_1m analysis_5m btc_trend in
    if (score short_conditions <? score long_conditions)%Z
       && (3 <=? score long_conditions)%Z
    then emit signal "LONG" "long" long_conditions df_1m df_5m
    else if (score long_conditions <? score short_conditions)%Z
            && (3 <=? score short_conditions)%Z
    then emit signal "SHORT" "short" short_conditions df_1m df_5m
    else (signal, df_1m).

End WithLibrary.

(** [not fib_levels]: the dictionary is empty. *)
Definition dict_empty {A} (m : gmap string A) : bool :=
  match map_to_list m with [] => true | _ => false end.

(** [all(level > 0 for level in fib_levels.values())]. *)
Definition all_positive (m : gmap string Q) : bool :=
  forallb (λ kv, Py.gtb (snd kv) 0) (map_to_list m).

(** [not x or x <= 0] for a value that is [None] or a float: true for
    [None], zero, a negative number and minus infinity; false for a positive
    number, plus infinity and a NaN (which is true as a truth value and
    fails [<=]). *)
Definition missing_or_nonpositive (x : option Py.fnum) : bool :=
  match x with
  | Some v => negb (Py.ftruthy v) || Py.fleb v 0
  | None => true
  end.

(** [validate_signal_quality(signal)]. *)
Definition validate_signal_quality (signal : Signal.t) : bool :=
  if negb (Signal.has_signal signal) then false
  else if (Signal.strength signal <? 3)%Z then false
  else if missing_or_nonpositive (Signal.price signal) then false
  else if missing_or_nonpositive (Signal.stop_loss signal) then false
  else
    let fib_levels := Signal.fibonacci_levels signal in
    if dict_empty fib_levels || negb (all_positive fib_levels) then false
    else true.

End SignalGenerator.

(** ** [main.py]: what [analyze_market] does with the signal of one symbol.
    [signals_found] is the list later handed to the Telegram sender. *)
Module Main.
Section WithLibrary.
Context `{lib : TA}.

Definition analyze_symbol (data_1m data_5m : DataFrame) (btc_trend : string)
    (signals_found : list Signal.t) : list Signal.t :=
  if empty data_1m || empty data_5m then signals_found
  else
    let signal := fst (SignalGenerator.check_entry_conditions data_1m data_5m btc_trend) in
    if Signal.has_signal signal && SignalGenerator.validate_signal_quality signal
    then signals_found ++ [signal]
    else signals_found.

End WithLibrary.
End Main.

(** ** [src/strategies/exit_manager.py] *)

(** The dictionary [position_data], read with [.get(key, default)]: a
    missing key is the default ([''], [0], [{}]). *)
Module Position.
Record t := mk {
  direction : string;
  entry_price : Q;
  fibonacci_levels : gmap string Q
}.
End Position.

(** Entries of [signals_detected]. *)
Inductive ReversalSignal :=
  | ObvDivergent (t : string)
  | BearishPattern (name : string)
  | BullishPattern (name : string)
  | RsiOverbought (v : Q)
  | RsiOversold (v : Q)
  | Trend5mBearish
  | Trend5mBullish.

(** The texts stored in [exit_reason] / [reason]. *)
Inductive ExitReason :=
  | FibonacciHit (level : string)
  | AtrStopHit (stop : Q)
  | PrevLowBroken (l : Q)
  | PrevHighBroken (h : Q)
  | EmaBearishCross
  | EmaBullishCross
  | RsiExtremelyLow (v : Q)
  | RsiExtremelyHigh (v : Q)
  | ReversalDetected (signals : list ReversalSignal)
  | TrailingStopHit (level : Q).

(** [{'should_stop': _, 'reason': _}]. *)
Record StopResult := mkStop {
  should_stop : bool;
  reason : option ExitReason
}.

(** [{'should_exit': _, 'reason': _, 'signals': _}]. *)
Record ReversalResult := mkReversal {
  rev_should_exit : bool;
  rev_reason : option ExitReason;
  rev_signals : list ReversalSignal
}.

(** The dictionary [exit_analysis]. *)
Module Exit.
Record t := mk {
  should_exit : bool;
  exit_reason : option ExitReason;
  exit_type : option string;
  suggested_exit_price : option Q;
  profit_loss_pct : Q;
  fibonacci_hit : option string;
  technical_signals : list ReversalSignal
}.
End Exit.

Module ExitManager.

Definition no_stop : StopResult := mkStop false None.
Definition no_reversal : ReversalResult := mkReversal false None [].
Definition no_exit : Exit.t := Exit.mk false None None None 0 None [].

(** [_check_fibonacci_levels(position_data, current_price)]. *)
Definition _check_fibonacci_levels (position_data : Position.t) (current_price : Q)
  : option string :=
  let fibonacci_levels := Position.fibonacci_levels position_data in
  let direction := Py.upper (Position.direction position_data) in
  if SignalGenerator.dict_empty fibonacci_levels then None
  else if String.eqb direction "LONG" then
    List.find (λ level_name,
      match fibonacci_levels !! level_name with
      | Some level_price => Py.truthy level_price && Py.geb current_price level_price
      | None => false
      end) ["TP1"; "TP2"; "TP3"]%string
  else if String.eqb direction "SHORT" then
    List.find (λ level_name,
      match fibonacci_levels !! level_name with
      | Some level_price => Py.truthy level_price && Py.leb current_price level_price
      | None => false
      end) ["TP1"; "TP2"; "TP3"]%string
  else None.

(** The unrealised profit in percent, as [_check_trailing_stop] computes
    it: the long formula for ['LONG'], the short formula for anything else. *)
Definition profit_pct (direction : string) (current_price entry_price : Q) : Py.fnum :=
  if String.eqb direction "LONG"
  then Py.fscale (Py.fdiv (current_price - entry_price) entry_price) 100
  else Py.fscale (Py.fdiv (entry_price - current_price) entry_price) 100.

(** [_check_trailing_stop(position_data, df_1m)]. *)
Definition _check_trailing_stop (position_data : Position.t) (df_1m : DataFrame)
  : StopResult :=
  let direction := Py.upper (Position.direction position_data) in
  let entry_price := Position.entry_price position_data in
  match Pd.iloc_last (col close df_1m) with
  | None => no_stop
  | Some current_price =>
      if Py.fleb (profit_pct direction current_price entry_price) 1 then no_stop
      else
        let lookback_period := Nat.min 10 (len df_1m) in
        let recent_data := Pd.tail lookback_period (rows df_1m) in
        if String.eqb direction "LONG" then
          match Pd.max (low <$> recent_data) with
          | Some m =>
              let trailing_level := m * 0.995 in
              if Py.leb current_price trailing_level
              then mkStop true (Some (TrailingStopHit trailing_level))
              else no_stop
          | None => no_stop
          end
        else if String.eqb direction "SHORT" then
          match Pd.min (high <$> recent_data) with
          | Some m =>
              let trailing_level := m * 1.005 in
              if Py.geb current_price trailing_level
              then mkStop true (Some (TrailingStopHit trailing_level))
              else no_stop
          | None => no_stop
          end
        else no_stop
  end.

Section WithLibrary.
Context `{lib : TA}.

(** Step 3 of [_check_dynamic_stop_loss]: an EMA 20/50 cross on the 5m
    frame against the position. *)
Definition ema_cross_stop (direction : string) (df_5m : DataFrame) : option ExitReason :=
  if (50 <=? len df_5m)%nat then
    let ema_20 := TechnicalAnalysis.calculate_ema df_5m 20 in
    let ema_50 := TechnicalAnalysis.calculate_ema df_5m 50 in
    match Pd.iloc_last ema_20, Pd.iloc_last ema_50 with
    | Some current_ema_20, Some current_ema_50 =>
        let prev_ema_20 := default current_ema_20 (Pd.iloc_neg 2 ema_20) in
        let prev_ema_50 := default current_ema_50 (Pd.iloc_neg 2 ema_50) in
        let gt a b := match a, b with Some x, Some y => Py.gtb x y | _, _ => false end in
        let lt a b := match a, b with Some x, Some y => Py.ltb x y | _, _ => false end in
        if String.eqb direction "LONG" then
          if gt prev_ema_20 prev_ema_50 && lt current_ema_20 current_ema_50
          then Some EmaBearishCross else None
        else if String.eqb direction "SHORT" then
          if lt prev_ema_20 prev_ema_50 && gt current_ema_20 current_ema_50
          then Some EmaBullishCross else None
        else None
    | _, _ => None
    end
  else None.

(** Step 4 of [_check_dynamic_stop_loss]: RSI(14) of the 1m frame at an
    extreme against the position. *)
Definition rsi_extreme_stop (direction : string) (df_1m : DataFrame) : option ExitReason :=
  match Pd.iloc_last (TechnicalAnalysis.calculate_rsi df_1m 14) with
  | Some (Some current_rsi) =>
      if String.eqb direction "LONG" && Py.ltb current_rsi 20
      then Some (RsiExtremelyLow current_rsi)
      else if String.eqb direction "SHORT" && Py.gtb current_rsi 80
      then Some (RsiExtremelyHigh current_rsi)
      else None
  | _ => None
  end.

Definition stop_with (r : ExitReason) : StopResult := mkStop true (Some r).

(** [_check_dynamic_stop_loss(position_data, df_1m, df_5m)]: the result, and
    the 1m frame as the call leaves it. *)
Definition _check_dynamic_stop_loss (position_data : Position.t)
    (df_1m df_5m : DataFrame) : StopResult * DataFrame :=
  let direction := Py.upper (Position.direction position_data) in
  match Pd.iloc_last (col close df_1m) with
  | None => (no_stop, df_1m)
  | Some current_price =>
      let '(atr_stop, df_1m') :=
        calculate_atr_stop_loss df_1m 14 2 (Py.lower direction) in
      match atr_stop with
      | None => (no_stop, df_1m')
      | Some atr_stop =>
          let atr_hit :=
            match atr_stop with
            | Some s =>
                if Py.truthy s then
                  if String.eqb direction "LONG" && Py.leb current_price s then Some s
                  else if String.eqb direction "SHORT" && Py.geb current_price s then Some s
                  else None
                else None
            | None => None
            end in
          match atr_hit with
          | Some s => (stop_with (AtrStopHit s), df_1m')
          | None =>
              match Pd.iloc_neg 2 (rows df_1m) with
              | None => (no_stop, df_1m')
              | Some prev_candle =>
                  if String.eqb direction "LONG" && Py.leb current_price (low prev_candle)
                  then (stop_with (PrevLowBroken (low prev_candle)), df_1m')
                  else if String.eqb direction "SHORT"
                          && Py.geb current_price (high prev_candle)
                  then (stop_with (PrevHighBroken (high prev_candle)), df_1m')
                  else
                    match ema_cross_stop direction df_5m with
                    | Some r => (stop_with r, df_1m')
                    | None =>
                        match rsi_extreme_stop direction df_1m' with
                        | Some r => (stop_with r, df_1m')
                        | None => (no_stop, df_1m')
                        end
                    end
              end
          end
      end
  end.

(** [_check_trend_reversal(position_data, df_1m, df_5m)]. *)
Definition _check_trend_reversal (position_data : Position.t)
    (df_1m df_5m : DataFrame) : ReversalResult :=
  let direction := Py.upper (Position.direction position_data) in
  let analysis_1m := TechnicalAnalysis.get_comprehensive_analysis df_1m in
  let analysis_5m := TechnicalAnalysis.get_comprehensive_analysis df_5m in
  let is_long := String.eqb direction "LONG" in
  let is_short := String.eqb direction "SHORT" in
  let s1 :=
    match Analysis.obv_trend analysis_1m with
    | Some t =>
        if Py.truthy_str t then
          if is_long && String.eqb t "falling" then [ObvDivergent "falling"]
          else if is_short && String.eqb t "rising" then [ObvDivergent "rising"]
          else []
        else []
    | None => []
    end in
  let patterns := default ∅ (Analysis.candlestick_patterns analysis_1m) in
  let s2 :=
    if is_long then
      match first_pattern bearish_patterns patterns with
      | Some p => [BearishPattern p] | None => [] end
    else if is_short then
      match first_pattern bullish_patterns patterns with
      | Some p => [BullishPattern p] | None => [] end
    else [] in
  let s3 :=
    match Analysis.rsi_14 analysis_1m with
    | Some rsi_14 =>
        if Py.truthy rsi_14 then
          if is_long && Py.gtb rsi_14 75 then [RsiOverbought rsi_14]
          else if is_short && Py.ltb rsi_14 25 then [RsiOversold rsi_14]
          else []
        else []
    | None => []
    end in
  let s4 :=
    match Analysis.trend analysis_5m with
    | Some trend_5m =>
        if Py.truthy_str trend_5m then
          if is_long && String.eqb trend_5m "bearish" then [Trend5mBearish]
          else if is_short && String.eqb trend_5m "bullish" then [Trend5mBullish]
          else []
        else []
    | None => []
    end in
  let signals_detected := s1 ++ s2 ++ s3 ++ s4 in
  let reversal_signals := length signals_detected in
  if (2 <=? reversal_signals)%nat
  then mkReversal true (Some (ReversalDetected signals_detected)) signals_detected
  else no_reversal.

(** [analyze_exit_conditions(symbol, position_data, market_data_1m,
    market_data_5m)]: the analysis, and the 1m frame as the call leaves it.
    [symbol] is only used for logging. *)
Definition analyze_exit_conditions (position_data : Position.t)
    (market_data_1m market_data_5m : DataFrame) : Exit.t * DataFrame :=
  if empty market_data_1m || empty market_data_5m then (no_exit, market_data_1m)
  else
    match Pd.iloc_last (col close market_data_1m) with
    | None => (no_exit, market_data_1m)
    | Some current_price =>
        let entry_price := Position.entry_price position_data in
        let direction := Py.upper (Position.direction position_data) in
        if negb (Py.truthy entry_price) || negb (Py.truthy_str direction)
        then (no_exit, market_data_1m)
        else
          let profit_loss_pct :=
            if String.eqb direction "LONG"
            then ((current_price - entry_price) / entry_price) * 100
            else ((entry_price - current_price) / entry_price) * 100 in
          let base ty why fib sig :=
            Exit.mk true why (Some ty) (Some current_price)
                    profit_loss_pct fib sig in
          match _check_fibonacci_levels position_data current_price with
          | Some fib_hit =>
              (base "take_profit" (Some (FibonacciHit fib_hit)) (Some fib_hit) [],
               market_data_1m)
          | None =>
              let '(stop_loss_hit, df_1m') :=
                _check_dynamic_stop_loss position_data market_data_1m market_data_5m in
              if should_stop stop_loss_hit
              then (base "stop_loss" (reason stop_loss_hit) None [], df_1m')
              else
                let reversal_signal :=
                  _check_trend_reversal position_data df_1m' market_data_5m in
                if rev_should_exit reversal_signal
                then (base "reversal" (rev_reason reversal_signal) None
                        (rev_signals reversal_signal), df_1m')
                else
                  let trailing_stop := _check_trailing_stop position_data df_1m' in
                  if should_stop trailing_stop
                  then (base "trailing_stop" (reason trailing_stop) None [], df_1m')
                  else (Exit.mk false None None (Some current_price)
                                profit_loss_pct None [], df_1m')
          end
    end.

End WithLibrary.
End ExitManager.

(** ** A reference instance of the indicator library

    The formulas of the [ta] package on exact rationals: Wilder's RSI
    ([ewm(alpha=1/window, adjust=False)] of the gains and of the losses), the
    exponential moving average ([ewm(span=window, adjust=False)]), on-balance
    volume (cumulative signed volume) and the Wilder-smoothed average true
    range.  The general theorems below hold for every instance of [TA]; this
    one is used to run the engine on concrete frames. *)
Module TaModel.

Fixpoint ewm_from (alpha prev : Q) (l : list Q) : list Q :=
  match l with
  | [] => []
  | x :: r => let y := (1 - alpha) * prev + alpha * x in y :: ewm_from alpha y r
  end.

(** [s.ewm(alpha=alpha, adjust=False).mean()]. *)
Definition ewm (alpha : Q) (l : list Q) : list Q :=
  match l with [] => [] | x :: r => x :: ewm_from alpha x r end.

(** [min_periods]: the first [min_periods - 1] rows are missing. *)
Definition mask (min_periods : nat) (l : list Q) : Series :=
  imap (λ i y, if (S i <? min_periods)%nat then None else Some y) l.

(** [s.diff(1)], with [0] in the first row (where the program replaces the
    missing difference by [0.0]). *)
Definition diff0 (l : list Q) : list Q :=
  match l with
  | [] => []
  | _ :: r => 0 :: zip_with (λ prev cur, cur - prev) l r
  end.

Definition rsi (close : list Q) (window : nat) : option Series :=
  if (window =? 0)%nat then None
  else
    let alpha := 1 / inject_Z (Z.of_nat window) in
    let d := diff0 close in
    let up := (λ x, if Py.gtb x 0 then x else 0) <$> d in
    let dn := (λ x, if Py.ltb x 0 then - x else 0) <$> d in
    let values :=
      zip_with (λ u n, if Py.eqb n 0 then 100 else 100 - 100 / (1 + u / n))
               (ewm alpha up) (ewm alpha dn) in
    Some (mask window values).

Definition ema (close : list Q) (window : nat) : option Series :=
  Some (mask window (ewm (2 / inject_Z (Z.of_nat (window + 1))) close)).

Fixpoint cumsum_from (acc : Q) (l : list Q) : list Q :=
  match l with
  | [] => []
  | x :: r => (acc + x) :: cumsum_from (acc + x) r
  end.

Definition obv (close volume : list Q) : option Series :=
  let prev := Pd.shift1 close in
  let signed :=
    zip_with (λ cp v,
      match snd cp with
      | Some p => if Py.ltb (fst cp) p then - v else v
      | None => v
      end) (zip close prev) volume in
  Some (Some <$> cumsum_from 0 signed).

Definition tr (high low close : list Q) : list Q :=
  zip_with (λ hl p,
    let h := fst hl in let l := snd hl in
    match p with
    | Some pc => Qmax (Qmax (h - l) (Qabs (h - pc))) (Qabs (l - pc))
    | None => h - l
    end) (zip high low) (Pd.shift1 close).

Fixpoint wilder_from (window : nat) (prev : Q) (l : list Q) : list Q :=
  match l with
  | [] => []
  | x :: r =>
      let y := (prev * inject_Z (Z.of_nat (window - 1)) + x)
               / inject_Z (Z.of_nat window) in
      y :: wilder_from window y r
  end.

Definition atr (high low close : list Q) (window : nat) : option Series :=
  if ((window =? 0) || (length close <? window))%nat then None
  else
    let t := tr high low close in
    first_value ← Pd.mean (take window t);
    Some (Some <$> (repeat 0 (window - 1) ++ first_value
                     :: wilder_from window first_value (drop window t))).

Definition lib : TA := Build_TA rsi ema obv atr.

(** The same library with an RSI call that raises, and with an RSI series
    that is still warming up (every value missing). *)
Definition without_rsi : TA := Build_TA (λ _ _, None) ema obv atr.
Definition warming_rsi : TA :=
  Build_TA (λ close _, Some ((λ _, None) <$> close)) ema obv atr.

End TaModel.

(** ** Notions used by the statements *)

(** The eight tests of a scoring function, in the order in which it makes
    them; each one that holds adds one point and one reason. *)
Definition rsi_rule (rsi : option Q) (test : Q → bool) : bool :=
  match rsi with Some v => Py.truthy v && test v | None => false end.

Definition pattern_rule (names : list string) (patterns : gmap string bool) : bool :=
  match first_pattern names patterns with Some _ => true | None => false end.

Definition long_rules (analysis_1m analysis_5m : Analysis.t) (btc_trend : string)
  : list bool :=
  [ String.eqb btc_trend "bullish";
    rsi_rule (Analysis.rsi_7 analysis_1m) (λ v, Py.ltb v Config.RSI_OVERSOLD);
    rsi_rule (Analysis.rsi_14 analysis_1m) (λ v, Py.ltb v Config.RSI_OVERSOLD);
    str_is (Analysis.trend analysis_5m) "bullish";
    str_is (Analysis.obv_trend analysis_1m) "rising";
    default false (Analysis.volume_spike analysis_1m);
    pattern_rule bullish_patterns
      (default ∅ (Analysis.candlestick_patterns analysis_1m));
    near_support (Analysis.current_price analysis_1m) (Analysis.support analysis_5m) ].

Definition short_rules (analysis_1m analysis_5m : Analysis.t) (btc_trend : string)
  : list bool :=
  [ String.eqb btc_trend "bearish";
    rsi_rule (Analysis.rsi_7 analysis_1m) (λ v, Py.gtb v Config.RSI_OVERBOUGHT);
    rsi_rule (Analysis.rsi_14 analysis_1m) (λ v, Py.gtb v Config.RSI_OVERBOUGHT);
    str_is (Analysis.trend analysis_5m) "bearish";
    str_is (Analysis.obv_trend analysis_1m) "falling";
    default false (Analysis.volume_spike analysis_1m);
    pattern_rule bearish_patterns
      (default ∅ (Analysis.candlestick_patterns analysis_1m));
    near_resistance (Analysis.current_price analysis_1m)
      (Analysis.resistance analysis_5m) ].

(** Number of tests that hold. *)
Definition fired (rules : list bool) : Z :=
  fold_right (λ b n, (Z.b2z b + n)%Z) 0%Z rules.

(** Updating one key of a snapshot. *)
Definition with_rsi_7 (v : option Q) (a : Analysis.t) : Analysis.t :=
  Analysis.mk v (Analysis.rsi_14 a) (Analysis.ema_20 a) (Analysis.ema_50 a)
    (Analysis.obv a) (Analysis.obv_trend a) (Analysis.atr a) (Analysis.trend a)
    (Analysis.volume_spike a) (Analysis.candlestick_patterns a)
    (Analysis.support a) (Analysis.resistance a)
    (Analysis.current_price a) (Analysis.current_volume a).

Definition with_rsi_14 (v : option Q) (a : Analysis.t) : Analysis.t :=
  Analysis.mk (Analysis.rsi_7 a) v (Analysis.ema_20 a) (Analysis.ema_50 a)
    (Analysis.obv a) (Analysis.obv_trend a) (Analysis.atr a) (Analysis.trend a)
    (Analysis.volume_spike a) (Analysis.candlestick_patterns a)
    (Analysis.support a) (Analysis.resistance a)
    (Analysis.current_price a) (Analysis.current_volume a).

(** The mirror transformation of a scoring input: prices reflected about a
    pivot (support and resistance change roles), RSI complemented from 100,
    trends and OBV direction flipped, bullish and bearish patterns swapped. *)
Module Mirror.

Definition trend (s : string) : string :=
  if String.eqb s "bullish" then "bearish"
  else if String.eqb s "bearish" then "bullish"
  else s.

Definition obv_trend (s : string) : string :=
  if String.eqb s "rising" then "falling"
  else if String.eqb s "falling" then "rising"
  else s.

Definition pattern (s : string) : string :=
  if String.eqb s "hammer" then "inverted_hammer"
  else if String.eqb s "inverted_hammer" then "hammer"
  else if String.eqb s "bullish_engulfing" then "bearish_engulfing"
  else if String.eqb s "bearish_engulfing" then "bullish_engulfing"
  else if String.eqb s "bullish_pinbar" then "bearish_pinbar"
  else if String.eqb s "bearish_pinbar" then "bullish_pinbar"
  else s.

Definition price (pivot p : Q) : Q := 2 * pivot - p.
Definition rsi (v : Q) : Q := 100 - v.

(** The pattern dictionary with every key renamed by [pattern]. *)
Definition patterns (m : gmap string bool) : gmap string bool :=
  kmap (M1 := gmap string) (M2 := gmap string) pattern m.

Definition analysis (pivot : Q) (a : Analysis.t) : Analysis.t :=
  Analysis.mk
    (rsi <$> Analysis.rsi_7 a)
    (rsi <$> Analysis.rsi_14 a)
    (price pivot <$> Analysis.ema_20 a)
    (price pivot <$> Analysis.ema_50 a)
    (Qopp <$> Analysis.obv a)
    (obv_trend <$> Analysis.obv_trend a)
    (Analysis.atr a)
    (trend <$> Analysis.trend a)
    (Analysis.volume_spike a)
    (patterns <$> Analysis.candlestick_patterns a)
    (price pivot <$> Analysis.resistance a)
    (price pivot <$> Analysis.support a)
    (price pivot <$> Analysis.current_price a)
    (Analysis.current_volume a).

End Mirror.

(** Section 3 of the design: timestamps strictly increasing, and the OHLC
    invariant of a candle. *)
Fixpoint strictly_increasing (l : list Z) : bool :=
  match l with
  | x :: ((y :: _) as r) => (x <? y)%Z && strictly_increasing r
  | _ => true
  end.

Definition ohlc_invariant (c : Candle) : bool :=
  Py.geb (high c) (Qmax (Qmax (open c) (close c)) (low c))
  && Py.leb (low c) (Qmin (Qmin (open c) (close c)) (high c)).

Definition malformed (df : DataFrame) : bool :=
  negb (strictly_increasing (timestamp <$> rows df))
  || negb (forallb ohlc_invariant (rows df)).

(** A candle without its index entry. *)
Definition ohlcv (c : Candle) : Q * Q * Q * Q * Q :=
  (open c, high c, low c, close c, volume c).

(** The library answered every RSI and EMA request of the snapshot with a
    non-empty series (it neither raised nor returned nothing). *)
Definition indicators_answered `{lib : TA} (df : DataFrame) : Prop :=
  TechnicalAnalysis.calculate_rsi df 7 ≠ []
  ∧ TechnicalAnalysis.calculate_rsi df 14 ≠ []
  ∧ TechnicalAnalysis.calculate_ema df 20 ≠ []
  ∧ TechnicalAnalysis.calculate_ema df 50 ≠ [].

(** [x > 0] for a value that is [None] or a float: false for [None] and
    for a NaN. *)
Definition positive (x : option Py.fnum) : Prop :=
  match x with
  | Some (Py.Fin p) => 0 < p
  | Some Py.PosInf => True
  | _ => False
  end.

(** The dictionary [m] holds, under [name], a number equal to [v]. *)
Definition holds (m : gmap string Q) (name : string) (v : Q) : Prop :=
  ∃ x, m !! name = Some x ∧ x == v.

(** The current price has reached the stored level [name] of a position:
    at or above it for a long, at or below it for a short. *)
Definition level_reached (position_data : Position.t) (current_price : Q)
    (name : string) : Prop :=
  ∃ level,
    Position.fibonacci_levels position_data !! name = Some level
    ∧ ((Py.upper (Position.direction position_data) = "LONG"%string
        ∧ level <= current_price)
       ∨ (Py.upper (Position.direction position_data) = "SHORT"%string
          ∧ current_price <= level)).

(** The same for a level that the take-profit check looks at: one of TP1,
    TP2, TP3, holding a non-zero price. *)
Definition checked_level_reached (position_data : Position.t) (current_price : Q)
    (name : string) : Prop :=
  name ∈ ["TP1"; "TP2"; "TP3"]%string
  ∧ ∃ level,
      Position.fibonacci_levels position_data !! name = Some level
      ∧ ¬ level == 0
      ∧ ((Py.upper (Position.direction position_data) = "LONG"%string
          ∧ level <= current_price)
         ∨ (Py.upper (Position.direction position_data) = "SHORT"%string
            ∧ current_price <= level)).

(** ** Concrete frames *)
Module Examples.

Definition qn (n : nat) : Q := inject_Z (Z.of_nat n).

(** Fifty 1m bars: the price falls by 1 per bar from 1170 to 1122, then the
    last bar is a hammer that closes half a point up on ten times the
    volume. *)
Definition falling_1m : DataFrame := df_of (
  ((λ i, mkCandle (60 * Z.of_nat i)
           (1171 - qn i) (1171 - qn i) (1170 - qn i) (1170 - qn i) 100)
     <$> seq 0 49)
  ++ [mkCandle 2940 1122 1122.5 1120 1122.5 1000]).

(** The fifty 5m bars of the same market: forty bars rising by 3, then the
    ten bars that cover the fifty minutes of [falling_1m]. *)
Definition rising_then_falling_5m : DataFrame := df_of (
  ((λ k, mkCandle (300 * Z.of_nat k)
           (1051 + 3 * qn k) (1054 + 3 * qn k) (1051 + 3 * qn k) (1054 + 3 * qn k) 500)
     <$> seq 0 40)
  ++ ((λ j, mkCandle (300 * Z.of_nat (40 + j))
              (1171 - 5 * qn j) (1171 - 5 * qn j) (1166 - 5 * qn j) (1166 - 5 * qn j) 500)
        <$> seq 0 9)
  ++ [mkCandle 14700 1126 1126 1120 1122.5 1400]).

(** [rising_then_falling_5m] with every timestamp negated (so that they
    decrease down the frame) and every candle's high and low exchanged (so
    that high < low). *)
Definition garbled_5m : DataFrame := df_of (
  (λ c, mkCandle (- timestamp c) (open c) (low c) (high c) (close c) (volume c))
    <$> rows rising_then_falling_5m).

(** Fourteen flat 1m bars at 105: every true range is 0, so the ATR stop
    of a long sits at the current price. *)
Definition flat_1m : DataFrame := df_of (
  (λ i, mkCandle (60 * Z.of_nat i) 105 105 105 105 10) <$> seq 0 14).

(** Twelve 1m bars whose lows peak at 110 before the close returns to
    100.5. *)
Definition spike_1m : DataFrame := df_of (
  ((λ i, mkCandle (60 * Z.of_nat i) 110 112 110 111 10) <$> seq 0 11)
  ++ [mkCandle 660 111 111 100 100.5 10]).

(** The mirror image of [spike_1m] for a short. *)
Definition dip_1m : DataFrame := df_of (
  ((λ i, mkCandle (60 * Z.of_nat i) 90 90 88 89 10) <$> seq 0 11)
  ++ [mkCandle 660 89 100 89 99.5 10]).

Definition long_position : Position.t :=
  Position.mk "long" 100 (calculate_fibonacci_levels 110 100 "long").
Definition short_position : Position.t :=
  Position.mk "short" 100 (calculate_fibonacci_levels 100 90 "short").

(** The same long entered at 99. *)
Definition long_from_99 : Position.t :=
  Position.mk "long" 99 (calculate_fibonacci_levels 110 100 "long").

(** A signal dictionary whose price is a NaN (the last close of a frame
    with a missing cell), every other field being valid. *)
Definition nan_price_signal : Signal.t :=
  Signal.mk true (Some "LONG"%string) 5 [] (Some Py.NaN) None None false ∅
    (calculate_fibonacci_levels 110 100 "long") (Some (Py.Fin 99)).

(** A long position whose entry price is missing from the dictionary. *)
Definition long_without_entry : Position.t :=
  Position.mk "long" 0 (calculate_fibonacci_levels 110 100 "long").

(** A scoring input, written out as the two dictionaries, on which every
    long-side test holds. *)
Definition oversold_1m : Analysis.t :=
  Analysis.mk (Some 25) (Some 28) None None None (Some "rising"%string) None
    (Some "neutral"%string) (Some true) (Some {[ "hammer"%string := true ]})
    None None (Some 100) None.
Definition uptrend_5m : Analysis.t :=
  Analysis.mk None None None None None None None (Some "bullish"%string) None None
    (Some 99) (Some 120) None None.

(** A scoring input with a price 4% above the 5m support. *)
Definition above_support_1m : Analysis.t :=
  Analysis.mk None None None None None None None None None None None None
    (Some 52) None.
Definition above_support_5m : Analysis.t :=
  Analysis.mk None None None None None None None None None None (Some 50) None
    None None.

(** A scoring input whose only content is an RSI(7) of exactly zero (a
    window in which no bar closed up). *)
Definition rsi_zero_1m : Analysis.t := with_rsi_7 (Some 0) Analysis.empty.

End Examples.

(** ** Further functions of the same files *)

(** [config/config.py]: the trading constants. *)
Module TradingConfig.
Definition LEVERAGE : Z := 7.
Definition POSITION_SIZE_PERCENT : Q := 1.
Definition MIN_POSITION_SIZE_USDT : Q := 1.
End TradingConfig.

(** Python's [max(a, b)]: the first argument unless the second is strictly
    larger. *)
Definition py_max (a b : Q) : Q := if Py.gtb b a then b else a.

(** [str.replace(old, new)] for one-character [old] and [new]. *)
Fixpoint replace_char (old new : ascii) (s : string) : string :=
  match s with
  | EmptyString => EmptyString
  | String c r =>
      String (if Ascii.eqb c old then new else c) (replace_char old new r)
  end.

(** [src/utils/helpers.py]. *)
Module Helpers.

(** [calculate_position_size(balance, percentage, min_size)]. *)
Definition calculate_position_size (balance percentage min_size : Q) : Q :=
  let position_size := balance * (percentage / 100) in
  py_max position_size min_size.

(** [validate_symbol(symbol)]: [symbol.upper().replace('/', '_')]. *)
Definition validate_symbol (symbol : string) : string :=
  replace_char "/" "_" (Py.upper symbol).

End Helpers.

(** [src/strategies/signal_generator.py]: the two members that the entry
    check does not call itself. *)
Module Reference.
Section WithLibrary.
Context `{lib : TA}.

(** [analyze_btc_trend(btc_data)]: the EMA trend of the reference pair,
    kept only if RSI(14) confirms it.  An empty RSI series counts as 50; a
    missing last value fails both comparisons. *)
Definition analyze_btc_trend (btc_data : DataFrame) : string :=
  if (len btc_data <? 50)%nat then "neutral"
  else
    let trend := TechnicalAnalysis.analyze_trend btc_data 20 50 in
    let rsi := TechnicalAnalysis.calculate_rsi btc_data 14 in
    let current_rsi : option Q :=
      match Pd.iloc_last rsi with Some v => v | None => Some 50 end in
    let above k := match current_rsi with Some r => Py.gtb r k | None => false end in
    let below k := match current_rsi with Some r => Py.ltb r k | None => false end in
    if String.eqb trend "bullish" && above 40 then "bullish"
    else if String.eqb trend "bearish" && below 60 then "bearish"
    else "neutral".

End WithLibrary.

(** [calculate_position_size(balance, price, leverage)].  [leverage or
    Config.LEVERAGE] is computed and not used. *)
Definition calculate_position_size (balance price : Q) (leverage : option Z) : Q :=
  let leverage :=
    match leverage with
    | Some l => if (l =? 0)%Z then TradingConfig.LEVERAGE else l
    | None => TradingConfig.LEVERAGE
    end in
  let position_value := balance * (TradingConfig.POSITION_SIZE_PERCENT / 100) in
  py_max position_value TradingConfig.MIN_POSITION_SIZE_USDT.

End Reference.

(** [src/strategies/exit_manager.py]: the cache of active positions, a
    dictionary from symbol to the position dictionary extended with the key
    ['last_update'].  [V] is the type of the values a position dictionary
    holds; [now] is the time stamp the call reads from the clock. *)
Module PositionCache.
Section WithValues.
Context {V : Type}.

(** [update_position_cache(symbol, position_data)]:
    [active_positions[symbol] = {**position_data, 'last_update': now}]. *)
Definition update_position_cache (symbol : string) (position_data : gmap string V)
    (now : V) (active_positions : gmap string (gmap string V))
  : gmap string (gmap string V) :=
  <[symbol := <["last_update"%string := now]> position_data]> active_positions.

(** [remove_position_from_cache(symbol)]:
    [if symbol in active_positions: del active_positions[symbol]]. *)
Definition remove_position_from_cache (symbol : string)
    (active_positions : gmap string (gmap string V)) : gmap string (gmap string V) :=
  match active_positions !! symbol with
  | Some _ => delete symbol active_positions
  | None => active_positions
  end.

(** [get_active_positions()]: a (shallow) copy of the dictionary. *)
Definition get_active_positions (active_positions : gmap string (gmap string V))
  : gmap string (gmap string V) := active_positions.

End WithValues.
End PositionCache.

(** [df[name]] for a column assigned after the frame's creation; [None] is
    a [KeyError]. *)
Fixpoint lookup_column (name : string) (cols : list (string * Series))
  : option Series :=
  match cols with
  | [] => None
  | (n, v) :: r => if String.eqb n name then Some v else lookup_column name r
  end.

Definition get_column (name : string) (df : DataFrame) : option Series :=
  lookup_column name (extra df).

(** The mirror image of a candle about a pivot: every price is reflected,
    so high and low change roles. *)
Definition mirror_candle (pivot : Q) (c : Candle) : Candle :=
  mkCandle (timestamp c) (Mirror.price pivot (open c))
    (Mirror.price pivot (low c)) (Mirror.price pivot (high c))
    (Mirror.price pivot (close c)) (volume c).

(** Updating the volume-spike flag of a snapshot. *)
Definition with_volume_spike (b : option bool) (a : Analysis.t) : Analysis.t :=
  Analysis.mk (Analysis.rsi_7 a) (Analysis.rsi_14 a) (Analysis.ema_20 a)
    (Analysis.ema_50 a) (Analysis.obv a) (Analysis.obv_trend a) (Analysis.atr a)
    (Analysis.trend a) b (Analysis.candlestick_patterns a)
    (Analysis.support a) (Analysis.resistance a)
    (Analysis.current_price a) (Analysis.current_volume a).

(** Every candle of the frame has its high at or above its low. *)
Definition high_above_low (df : DataFrame) : Prop :=
  Forall (λ c, low c <= high c) (rows df).

(** [after] is [before] with the four work columns of
    [calculate_atr_stop_loss] assigned from the rows of [before], and
    nothing else changed. *)
Definition work_columns_written (before after : DataFrame) : Prop :=
  rows after = rows before
  ∧ get_column "high_low" after = Some (Some <$> high_low before)
  ∧ get_column "high_close" after = Some (high_close before)
  ∧ get_column "low_close" after = Some (low_close before)
  ∧ get_column "true_range" after = Some (Some <$> true_range before)
  ∧ ∀ name, name ∉ ["high_low"; "high_close"; "low_close"; "true_range"]%string →
            get_column name after = get_column name before.

(** The pattern names of [identify_candlestick_patterns]. *)
Definition pattern_names : gset string :=
  {[ "doji"; "hammer"; "inverted_hammer"; "bullish_engulfing";
     "bearish_engulfing"; "bullish_pinbar"; "bearish_pinbar" ]}%string.

(** * Properties *)

(** ** Comparisons *)

Lemma ltb_lt x y : Py.ltb x y = true ↔ x < y.
Proof. unfold Py.ltb. rewrite Qlt_alt. destruct (x ?= y); split; congruence. Qed.

Lemma leb_le x y : Py.leb x y = true ↔ x <= y.
Proof. unfold Py.leb. rewrite Qle_alt. destruct (x ?= y); split; congruence. Qed.

Lemma gtb_lt x y : Py.gtb x y = true ↔ y < x.
Proof. apply ltb_lt. Qed.

Lemma geb_le x y : Py.geb x y = true ↔ y <= x.
Proof. apply leb_le. Qed.

Lemma eqb_eq x y : Py.eqb x y = true ↔ x == y.
Proof. unfold Py.eqb. rewrite Qeq_alt. destruct (x ?= y); split; congruence. Qed.

Lemma truthy_nonzero x : Py.truthy x = true ↔ ¬ x == 0.
Proof.
  unfold Py.truthy. rewrite negb_true_iff, <- eqb_eq.
  destruct (Py.eqb x 0); split; congruence.
Qed.

Lemma truthy_zero x : Py.truthy x = false ↔ x == 0.
Proof. unfold Py.truthy. by rewrite negb_false_iff, eqb_eq. Qed.

Lemma ltb_ge x y : Py.ltb x y = false ↔ y <= x.
Proof.
  rewrite <- not_true_iff_false, ltb_lt.
  split; [apply Qnot_lt_le | apply Qle_not_lt].
Qed.

Lemma leb_gt x y : Py.leb x y = false ↔ y < x.
Proof.
  rewrite <- not_true_iff_false, leb_le.
  split; [apply Qnot_le_lt | apply Qlt_not_le].
Qed.

(** ** Fibonacci targets *)

Lemma fibonacci_formula (h l : Q) :
  let long := calculate_fibonacci_levels h l "long" in
  let short := calculate_fibonacci_levels h l "short" in
  (long !! "TP1"%string = Some (l + (h - l) * 0.382)
   ∧ long !! "TP2"%string = Some (l + (h - l) * 0.618)
   ∧ long !! "TP3"%string = Some (l + (h - l) * 1)
   ∧ long !! "TP4"%string = Some (l + (h - l) * 1.618)
   ∧ dom long = {["TP1"; "TP2"; "TP3"; "TP4"]}%string)
  ∧ (short !! "TP1"%string = Some (h - (h - l) * 0.382)
   ∧ short !! "TP2"%string = Some (h - (h - l) * 0.618)
   ∧ short !! "TP3"%string = Some (h - (h - l) * 1)
   ∧ short !! "TP4"%string = Some (h - (h - l) * 1.618)
   ∧ dom short = {["TP1"; "TP2"; "TP3"; "TP4"]}%string).
Proof.
  cbv zeta. unfold calculate_fibonacci_levels.
  change (String.eqb (Py.lower "long") "long") with true.
  change (String.eqb (Py.lower "short") "long") with false.
  cbv iota.
  repeat split; try (by simplify_map_eq); rewrite !dom_insert_L; set_solver.
Qed.

(** C9.  [calculate_fibonacci_levels] returns exactly the four keys TP1..TP4
    with [TPn = low + (high - low) * ratio] for a long and
    [TPn = high - (high - low) * ratio] for a short, the ratios being 0.382,
    0.618, 1.0 and 1.618; for high = 110 and low = 100 the targets are
    103.82, 106.18, 110, 116.18 (long) and 106.18, 103.82, 100, 93.82
    (short).  On rationals the values are exact. *)
Theorem calculate_fibonacci_levels_spec :
  (∀ h l : Q,
     let long := calculate_fibonacci_levels h l "long" in
     let short := calculate_fibonacci_levels h l "short" in
     (long !! "TP1"%string = Some (l + (h - l) * 0.382)
      ∧ long !! "TP2"%string = Some (l + (h - l) * 0.618)
      ∧ long !! "TP3"%string = Some (l + (h - l) * 1)
      ∧ long !! "TP4"%string = Some (l + (h - l) * 1.618)
      ∧ dom long = {["TP1"; "TP2"; "TP3"; "TP4"]}%string)
     ∧ (short !! "TP1"%string = Some (h - (h - l) * 0.382)
      ∧ short !! "TP2"%string = Some (h - (h - l) * 0.618)
      ∧ short !! "TP3"%string = Some (h - (h - l) * 1)
      ∧ short !! "TP4"%string = Some (h - (h - l) * 1.618)
      ∧ dom short = {["TP1"; "TP2"; "TP3"; "TP4"]}%string))
  ∧ (let long := calculate_fibonacci_levels 110 100 "long" in
     holds long "TP1" 103.82 ∧ holds long "TP2" 106.18
     ∧ holds long "TP3" 110 ∧ holds long "TP4" 116.18)
  ∧ (let short := calculate_fibonacci_levels 110 100 "short" in
     holds short "TP1" 106.18 ∧ holds short "TP2" 103.82
     ∧ holds short "TP3" 100 ∧ holds short "TP4" 93.82).
Proof.
  split; [exact fibonacci_formula |].
  destruct (fibonacci_formula 110 100)
    as [(l1 & l2 & l3 & l4 & _) (s1 & s2 & s3 & s4 & _)].
  cbv zeta in *. unfold holds.
  repeat split; eexists; (split; [eassumption | reflexivity]).
Qed.

(** ** The quality gate *)

Section Gate.
Import SignalGenerator.

Lemma missing_or_nonpositive_false (x : option Py.fnum) :
  missing_or_nonpositive x = false ↔ positive x ∨ x = Some Py.NaN.
Proof.
  destruct x as [[q| | |]|]; simpl.
  - rewrite orb_false_iff, negb_false_iff, leb_gt. split.
    + intros [_ H]. by left.
    + intros [H | [=]]. split; [| done].
      apply truthy_nonzero. intros E. rewrite E in H. by apply Qlt_irrefl in H.
  - split; [by left | done].
  - split; [done | by intros [[] | [=]]].
  - split; [by right | done].
  - split; [done | by intros [[] | [=]]].
Qed.

Lemma dict_empty_true {A} (m : gmap string A) : dict_empty m = true ↔ m = ∅.
Proof.
  unfold dict_empty. rewrite <- (map_to_list_empty_iff m).
  destruct (map_to_list m); split; congruence.
Qed.

Lemma all_positive_true (m : gmap string Q) :
  all_positive m = true ↔ map_Forall (λ _ v, 0 < v) m.
Proof.
  unfold all_positive. rewrite map_Forall_to_list, forallb_forall, Forall_forall.
  split; intros H [k v] Hin.
  - apply gtb_lt. apply (H (k, v)). by apply list_elem_of_In.
  - apply gtb_lt. apply (H (k, v)). by apply list_elem_of_In.
Qed.

Lemma validate_signal_quality_iff (s : Signal.t) :
  validate_signal_quality s = true ↔
    Signal.has_signal s = true
    ∧ (3 <= Signal.strength s)%Z
    ∧ (positive (Signal.price s) ∨ Signal.price s = Some Py.NaN)
    ∧ (positive (Signal.stop_loss s) ∨ Signal.stop_loss s = Some Py.NaN)
    ∧ Signal.fibonacci_levels s ≠ ∅
    ∧ map_Forall (λ _ v, 0 < v) (Signal.fibonacci_levels s).
Proof.
  unfold validate_signal_quality.
  rewrite <- !missing_or_nonpositive_false, <- all_positive_true.
  rewrite <- (not_iff_compat (dict_empty_true (Signal.fibonacci_levels s))).
  destruct (Signal.has_signal s); simpl; [| intuition congruence].
  destruct (Z.ltb_spec (Signal.strength s) 3); [intuition lia |].
  destruct (missing_or_nonpositive (Signal.price s)); [intuition congruence |].
  destruct (missing_or_nonpositive (Signal.stop_loss s)); [intuition congruence |].
  destruct (dict_empty (Signal.fibonacci_levels s)); simpl; [intuition congruence |].
  destruct (all_positive (Signal.fibonacci_levels s)); simpl; intuition congruence.
Qed.

(** C7.  [validate_signal_quality] accepts a signal exactly when it has
    [has_signal] set, strength at least 3, a non-empty Fibonacci dictionary
    whose values are all above 0, and a price and a stop loss that are each
    above 0 or a NaN.  On signals whose price and stop loss are not NaN this
    is the rule of the claim; a signal of strength 2 is rejected whatever its
    other fields; and [analyze_market] adds a signal to the list handed to
    the alert sender only if the gate accepted it.  But a NaN price (or stop
    loss) is accepted, although it is not above 0: [not x or x <= 0] lets it
    through, where the test [level > 0] of the same function would not. *)
Theorem validate_signal_quality_gate :
  (∀ s : Signal.t,
     validate_signal_quality s = true ↔
       Signal.has_signal s = true
       ∧ (3 <= Signal.strength s)%Z
       ∧ (positive (Signal.price s) ∨ Signal.price s = Some Py.NaN)
       ∧ (positive (Signal.stop_loss s) ∨ Signal.stop_loss s = Some Py.NaN)
       ∧ Signal.fibonacci_levels s ≠ ∅
       ∧ map_Forall (λ _ v, 0 < v) (Signal.fibonacci_levels s))
  ∧ (∀ s : Signal.t,
       Signal.price s ≠ Some Py.NaN → Signal.stop_loss s ≠ Some Py.NaN →
       (validate_signal_quality s = true ↔
          Signal.has_signal s = true
          ∧ (3 <= Signal.strength s)%Z
          ∧ positive (Signal.price s)
          ∧ positive (Signal.stop_loss s)
          ∧ Signal.fibonacci_levels s ≠ ∅
          ∧ map_Forall (λ _ v, 0 < v) (Signal.fibonacci_levels s)))
  ∧ (∀ direction reasons price rsi_7 rsi_14 spike patterns fib stop_loss,
       validate_signal_quality
         (Signal.mk true direction 2 reasons price rsi_7 rsi_14 spike patterns
            fib stop_loss) = false)
  ∧ (∀ (lib : TA) data_1m data_5m btc_trend signals_found s,
       s ∈ Main.analyze_symbol data_1m data_5m btc_trend signals_found →
       s ∈ signals_found ∨ validate_signal_quality s = true)
  ∧ (∀ s : Signal.t,
       Signal.has_signal s = true → (3 <= Signal.strength s)%Z →
       Signal.price s = Some Py.NaN ∨ Signal.stop_loss s = Some Py.NaN →
       positive (Signal.price s) ∨ Signal.price s = Some Py.NaN →
       positive (Signal.stop_loss s) ∨ Signal.stop_loss s = Some Py.NaN →
       Signal.fibonacci_levels s ≠ ∅ →
       map_Forall (λ _ v, 0 < v) (Signal.fibonacci_levels s) →
       validate_signal_quality s = true
       ∧ ¬ (positive (Signal.price s) ∧ positive (Signal.stop_loss s)))
  ∧ (validate_signal_quality Examples.nan_price_signal = true
     ∧ ¬ positive (Signal.price Examples.nan_price_signal)).
Proof.
  split; [exact validate_signal_quality_iff |]. split; [| split; [| split; [| split]]].
  - intros s Hp Hs. rewrite validate_signal_quality_iff.
    split.
    + intros (H1 & H2 & [H3 | H3] & [H4 | H4] & H5 & H6); done.
    + intros (H1 & H2 & H3 & H4 & H5 & H6). auto 10.
  - intros. reflexivity.
  - intros lib d1 d5 btc found s. unfold Main.analyze_symbol.
    destruct (empty d1 || empty d5); [by left |].
    destruct (Signal.has_signal _ && validate_signal_quality _) eqn:E; [| by left].
    rewrite elem_of_app, list_elem_of_singleton. intros [H | ->]; [by left |].
    right. by apply andb_true_iff in E as [_ E].
  - intros s H1 H2 Hnan H3 H4 H5 H6. split.
    + apply validate_signal_quality_iff. auto 10.
    + intros [Hp Hs]. destruct Hnan as [E | E].
      * by rewrite E in Hp.
      * by rewrite E in Hs.
  - split; [| by intros []]. vm_compute. reflexivity.
Qed.

(** The gate at work: the signal raised on the example frames is the one
    element of the list, and it passed the gate; and the signal with a NaN
    price passes it as well. *)
Lemma validate_signal_quality_gate_witness :
  let s := fst (SignalGenerator.check_entry_conditions (lib := TaModel.lib)
                  Examples.falling_1m Examples.rising_then_falling_5m "bullish") in
  s ∈ Main.analyze_symbol (lib := TaModel.lib)
        Examples.falling_1m Examples.rising_then_falling_5m "bullish" []
  ∧ validate_signal_quality s = true
  ∧ validate_signal_quality Examples.nan_price_signal = true.
Proof.
  intros s.
  assert (Hin : s ∈ Main.analyze_symbol (lib := TaModel.lib)
            Examples.falling_1m Examples.rising_then_falling_5m "bullish" []).
  { assert (E : Main.analyze_symbol (lib := TaModel.lib)
              Examples.falling_1m Examples.rising_then_falling_5m "bullish" []
            = [s]) by (vm_compute; reflexivity).
    rewrite E. apply list_elem_of_here. }
  split; [exact Hin |]. split.
  - destruct (proj1 (proj2 (proj2 (proj2 validate_signal_quality_gate)))
                TaModel.lib _ _ _ _ _ Hin)
      as [H | H]; [| exact H].
    exfalso. apply (not_elem_of_nil _ H).
  - assert (H3 : (3 <= Signal.strength Examples.nan_price_signal)%Z)
      by (vm_compute; discriminate).
    assert (Hfib : Signal.fibonacci_levels Examples.nan_price_signal ≠ ∅).
    { intros E. apply (f_equal (λ m : gmap string Q, m !! "TP1"%string)) in E.
      vm_compute in E. discriminate E. }
    assert (Hpos : map_Forall (λ _ v, 0 < v)
                     (Signal.fibonacci_levels Examples.nan_price_signal)).
    { apply all_positive_true. vm_compute. reflexivity. }
    exact (proj1 (proj1 (proj2 (proj2 (proj2 (proj2 validate_signal_quality_gate))))
                    Examples.nan_price_signal eq_refl H3 (or_introl eq_refl)
                    (or_intror eq_refl) (or_introl eq_refl) Hfib Hpos)).
Defined.

End Gate.

(** ** Entry scoring *)

Lemma score_hit c r acc : score (hit c r acc) = (score acc + Z.b2z c)%Z.
Proof. destruct c; simpl; lia. Qed.

Lemma score_hit_rsi rsi test r acc :
  score (hit_rsi rsi test r acc) = (score acc + Z.b2z (rsi_rule rsi test))%Z.
Proof. destruct rsi as [v|]; simpl; [apply score_hit | lia]. Qed.

Lemma score_hit_pattern names patterns acc :
  score (hit_pattern names patterns acc)
  = (score acc + Z.b2z (pattern_rule names patterns))%Z.
Proof.
  unfold hit_pattern, pattern_rule.
  destruct (first_pattern names patterns); simpl; lia.
Qed.

Lemma long_score_fired a1 a5 btc :
  score (_check_long_conditions a1 a5 btc) = fired (long_rules a1 a5 btc).
Proof.
  unfold _check_long_conditions, long_rules, fired. cbv zeta.
  rewrite !score_hit, score_hit_pattern, !score_hit, !score_hit_rsi, score_hit.
  simpl. lia.
Qed.

Lemma short_score_fired a1 a5 btc :
  score (_check_short_conditions a1 a5 btc) = fired (short_rules a1 a5 btc).
Proof.
  unfold _check_short_conditions, short_rules, fired. cbv zeta.
  rewrite !score_hit, score_hit_pattern, !score_hit, !score_hit_rsi, score_hit.
  simpl. lia.
Qed.

Lemma b2z_range b : (0 <= Z.b2z b <= 1)%Z.
Proof. destruct b; simpl; lia. Qed.

Lemma fired_range rules : (0 <= fired rules <= Z.of_nat (length rules))%Z.
Proof.
  induction rules as [| b rules IH]; simpl; [lia |].
  pose proof (b2z_range b). lia.
Qed.

Lemma long_score_range a1 a5 btc :
  (0 <= score (_check_long_conditions a1 a5 btc) <= 8)%Z.
Proof. rewrite long_score_fired. apply (fired_range (long_rules a1 a5 btc)). Qed.

Lemma short_score_range a1 a5 btc :
  (0 <= score (_check_short_conditions a1 a5 btc) <= 8)%Z.
Proof. rewrite short_score_fired. apply (fired_range (short_rules a1 a5 btc)). Qed.

Section Entry.
Context `{lib : TA}.
Import SignalGenerator.

Lemma fst_emit base dir helper_dir c df_1m df_5m :
  let s := fst (emit base dir helper_dir c df_1m df_5m) in
  Signal.has_signal s = true ∧ Signal.direction s = Some dir
  ∧ Signal.strength s = score c ∧ Signal.reasons s = reasons c.
Proof.
  unfold emit. destruct (calculate_atr_stop_loss df_1m 14 2 helper_dir). by simpl.
Qed.

Lemma check_entry_conditions_cases df_1m df_5m btc_trend :
  let long := _check_long_conditions
                (TechnicalAnalysis.get_comprehensive_analysis df_1m)
                (TechnicalAnalysis.get_comprehensive_analysis df_5m) btc_trend in
  let short := _check_short_conditions
                (TechnicalAnalysis.get_comprehensive_analysis df_1m)
                (TechnicalAnalysis.get_comprehensive_analysis df_5m) btc_trend in
  let s := fst (check_entry_conditions df_1m df_5m btc_trend) in
  ((50 <= len df_1m)%nat ∧ (50 <= len df_5m)%nat ∧ (score short < score long)%Z
     ∧ (3 <= score long)%Z ∧ Signal.has_signal s = true
     ∧ Signal.direction s = Some "LONG"%string ∧ Signal.strength s = score long)
  ∨ ((50 <= len df_1m)%nat ∧ (50 <= len df_5m)%nat ∧ (score long < score short)%Z
     ∧ (3 <= score short)%Z ∧ Signal.has_signal s = true
     ∧ Signal.direction s = Some "SHORT"%string ∧ Signal.strength s = score short)
  ∨ (((len df_1m < 50)%nat ∨ (len df_5m < 50)%nat
      ∨ (score long = score short)
      ∨ (Z.max (score long) (score short) < 3)%Z)
     ∧ Signal.has_signal s = false ∧ Signal.direction s = None
     ∧ Signal.strength s = 0%Z).
Proof.
  cbv zeta. unfold check_entry_conditions.
  destruct (Nat.ltb_spec (len df_1m) 50); simpl; [right; right; auto |].
  destruct (Nat.ltb_spec (len df_5m) 50); simpl; [right; right; auto |].
  set (long := _check_long_conditions _ _ _).
  set (short := _check_short_conditions _ _ _).
  destruct (Z.ltb_spec (score short) (score long)) as [Hl | Hl];
    destruct (Z.leb_spec 3 (score long)) as [H3 | H3]; simpl.
  1: { left. destruct (fst_emit
         (Signal.mk false None 0 []
            (Py.Fin <$> Analysis.current_price
                          (TechnicalAnalysis.get_comprehensive_analysis df_1m))
            (Analysis.rsi_7 (TechnicalAnalysis.get_comprehensive_analysis df_1m))
            (Analysis.rsi_14 (TechnicalAnalysis.get_comprehensive_analysis df_1m))
            (default false (Analysis.volume_spike (TechnicalAnalysis.get_comprehensive_analysis df_1m)))
            (default ∅ (Analysis.candlestick_patterns (TechnicalAnalysis.get_comprehensive_analysis df_1m)))
            ∅ None) "LONG" "long" long df_1m df_5m) as (? & ? & ? & _).
       repeat split; assumption. }
  all: destruct (Z.ltb_spec (score long) (score short)) as [Hs | Hs];
    destruct (Z.leb_spec 3 (score short)) as [H3' | H3']; simpl;
    try (right; right; repeat split; auto; right; right; lia).
  all: right; left;
    destruct (fst_emit
         (Signal.mk false None 0 []
            (Py.Fin <$> Analysis.current_price
                          (TechnicalAnalysis.get_comprehensive_analysis df_1m))
            (Analysis.rsi_7 (TechnicalAnalysis.get_comprehensive_analysis df_1m))
            (Analysis.rsi_14 (TechnicalAnalysis.get_comprehensive_analysis df_1m))
            (default false (Analysis.volume_spike (TechnicalAnalysis.get_comprehensive_analysis df_1m)))
            (default ∅ (Analysis.candlestick_patterns (TechnicalAnalysis.get_comprehensive_analysis df_1m)))
            ∅ None) "SHORT" "short" short df_1m df_5m) as (? & ? & ? & _);
    repeat split; try assumption; lia.
Qed.

(** The strength of every signal lies between 0 and 8. *)
Lemma check_entry_conditions_strength_range df_1m df_5m btc_trend :
  (0 <= Signal.strength (fst (check_entry_conditions df_1m df_5m btc_trend)) <= 8)%Z.
Proof.
  pose proof (long_score_range
                (TechnicalAnalysis.get_comprehensive_analysis df_1m)
                (TechnicalAnalysis.get_comprehensive_analysis df_5m) btc_trend).
  pose proof (short_score_range
                (TechnicalAnalysis.get_comprehensive_analysis df_1m)
                (TechnicalAnalysis.get_comprehensive_analysis df_5m) btc_trend).
  destruct (check_entry_conditions_cases df_1m df_5m btc_trend)
    as [(_ & _ & _ & _ & _ & _ & ->)
       | [(_ & _ & _ & _ & _ & _ & ->) | (_ & _ & _ & ->)]]; lia.
Qed.

End Entry.

Section Decision.
Context `{lib : TA}.
Import SignalGenerator.

(** C3.  On two windows of at least 50 bars (the only ones for which the
    analyses are computed), [check_entry_conditions] emits a signal exactly
    when the larger of the long and the short score is at least 3 and
    strictly greater than the other; equal scores, whatever their value, emit
    nothing; and the direction and strength of an emitted signal are those
    of the strictly larger score. *)
Theorem check_entry_conditions_decision (df_1m df_5m : DataFrame) (btc_trend : string) :
  (50 <= len df_1m)%nat → (50 <= len df_5m)%nat →
  let analysis_1m := TechnicalAnalysis.get_comprehensive_analysis df_1m in
  let analysis_5m := TechnicalAnalysis.get_comprehensive_analysis df_5m in
  let long := score (_check_long_conditions analysis_1m analysis_5m btc_trend) in
  let short := score (_check_short_conditions analysis_1m analysis_5m btc_trend) in
  let signal := fst (check_entry_conditions df_1m df_5m btc_trend) in
  (Signal.has_signal signal = true
     ↔ (3 <= Z.max long short)%Z ∧ (Z.min long short < Z.max long short)%Z)
  ∧ (long = short → Signal.has_signal signal = false)
  ∧ (Signal.has_signal signal = true →
       ((short < long)%Z ∧ Signal.direction signal = Some "LONG"%string
          ∧ Signal.strength signal = long)
       ∨ ((long < short)%Z ∧ Signal.direction signal = Some "SHORT"%string
          ∧ Signal.strength signal = short)).
Proof.
  intros H1 H5. cbv zeta.
  destruct (check_entry_conditions_cases df_1m df_5m btc_trend)
    as [(_ & _ & Hlt & H3 & Hs & Hd & Hst)
       | [(_ & _ & Hlt & H3 & Hs & Hd & Hst)
         | (Hwhy & Hs & _)]]; cbv zeta in *; rewrite Hs.
  - repeat split; try lia; try done. intros _. left. auto.
  - repeat split; try lia; try done. intros _. right. auto.
  - split; [| split; [done | done]].
    split; [done |]. intros [Hmax Hstrict]. exfalso.
    destruct Hwhy as [? | [? | [? | ?]]]; lia.
Qed.

End Decision.

(** The decision on the example frames: long 8, short 1. *)
Lemma check_entry_conditions_decision_witness :
  let signal := fst (SignalGenerator.check_entry_conditions (lib := TaModel.lib)
                       Examples.falling_1m Examples.rising_then_falling_5m "bullish") in
  Signal.has_signal signal = true
  ∧ Signal.direction signal = Some "LONG"%string.
Proof.
  intros signal.
  assert (H1 : (50 <= len Examples.falling_1m)%nat) by (vm_compute; lia).
  assert (H5 : (50 <= len Examples.rising_then_falling_5m)%nat) by (vm_compute; lia).
  destruct (check_entry_conditions_decision (lib := TaModel.lib) _ _ "bullish" H1 H5)
    as (Hiff & _ & Hdir).
  assert (Hs : Signal.has_signal signal = true) by (vm_compute; reflexivity).
  split; [exact Hs |].
  destruct (Hdir Hs) as [(_ & Hd & _) | (Hlt & _ & _)]; [exact Hd |].
  exfalso. vm_compute in Hlt. discriminate Hlt.
Defined.

(** The example frames are regular market data: timestamps increase and
    every candle respects the OHLC invariant. *)
Example example_frames_well_formed :
  malformed Examples.falling_1m = false
  ∧ malformed Examples.rising_then_falling_5m = false.
Proof. split; vm_compute; reflexivity. Qed.

(** C1.  The strength is not bounded by 7.  On the example frames (and on
    the hand-written snapshots [oversold_1m], [uptrend_5m]) all eight
    long-side tests hold, and [check_entry_conditions] returns a LONG signal
    of strength 8 with eight reasons, which the quality gate accepts. *)
Theorem check_entry_conditions_strength_eight :
  let analysis_1m :=
    TechnicalAnalysis.get_comprehensive_analysis (lib := TaModel.lib) Examples.falling_1m in
  let analysis_5m :=
    TechnicalAnalysis.get_comprehensive_analysis (lib := TaModel.lib)
      Examples.rising_then_falling_5m in
  let signal := fst (SignalGenerator.check_entry_conditions (lib := TaModel.lib)
                       Examples.falling_1m Examples.rising_then_falling_5m "bullish") in
  long_rules analysis_1m analysis_5m "bullish"
    = [true; true; true; true; true; true; true; true]
  ∧ Signal.has_signal signal = true
  ∧ Signal.direction signal = Some "LONG"%string
  ∧ Signal.strength signal = 8%Z
  ∧ length (Signal.reasons signal) = 8%nat
  ∧ SignalGenerator.validate_signal_quality signal = true
  ∧ score (_check_long_conditions Examples.oversold_1m Examples.uptrend_5m "bullish")
    = 8%Z.
Proof. vm_compute. repeat split; reflexivity. Qed.

Lemma elem_of_hit x c r acc :
  x ∈ reasons (hit c r acc) ↔ x ∈ reasons acc ∨ (c = true ∧ x = r).
Proof.
  destruct c; simpl.
  - rewrite elem_of_app, list_elem_of_singleton. intuition.
  - intuition congruence.
Qed.

Lemma elem_of_hit_rsi x rsi test r acc :
  x ∈ reasons (hit_rsi rsi test r acc)
  ↔ x ∈ reasons acc
    ∨ ∃ v, rsi = Some v ∧ Py.truthy v = true ∧ test v = true ∧ x = r v.
Proof.
  destruct rsi as [v|]; simpl.
  - rewrite elem_of_hit, andb_true_iff. split.
    + intros [H | [[Ht Hv] ->]]; [by left | right; eauto].
    + intros [H | (w & [= <-] & Ht & Hv & ->)]; [by left | right; auto].
  - split; [by left | intros [H | (w & [=] & _)]; done].
Qed.

Lemma elem_of_hit_pattern x names patterns acc :
  x ∈ reasons (hit_pattern names patterns acc)
  ↔ x ∈ reasons acc ∨ ∃ p, first_pattern names patterns = Some p ∧ x = Pattern p.
Proof.
  unfold hit_pattern. destruct (first_pattern names patterns) as [p|].
  - rewrite elem_of_hit. split.
    + intros [H | [_ ->]]; [by left | right; eauto].
    + intros [H | (q & [= <-] & ->)]; [by left | right; auto].
  - split; [by left | intros [H | (q & [=] & _)]; done].
Qed.

Ltac reasons_membership :=
  cbv zeta;
  rewrite !elem_of_hit, elem_of_hit_pattern, !elem_of_hit, !elem_of_hit_rsi,
    elem_of_hit;
  simpl; rewrite elem_of_nil.

Lemma rsi7_oversold_reason a1 a5 btc x :
  Rsi7Oversold x ∈ reasons (_check_long_conditions a1 a5 btc)
  ↔ Analysis.rsi_7 a1 = Some x ∧ ¬ x == 0 ∧ x < 30.
Proof.
  unfold _check_long_conditions. reasons_membership.
  rewrite <- truthy_nonzero, <- (ltb_lt x 30). unfold Config.RSI_OVERSOLD.
  split.
  - intros [[[[[[[[[] | [_ [=]]] | (v & ? & ? & ? & E)] | (v & ? & ? & ? & E)]
               | [_ [=]]] | [_ [=]]] | [_ [=]]] | (p & _ & [=])] | [_ [=]]];
      inversion E; subst; auto.
  - intros (? & ? & ?). do 6 left. right. eauto 10.
Qed.

Lemma rsi14_oversold_reason a1 a5 btc x :
  Rsi14Oversold x ∈ reasons (_check_long_conditions a1 a5 btc)
  ↔ Analysis.rsi_14 a1 = Some x ∧ ¬ x == 0 ∧ x < 30.
Proof.
  unfold _check_long_conditions. reasons_membership.
  rewrite <- truthy_nonzero, <- (ltb_lt x 30). unfold Config.RSI_OVERSOLD.
  split.
  - intros [[[[[[[[[] | [_ [=]]] | (v & ? & ? & ? & E)] | (v & ? & ? & ? & E)]
               | [_ [=]]] | [_ [=]]] | [_ [=]]] | (p & _ & [=])] | [_ [=]]];
      inversion E; subst; auto.
  - intros (? & ? & ?). do 5 left. right. eauto 10.
Qed.

Lemma rsi7_overbought_reason a1 a5 btc x :
  Rsi7Overbought x ∈ reasons (_check_short_conditions a1 a5 btc)
  ↔ Analysis.rsi_7 a1 = Some x ∧ ¬ x == 0 ∧ 70 < x.
Proof.
  unfold _check_short_conditions. reasons_membership.
  rewrite <- truthy_nonzero, <- (gtb_lt x 70). unfold Config.RSI_OVERBOUGHT.
  split.
  - intros [[[[[[[[[] | [_ [=]]] | (v & ? & ? & ? & E)] | (v & ? & ? & ? & E)]
               | [_ [=]]] | [_ [=]]] | [_ [=]]] | (p & _ & [=])] | [_ [=]]];
      inversion E; subst; auto.
  - intros (? & ? & ?). do 6 left. right. eauto 10.
Qed.

Lemma rsi14_overbought_reason a1 a5 btc x :
  Rsi14Overbought x ∈ reasons (_check_short_conditions a1 a5 btc)
  ↔ Analysis.rsi_14 a1 = Some x ∧ ¬ x == 0 ∧ 70 < x.
Proof.
  unfold _check_short_conditions. reasons_membership.
  rewrite <- truthy_nonzero, <- (gtb_lt x 70). unfold Config.RSI_OVERBOUGHT.
  split.
  - intros [[[[[[[[[] | [_ [=]]] | (v & ? & ? & ? & E)] | (v & ? & ? & ? & E)]
               | [_ [=]]] | [_ [=]]] | [_ [=]]] | (p & _ & [=])] | [_ [=]]];
      inversion E; subst; auto.
  - intros (? & ? & ?). do 5 left. right. eauto 10.
Qed.

Lemma hit_rsi_zero z test r acc : z == 0 → hit_rsi (Some z) test r acc = acc.
Proof. intros Hz. simpl. by rewrite (proj2 (truthy_zero z) Hz). Qed.

Lemma rsi_rule_hundred h : h == 100 →
  rsi_rule (Some h) (λ v, Py.gtb v Config.RSI_OVERBOUGHT) = true.
Proof.
  intros Hh. simpl. apply andb_true_iff. split.
  - apply truthy_nonzero. rewrite Hh. discriminate.
  - apply gtb_lt. rewrite Hh. reflexivity.
Qed.

(** C10.  An RSI-zone rule fires only for a value that is present and not
    zero.  An RSI of exactly 0 lies below the oversold threshold, yet the
    long-side rule treats it as an absent value (the whole result is the one
    obtained without the key), for [rsi_7] and for [rsi_14]; the short-side
    rule at an RSI of 100 fires and adds its point. *)
Theorem rsi_zone_rule_ignores_zero (a1 a5 : Analysis.t) (btc : string) :
  ((∀ x, Rsi7Oversold x ∈ reasons (_check_long_conditions a1 a5 btc)
          ↔ Analysis.rsi_7 a1 = Some x ∧ ¬ x == 0 ∧ x < 30)
   ∧ (∀ x, Rsi14Oversold x ∈ reasons (_check_long_conditions a1 a5 btc)
          ↔ Analysis.rsi_14 a1 = Some x ∧ ¬ x == 0 ∧ x < 30)
   ∧ (∀ x, Rsi7Overbought x ∈ reasons (_check_short_conditions a1 a5 btc)
          ↔ Analysis.rsi_7 a1 = Some x ∧ ¬ x == 0 ∧ 70 < x)
   ∧ (∀ x, Rsi14Overbought x ∈ reasons (_check_short_conditions a1 a5 btc)
          ↔ Analysis.rsi_14 a1 = Some x ∧ ¬ x == 0 ∧ 70 < x))
  ∧ (∀ z, z == 0 →
       z < Config.RSI_OVERSOLD
       ∧ _check_long_conditions (with_rsi_7 (Some z) a1) a5 btc
         = _check_long_conditions (with_rsi_7 None a1) a5 btc
       ∧ _check_long_conditions (with_rsi_14 (Some z) a1) a5 btc
         = _check_long_conditions (with_rsi_14 None a1) a5 btc)
  ∧ (∀ h, h == 100 →
       Rsi7Overbought h
         ∈ reasons (_check_short_conditions (with_rsi_7 (Some h) a1) a5 btc)
       ∧ score (_check_short_conditions (with_rsi_7 (Some h) a1) a5 btc)
         = (score (_check_short_conditions (with_rsi_7 None a1) a5 btc) + 1)%Z
       ∧ Rsi14Overbought h
         ∈ reasons (_check_short_conditions (with_rsi_14 (Some h) a1) a5 btc)
       ∧ score (_check_short_conditions (with_rsi_14 (Some h) a1) a5 btc)
         = (score (_check_short_conditions (with_rsi_14 None a1) a5 btc) + 1)%Z).
Proof.
  split; [| split].
  - split; [| split; [| split]]; intros x.
    + apply rsi7_oversold_reason.
    + apply rsi14_oversold_reason.
    + apply rsi7_overbought_reason.
    + apply rsi14_overbought_reason.
  - intros z Hz. split; [rewrite Hz; reflexivity |].
    unfold _check_long_conditions. simpl Analysis.rsi_7. simpl Analysis.rsi_14.
    cbv zeta. rewrite !(hit_rsi_zero z) by exact Hz. split; reflexivity.
  - intros h Hh.
    assert (Hne : ¬ h == 0) by (rewrite Hh; discriminate).
    assert (Hgt : 70 < h) by (rewrite Hh; reflexivity).
    repeat split.
    + apply rsi7_overbought_reason. auto.
    + rewrite !short_score_fired. unfold short_rules, fired.
      simpl Analysis.rsi_7. rewrite (rsi_rule_hundred h Hh). simpl. lia.
    + apply rsi14_overbought_reason. auto.
    + rewrite !short_score_fired. unfold short_rules, fired.
      simpl Analysis.rsi_14. rewrite (rsi_rule_hundred h Hh). simpl. lia.
Qed.

(** RSI(7) = 0 scores nothing on the long side; RSI(7) = 100 scores one
    point on the short side. *)
Lemma rsi_zone_rule_ignores_zero_witness :
  (0 : Q) < Config.RSI_OVERSOLD
  ∧ score (_check_long_conditions Examples.rsi_zero_1m Analysis.empty "neutral") = 0%Z
  ∧ score (_check_short_conditions
             (with_rsi_7 (Some 100) Analysis.empty) Analysis.empty "neutral") = 1%Z.
Proof.
  destruct (rsi_zone_rule_ignores_zero Analysis.empty Analysis.empty "neutral")
    as (_ & Hzero & Hhundred).
  destruct (Hzero 0 (Qeq_refl 0)) as (Hlt & Heq & _).
  destruct (Hhundred 100 (Qeq_refl 100)) as (_ & Hscore & _).
  split; [exact Hlt |]. split.
  - unfold Examples.rsi_zero_1m. rewrite Heq. reflexivity.
  - rewrite Hscore. reflexivity.
Defined.

(** ** Mirror symmetry of the two scoring functions *)

Lemma eqb_false (s k : string) : s ≠ k → String.eqb s k = false.
Proof. apply String.eqb_neq. Qed.

Lemma mirror_pattern_involutive s : Mirror.pattern (Mirror.pattern s) = s.
Proof.
  unfold Mirror.pattern.
  repeat match goal with
  | |- context [String.eqb s ?k] =>
      destruct (String.eqb_spec s k) as [-> | ?]; [reflexivity |]
  end.
  by rewrite !eqb_false.
Qed.

#[local] Instance mirror_pattern_inj : Inj (=) (=) Mirror.pattern.
Proof.
  intros s t E. rewrite <- (mirror_pattern_involutive s), E.
  apply mirror_pattern_involutive.
Qed.

Lemma lookup_mirror_patterns (m : gmap string bool) (k : string) :
  Mirror.patterns m !! Mirror.pattern k = m !! k.
Proof. unfold Mirror.patterns. apply lookup_kmap, _. Qed.

Lemma mirror_pattern_rule (o : option (gmap string bool)) :
  pattern_rule bearish_patterns (default ∅ (Mirror.patterns <$> o))
  = pattern_rule bullish_patterns (default ∅ o).
Proof.
  destruct o as [m|]; simpl; [| reflexivity].
  unfold pattern_rule, first_pattern, bearish_patterns, bullish_patterns. simpl.
  change "inverted_hammer"%string with (Mirror.pattern "hammer") at 1.
  change "bearish_engulfing"%string with (Mirror.pattern "bullish_engulfing") at 1.
  change "bearish_pinbar"%string with (Mirror.pattern "bullish_pinbar") at 1.
  rewrite !lookup_mirror_patterns.
  destruct (m !! "hammer"%string) as [[]|]; simpl; try reflexivity;
    destruct (m !! "bullish_engulfing"%string) as [[]|]; simpl; try reflexivity;
    destruct (m !! "bullish_pinbar"%string) as [[]|]; reflexivity.
Qed.

Lemma mirror_trend_bearish s :
  String.eqb (Mirror.trend s) "bearish" = String.eqb s "bullish".
Proof.
  unfold Mirror.trend.
  destruct (String.eqb_spec s "bullish") as [-> | ?]; [reflexivity |].
  destruct (String.eqb_spec s "bearish") as [-> | ?]; [reflexivity |].
  by apply eqb_false.
Qed.

Lemma mirror_obv_falling s :
  String.eqb (Mirror.obv_trend s) "falling" = String.eqb s "rising".
Proof.
  unfold Mirror.obv_trend.
  destruct (String.eqb_spec s "rising") as [-> | ?]; [reflexivity |].
  destruct (String.eqb_spec s "falling") as [-> | ?]; [reflexivity |].
  by apply eqb_false.
Qed.

Lemma mirror_rsi_rule (o : option Q) :
  (∀ v, o = Some v → ¬ v == 0) →
  rsi_rule (Mirror.rsi <$> o) (λ v, Py.gtb v Config.RSI_OVERBOUGHT)
  = rsi_rule o (λ v, Py.ltb v Config.RSI_OVERSOLD).
Proof.
  intros Hnz. destruct o as [v|]; simpl; [| reflexivity].
  specialize (Hnz v eq_refl).
  rewrite (proj2 (truthy_nonzero v) Hnz). simpl.
  unfold Mirror.rsi, Config.RSI_OVERBOUGHT, Config.RSI_OVERSOLD.
  destruct (Py.ltb v 30) eqn:E.
  - apply ltb_lt in E. apply andb_true_iff. split.
    + apply truthy_nonzero. intros Z. lra.
    + apply gtb_lt. lra.
  - apply ltb_ge in E. apply andb_false_iff. right.
    apply ltb_ge. lra.
Qed.

(** C8, as amended.  For every pivot and every scoring input whose
    [rsi_7] and [rsi_14] are absent or not zero, the short-side tests on the
    mirrored input and the long-side tests on the original agree test by
    test on the first seven tests (reference trend, the two RSI zones, 5m
    trend, OBV trend, volume spike, candlestick pattern); the two scores
    differ exactly by the outcome of the eighth, price-proximity test, and
    are equal whenever the proximity test on the mirrored input agrees with
    the one on the original. *)
Theorem mirror_symmetry_up_to_proximity (pivot : Q) (a1 a5 : Analysis.t) (btc : string) :
  (∀ v, Analysis.rsi_7 a1 = Some v → ¬ v == 0) →
  (∀ v, Analysis.rsi_14 a1 = Some v → ¬ v == 0) →
  let m1 := Mirror.analysis pivot a1 in
  let m5 := Mirror.analysis pivot a5 in
  let mbtc := Mirror.trend btc in
  take 7 (short_rules m1 m5 mbtc) = take 7 (long_rules a1 a5 btc)
  ∧ (score (_check_short_conditions m1 m5 mbtc)
     + Z.b2z (near_support (Analysis.current_price a1) (Analysis.support a5))
     = score (_check_long_conditions a1 a5 btc)
       + Z.b2z (near_resistance (Analysis.current_price m1) (Analysis.resistance m5)))%Z
  ∧ (near_resistance (Analysis.current_price m1) (Analysis.resistance m5)
     = near_support (Analysis.current_price a1) (Analysis.support a5) →
     score (_check_short_conditions m1 m5 mbtc)
     = score (_check_long_conditions a1 a5 btc)).
Proof.
  intros H7 H14. cbv zeta.
  assert (Hrules :
    take 7 (short_rules (Mirror.analysis pivot a1) (Mirror.analysis pivot a5)
              (Mirror.trend btc))
    = take 7 (long_rules a1 a5 btc)).
  { unfold short_rules, long_rules, Mirror.analysis.
    cbn [take Analysis.rsi_7 Analysis.rsi_14 Analysis.trend Analysis.obv_trend
         Analysis.volume_spike Analysis.candlestick_patterns].
    rewrite mirror_trend_bearish.
    rewrite (mirror_rsi_rule (Analysis.rsi_7 a1) H7).
    rewrite (mirror_rsi_rule (Analysis.rsi_14 a1) H14).
    rewrite mirror_pattern_rule.
    destruct (Analysis.trend a5) as [t|], (Analysis.obv_trend a1) as [o|]; simpl;
      rewrite ?mirror_trend_bearish, ?mirror_obv_falling; reflexivity. }
  assert (Hscore :
    (score (_check_short_conditions (Mirror.analysis pivot a1)
              (Mirror.analysis pivot a5) (Mirror.trend btc))
     + Z.b2z (near_support (Analysis.current_price a1) (Analysis.support a5))
     = score (_check_long_conditions a1 a5 btc)
       + Z.b2z (near_resistance
                  (Analysis.current_price (Mirror.analysis pivot a1))
                  (Analysis.resistance (Mirror.analysis pivot a5))))%Z).
  { rewrite short_score_fired, long_score_fired.
    unfold short_rules, long_rules, Mirror.analysis in *.
    cbn [take Analysis.rsi_7 Analysis.rsi_14 Analysis.trend Analysis.obv_trend
         Analysis.volume_spike Analysis.candlestick_patterns] in *.
    injection Hrules as -> -> -> -> -> ->. unfold fired. cbn [fold_right]. lia. }
  split; [exact Hrules |]. split; [exact Hscore |].
  intros E. rewrite E in Hscore. lia.
Qed.

(** The symmetry on the snapshots on which every long-side test holds. *)
Lemma mirror_symmetry_up_to_proximity_witness :
  score (_check_short_conditions
           (Mirror.analysis 100 Examples.oversold_1m)
           (Mirror.analysis 100 Examples.uptrend_5m) (Mirror.trend "bullish"))
  = score (_check_long_conditions Examples.oversold_1m Examples.uptrend_5m "bullish").
Proof.
  refine (proj2 (proj2 (mirror_symmetry_up_to_proximity 100
            Examples.oversold_1m Examples.uptrend_5m "bullish" _ _)) _).
  - intros v [= <-]. discriminate.
  - intros v [= <-]. discriminate.
  - vm_compute. reflexivity.
Defined.

(** C8 as stated fails.  A price 4% above the support scores nothing on
    the long side, but its mirror image about 100 lies within 2% of the
    mirrored resistance and scores a point on the short side; and an RSI(7)
    of exactly 0 scores nothing on the long side while its mirror image, an
    RSI(7) of 100, scores a point on the short side, for every pivot. *)
Lemma mirror_symmetry_counterexample :
  score (_check_short_conditions
           (Mirror.analysis 100 Examples.above_support_1m)
           (Mirror.analysis 100 Examples.above_support_5m)
           (Mirror.trend "neutral"))
  ≠ score (_check_long_conditions
             Examples.above_support_1m Examples.above_support_5m "neutral")
  ∧ (∀ pivot,
       score (_check_short_conditions
                (Mirror.analysis pivot Examples.rsi_zero_1m)
                (Mirror.analysis pivot Analysis.empty)
                (Mirror.trend "neutral"))
       ≠ score (_check_long_conditions Examples.rsi_zero_1m Analysis.empty "neutral")).
Proof.
  split; [vm_compute; discriminate |].
  intros pivot.
  change (score (_check_short_conditions
                   (Mirror.analysis pivot Examples.rsi_zero_1m)
                   (Mirror.analysis pivot Analysis.empty)
                   (Mirror.trend "neutral"))) with 1%Z.
  change (score (_check_long_conditions
                   Examples.rsi_zero_1m Analysis.empty "neutral")) with 0%Z.
  discriminate.
Qed.

(** ** Exit evaluation *)

Section Trailing.
Import ExitManager.

Lemma profit_pct_long (current_price entry_price : Q) :
  ¬ entry_price == 0 →
  profit_pct "LONG" current_price entry_price
  = Py.Fin ((current_price - entry_price) / entry_price * 100).
Proof.
  intros Hne. unfold profit_pct, Py.fdiv. simpl String.eqb. cbv iota.
  apply truthy_nonzero in Hne. unfold Py.truthy in Hne.
  apply negb_true_iff in Hne. by rewrite Hne.
Qed.

Lemma profit_pct_short (current_price entry_price : Q) :
  ¬ entry_price == 0 →
  profit_pct "SHORT" current_price entry_price
  = Py.Fin ((entry_price - current_price) / entry_price * 100).
Proof.
  intros Hne. unfold profit_pct, Py.fdiv. simpl String.eqb. cbv iota.
  apply truthy_nonzero in Hne. unfold Py.truthy in Hne.
  apply negb_true_iff in Hne. by rewrite Hne.
Qed.

Lemma trailing_stop_gate (position_data : Position.t) (df_1m : DataFrame)
    (current_price : Q) :
  Pd.iloc_last (col close df_1m) = Some current_price →
  Py.fleb (profit_pct (Py.upper (Position.direction position_data))
             current_price (Position.entry_price position_data)) 1 = true →
  _check_trailing_stop position_data df_1m = no_stop.
Proof.
  intros Hlast Hle. unfold _check_trailing_stop. by rewrite Hlast, Hle.
Qed.

(** C4.  Whenever the unrealised profit in percent, [(price - entry) /
    entry * 100] for a long and [(entry - price) / entry * 100] for a short,
    is at most 1, [_check_trailing_stop] returns [should_stop = false],
    whatever the recent lows and highs are (so also when the price is beyond
    the trailing level).  The percentage is taken first as the program
    computes it (a division by a zero entry price gives an infinity or a
    NaN), then as a rational for a non-zero entry price.  An empty window
    gives the same answer. *)
Theorem trailing_stop_needs_profit (position_data : Position.t) (df_1m : DataFrame) :
  let entry_price := Position.entry_price position_data in
  let direction := Py.upper (Position.direction position_data) in
  (∀ current_price,
     Pd.iloc_last (col close df_1m) = Some current_price →
     (direction = "LONG"%string →
      Py.fleb (Py.fscale (Py.fdiv (current_price - entry_price) entry_price) 100) 1
      = true →
      should_stop (_check_trailing_stop position_data df_1m) = false)
     ∧ (direction = "SHORT"%string →
        Py.fleb (Py.fscale (Py.fdiv (entry_price - current_price) entry_price) 100) 1
        = true →
        should_stop (_check_trailing_stop position_data df_1m) = false)
     ∧ (¬ entry_price == 0 →
        (direction = "LONG"%string →
         (current_price - entry_price) / entry_price * 100 <= 1 →
         should_stop (_check_trailing_stop position_data df_1m) = false)
        ∧ (direction = "SHORT"%string →
           (entry_price - current_price) / entry_price * 100 <= 1 →
           should_stop (_check_trailing_stop position_data df_1m) = false)))
  ∧ (empty df_1m = true →
     should_stop (_check_trailing_stop position_data df_1m) = false).
Proof.
  cbv zeta. split.
  - intros current_price Hlast. split; [| split].
    + intros Hdir Hle. rewrite (trailing_stop_gate _ _ _ Hlast); [reflexivity |].
      by rewrite Hdir.
    + intros Hdir Hle. rewrite (trailing_stop_gate _ _ _ Hlast); [reflexivity |].
      by rewrite Hdir.
    + intros Hne. split; intros Hdir Hle.
      * rewrite (trailing_stop_gate _ _ _ Hlast); [reflexivity |].
        rewrite Hdir, (profit_pct_long _ _ Hne). by apply leb_le.
      * rewrite (trailing_stop_gate _ _ _ Hlast); [reflexivity |].
        rewrite Hdir, (profit_pct_short _ _ Hne). by apply leb_le.
  - unfold empty, _check_trailing_stop, col. destruct (rows df_1m); [reflexivity | done].
Qed.

End Trailing.

(** A long at 0.5% profit whose price (100.5) is below the trailing level
    0.995 * 110, and a short at 0.5% profit whose price (99.5) is above the
    trailing level 1.005 * 90: no stop in either case. *)
Lemma trailing_stop_needs_profit_witness :
  (100.5 <= 110 * 0.995
   ∧ should_stop (ExitManager._check_trailing_stop
                    Examples.long_position Examples.spike_1m) = false)
  ∧ (90 * 1.005 <= 99.5
     ∧ should_stop (ExitManager._check_trailing_stop
                      Examples.short_position Examples.dip_1m) = false).
Proof.
  split; (split; [vm_compute; discriminate |]).
  - refine (proj1 (proj2 (proj2 (proj1 (trailing_stop_needs_profit
              Examples.long_position Examples.spike_1m) 100.5 _)) _) _ _).
    + vm_compute. reflexivity.
    + vm_compute. discriminate.
    + vm_compute. reflexivity.
    + vm_compute. discriminate.
  - refine (proj2 (proj2 (proj2 (proj1 (trailing_stop_needs_profit
              Examples.short_position Examples.dip_1m) 99.5 _)) _) _ _).
    + vm_compute. reflexivity.
    + vm_compute. discriminate.
    + vm_compute. reflexivity.
    + vm_compute. discriminate.
Defined.

(** The same window stops the same long once its profit exceeds 1%. *)
Example trailing_stop_fires_above_one_percent :
  ExitManager._check_trailing_stop Examples.long_from_99 Examples.spike_1m
  = mkStop true (Some (TrailingStopHit (110 * 0.995))).
Proof. vm_compute. reflexivity. Qed.

Section Exits.
Context `{lib : TA}.
Import ExitManager.

Lemma find_is_Some {A} (f : A → bool) (l : list A) (x : A) :
  In x l → f x = true → ∃ y, List.find f l = Some y ∧ In y l.
Proof.
  intros Hin Hf. destruct (List.find f l) as [y|] eqn:E.
  - exists y. split; [reflexivity |]. by apply find_some in E as [? _].
  - by rewrite (find_none _ _ E x Hin) in Hf.
Qed.

Lemma fibonacci_level_found (position_data : Position.t) (current_price : Q)
    (name : string) :
  checked_level_reached position_data current_price name →
  ∃ first, _check_fibonacci_levels position_data current_price = Some first
           ∧ first ∈ ["TP1"; "TP2"; "TP3"]%string.
Proof.
  intros (Hname & level & Hlook & Hnz & Hdir).
  unfold _check_fibonacci_levels.
  assert (Hne : SignalGenerator.dict_empty (Position.fibonacci_levels position_data)
                = false).
  { apply not_true_iff_false. rewrite dict_empty_true. intros E.
    by rewrite E, lookup_empty in Hlook. }
  rewrite Hne. apply list_elem_of_In in Hname.
  destruct Hdir as [[-> Hle] | [-> Hle]]; simpl String.eqb; cbv iota.
  - edestruct (find_is_Some
      (λ level_name : string,
         match Position.fibonacci_levels position_data !! level_name with
         | Some level_price =>
             Py.truthy level_price && Py.geb current_price level_price
         | None => false
         end) _ name Hname) as (y & Hy & Hin).
    + rewrite Hlook. apply andb_true_iff.
      split; [by apply truthy_nonzero | by apply geb_le].
    + exists y. split; [exact Hy | by apply list_elem_of_In].
  - edestruct (find_is_Some
      (λ level_name : string,
         match Position.fibonacci_levels position_data !! level_name with
         | Some level_price =>
             Py.truthy level_price && Py.leb current_price level_price
         | None => false
         end) _ name Hname) as (y & Hy & Hin).
    + rewrite Hlook. apply andb_true_iff.
      split; [by apply truthy_nonzero | by apply leb_le].
    + exists y. split; [exact Hy | by apply list_elem_of_In].
Qed.

Lemma checked_level_direction (position_data : Position.t) (current_price : Q)
    (name : string) :
  checked_level_reached position_data current_price name →
  Py.truthy_str (Py.upper (Position.direction position_data)) = true.
Proof. by intros (_ & level & _ & _ & [[-> _] | [-> _]]). Qed.

Lemma find_first {A} (f : A → bool) (l : list A) (y : A) :
  List.find f l = Some y →
  ∃ l1 l2, l = l1 ++ y :: l2 ∧ f y = true ∧ ∀ x, x ∈ l1 → f x = false.
Proof.
  induction l as [| a l IH]; [done |]. simpl.
  destruct (f a) eqn:E.
  - intros [= <-]. exists [], l. split; [done |]. split; [done |].
    intros x Hx. by apply not_elem_of_nil in Hx.
  - intros H. destruct (IH H) as (l1 & l2 & -> & Hy & Hl1).
    exists (a :: l1), l2. split; [done |]. split; [done |].
    intros x Hx. apply elem_of_cons in Hx as [-> | Hx]; [done | by apply Hl1].
Qed.

(** [_check_fibonacci_levels] as a search through TP1, TP2, TP3: the test
    for an empty dictionary changes nothing, since an empty dictionary has
    none of the three. *)
Lemma check_fibonacci_levels_search (position_data : Position.t) (current_price : Q) :
  let fibonacci_levels := Position.fibonacci_levels position_data in
  let direction := Py.upper (Position.direction position_data) in
  _check_fibonacci_levels position_data current_price
  = if String.eqb direction "LONG" then
      List.find (λ level_name,
        match fibonacci_levels !! level_name with
        | Some level_price => Py.truthy level_price && Py.geb current_price level_price
        | None => false
        end) ["TP1"; "TP2"; "TP3"]%string
    else if String.eqb direction "SHORT" then
      List.find (λ level_name,
        match fibonacci_levels !! level_name with
        | Some level_price => Py.truthy level_price && Py.leb current_price level_price
        | None => false
        end) ["TP1"; "TP2"; "TP3"]%string
    else None.
Proof.
  cbv zeta. unfold _check_fibonacci_levels.
  destruct (SignalGenerator.dict_empty _) eqn:E; [| reflexivity].
  apply dict_empty_true in E. rewrite E.
  destruct (String.eqb (Py.upper (Position.direction position_data)) "LONG");
    [by cbn [List.find]; rewrite !lookup_empty |].
  destruct (String.eqb (Py.upper (Position.direction position_data)) "SHORT");
    [by cbn [List.find]; rewrite !lookup_empty | reflexivity].
Qed.

(** The level that the take-profit check reports is the first of TP1, TP2,
    TP3 that has been reached. *)
Lemma fibonacci_level_first (position_data : Position.t) (current_price : Q)
    (name : string) :
  checked_level_reached position_data current_price name →
  ∃ first l1 l2,
    _check_fibonacci_levels position_data current_price = Some first
    ∧ ["TP1"; "TP2"; "TP3"]%string = l1 ++ first :: l2
    ∧ checked_level_reached position_data current_price first
    ∧ ∀ earlier, earlier ∈ l1 →
        ¬ checked_level_reached position_data current_price earlier.
Proof.
  intros Hreached.
  destruct (fibonacci_level_found _ _ _ Hreached) as (first & Hfirst & Hin).
  pose proof Hfirst as Hsearch. rewrite check_fibonacci_levels_search in Hsearch.
  cbv zeta in Hsearch.
  destruct Hreached as (_ & _ & _ & _ & [[Hd _] | [Hd _]]); rewrite Hd in Hsearch;
    simpl String.eqb in Hsearch; cbv iota in Hsearch;
    destruct (find_first _ _ _ Hsearch) as (l1 & l2 & Hsplit & Hy & Hl1);
    exists first, l1, l2; (split; [exact Hfirst |]); (split; [exact Hsplit |]); split.
  - split; [exact Hin |].
    destruct (Position.fibonacci_levels position_data !! first) as [level|];
      [| done].
    apply andb_true_iff in Hy as [Ht Hg]. exists level. split; [done |].
    split; [by apply truthy_nonzero |]. left. split; [done | by apply geb_le].
  - intros earlier He (_ & level & Hlook & Hnz & [[_ Hle] | [Hd' _]]).
    + specialize (Hl1 earlier He). cbv beta in Hl1. rewrite Hlook in Hl1.
      apply andb_false_iff in Hl1 as [H | H].
      * by apply truthy_zero in H.
      * apply leb_gt in H. lra.
    + rewrite Hd in Hd'. discriminate Hd'.
  - split; [exact Hin |].
    destruct (Position.fibonacci_levels position_data !! first) as [level|];
      [| done].
    apply andb_true_iff in Hy as [Ht Hg]. exists level. split; [done |].
    split; [by apply truthy_nonzero |]. right. split; [done | by apply leb_le].
  - intros earlier He (_ & level & Hlook & Hnz & [[Hd' _] | [_ Hle]]).
    + rewrite Hd in Hd'. discriminate Hd'.
    + specialize (Hl1 earlier He). cbv beta in Hl1. rewrite Hlook in Hl1.
      apply andb_false_iff in Hl1 as [H | H].
      * by apply truthy_zero in H.
      * apply leb_gt in H. lra.
Qed.

(** The exit analysis reads the direction, the entry price and the levels
    TP1, TP2, TP3 of a position, and nothing else. *)
Lemma analyze_exit_conditions_reads (position_data position_data' : Position.t)
    (market_data_1m market_data_5m : DataFrame) :
  Position.direction position_data' = Position.direction position_data →
  Position.entry_price position_data' = Position.entry_price position_data →
  (∀ name, name ∈ ["TP1"; "TP2"; "TP3"]%string →
     Position.fibonacci_levels position_data' !! name
     = Position.fibonacci_levels position_data !! name) →
  analyze_exit_conditions position_data' market_data_1m market_data_5m
  = analyze_exit_conditions position_data market_data_1m market_data_5m.
Proof.
  destruct position_data as [d e f], position_data' as [d' e' f'].
  cbn [Position.direction Position.entry_price Position.fibonacci_levels].
  intros -> -> Hlevels.
  assert (H1 : f' !! "TP1"%string = f !! "TP1"%string)
    by (apply Hlevels; apply list_elem_of_In; simpl; tauto).
  assert (H2 : f' !! "TP2"%string = f !! "TP2"%string)
    by (apply Hlevels; apply list_elem_of_In; simpl; tauto).
  assert (H3 : f' !! "TP3"%string = f !! "TP3"%string)
    by (apply Hlevels; apply list_elem_of_In; simpl; tauto).
  assert (Hfib : ∀ price, _check_fibonacci_levels (Position.mk d e f') price
                          = _check_fibonacci_levels (Position.mk d e f) price).
  { intros price. rewrite !check_fibonacci_levels_search. cbv zeta.
    cbn [Position.direction Position.fibonacci_levels List.find].
    by rewrite H1, H2, H3. }
  unfold analyze_exit_conditions.
  cbn [Position.direction Position.entry_price].
  destruct (_ || _); [reflexivity |].
  destruct (Pd.iloc_last _) as [price|]; [| reflexivity].
  destruct (_ || _); [reflexivity |].
  rewrite Hfib. reflexivity.
Qed.

(** C2, as amended.  For a position with a non-zero entry price and two
    non-empty windows: the exit type is decided by the first of the four
    checks that matches, in the order take-profit, stop-loss, reversal,
    trailing-stop (for a non-empty direction); and whenever the current
    price has reached one of the stored non-zero levels TP1, TP2, TP3 (at or
    above it for a long, at or below it for a short), the decision is
    [take_profit], never [stop_loss], it reports the first level of TP1,
    TP2, TP3 that has been reached (none before it in that order has), and
    the 1m frame is left as it was, whatever the stop-loss check would have
    answered.  A position whose entry price is zero or whose direction is
    empty gets the default analysis, with no exit.  The analysis depends on
    the position through its direction, its entry price and the levels TP1,
    TP2, TP3 only: TP4 is never looked at. *)
Theorem take_profit_has_priority (position_data : Position.t)
    (market_data_1m market_data_5m : DataFrame) :
  let result := analyze_exit_conditions position_data market_data_1m market_data_5m in
  let stop := _check_dynamic_stop_loss position_data market_data_1m market_data_5m in
  let reversal := _check_trend_reversal position_data (snd stop) market_data_5m in
  let trailing := _check_trailing_stop position_data (snd stop) in
  (∀ current_price,
     Pd.iloc_last (col close market_data_1m) = Some current_price →
     empty market_data_5m = false →
     ¬ Position.entry_price position_data == 0 →
     let fib_hit := _check_fibonacci_levels position_data current_price in
     (Py.upper (Position.direction position_data) ≠ ""%string →
      Exit.exit_type (fst result)
      = if bool_decide (is_Some fib_hit) then Some "take_profit"%string
        else if should_stop (fst stop) then Some "stop_loss"%string
        else if rev_should_exit reversal then Some "reversal"%string
        else if should_stop trailing then Some "trailing_stop"%string
        else None)
     ∧ (∀ name,
          checked_level_reached position_data current_price name →
          Exit.should_exit (fst result) = true
          ∧ Exit.exit_type (fst result) = Some "take_profit"%string
          ∧ Exit.exit_type (fst result) ≠ Some "stop_loss"%string
          ∧ (∃ first l1 l2,
               fib_hit = Some first
               ∧ Exit.fibonacci_hit (fst result) = Some first
               ∧ Exit.exit_reason (fst result) = Some (FibonacciHit first)
               ∧ ["TP1"; "TP2"; "TP3"]%string = l1 ++ first :: l2
               ∧ checked_level_reached position_data current_price first
               ∧ ∀ earlier, earlier ∈ l1 →
                   ¬ checked_level_reached position_data current_price earlier)
          ∧ snd result = market_data_1m))
  ∧ (Position.entry_price position_data == 0
     ∨ Py.upper (Position.direction position_data) = ""%string →
     result = (no_exit, market_data_1m))
  ∧ (∀ position_data',
       Position.direction position_data' = Position.direction position_data →
       Position.entry_price position_data' = Position.entry_price position_data →
       (∀ name, name ∈ ["TP1"; "TP2"; "TP3"]%string →
          Position.fibonacci_levels position_data' !! name
          = Position.fibonacci_levels position_data !! name) →
       analyze_exit_conditions position_data' market_data_1m market_data_5m = result)
  ∧ (∀ level,
       analyze_exit_conditions
         (Position.mk (Position.direction position_data)
            (Position.entry_price position_data)
            (<["TP4"%string := level]> (Position.fibonacci_levels position_data)))
         market_data_1m market_data_5m = result
       ∧ analyze_exit_conditions
           (Position.mk (Position.direction position_data)
              (Position.entry_price position_data)
              (delete "TP4"%string (Position.fibonacci_levels position_data)))
           market_data_1m market_data_5m = result).
Proof.
  cbv zeta. split; [| split; [| split]].
  - intros current_price Hlast H5 Hentry.
    assert (H1 : empty market_data_1m = false).
    { unfold empty. unfold col in Hlast. by destruct (rows market_data_1m). }
    apply truthy_nonzero in Hentry.
    assert (Hunfold :
      ∀ Hdir : Py.truthy_str (Py.upper (Position.direction position_data)) = true,
      analyze_exit_conditions position_data market_data_1m market_data_5m
      = let entry_price := Position.entry_price position_data in
        let direction := Py.upper (Position.direction position_data) in
        let profit_loss_pct :=
          if String.eqb direction "LONG"
          then ((current_price - entry_price) / entry_price) * 100
          else ((entry_price - current_price) / entry_price) * 100 in
        let base ty why fib sig :=
          Exit.mk true why (Some ty) (Some current_price) profit_loss_pct fib sig in
        match _check_fibonacci_levels position_data current_price with
        | Some fib_hit =>
            (base "take_profit"%string (Some (FibonacciHit fib_hit)) (Some fib_hit) [],
             market_data_1m)
        | None =>
            let '(stop_loss_hit, df_1m') :=
              _check_dynamic_stop_loss position_data market_data_1m market_data_5m in
            if should_stop stop_loss_hit
            then (base "stop_loss"%string (reason stop_loss_hit) None [], df_1m')
            else
              let reversal_signal :=
                _check_trend_reversal position_data df_1m' market_data_5m in
              if rev_should_exit reversal_signal
              then (base "reversal"%string (rev_reason reversal_signal) None
                      (rev_signals reversal_signal), df_1m')
              else
                let trailing_stop := _check_trailing_stop position_data df_1m' in
                if should_stop trailing_stop
                then (base "trailing_stop"%string (reason trailing_stop) None [], df_1m')
                else (Exit.mk false None None (Some current_price)
                              profit_loss_pct None [], df_1m')
        end).
    { intros Hdir. unfold analyze_exit_conditions.
      rewrite H1, H5, Hlast, Hentry, Hdir. reflexivity. }
    split.
    + intros Hdir.
      rewrite Hunfold by (by destruct (Py.upper (Position.direction position_data))).
      cbv zeta.
      destruct (_check_fibonacci_levels position_data current_price) as [hit|]; simpl.
      * reflexivity.
      * destruct (_check_dynamic_stop_loss position_data market_data_1m market_data_5m)
          as [stop df']. simpl.
        destruct (should_stop stop); [reflexivity |].
        destruct (rev_should_exit _); [reflexivity |].
        destruct (should_stop _); reflexivity.
    + intros name Hreached.
      rewrite (Hunfold (checked_level_direction _ _ _ Hreached)). cbv zeta.
      destruct (fibonacci_level_first _ _ _ Hreached)
        as (first & l1 & l2 & -> & Hsplit & Hfirst & Hearlier).
      simpl. split; [done |]. split; [done |]. split; [done |].
      split; [| done]. exists first, l1, l2. done.
  - intros Hguard. unfold analyze_exit_conditions.
    destruct (_ || _); [reflexivity |].
    destruct (Pd.iloc_last _) as [price|]; [| reflexivity].
    assert (G : negb (Py.truthy (Position.entry_price position_data))
                || negb (Py.truthy_str (Py.upper (Position.direction position_data)))
                = true).
    { destruct Hguard as [H | H].
      - apply truthy_zero in H. by rewrite H.
      - rewrite H. apply orb_true_r. }
    by rewrite G.
  - intros position_data'. apply analyze_exit_conditions_reads.
  - intros level. split; apply analyze_exit_conditions_reads; try reflexivity;
      intros name Hname; cbn [Position.fibonacci_levels];
      [apply lookup_insert_ne | apply lookup_delete_ne];
      intros <-; apply list_elem_of_In in Hname; simpl in Hname;
      intuition discriminate.
Qed.

End Exits.

(** A long whose price (105) has reached TP1 (103.82) on a flat window on
    which the ATR stop condition holds as well: the decision is
    [take_profit].  The same long at 1122.5, beyond all three targets: the
    level reported is TP1. *)
Lemma take_profit_has_priority_witness :
  checked_level_reached Examples.long_position 105 "TP1"
  ∧ should_stop (fst (ExitManager._check_dynamic_stop_loss (lib := TaModel.lib)
                        Examples.long_position Examples.flat_1m Examples.flat_1m))
    = true
  ∧ Exit.exit_type (fst (ExitManager.analyze_exit_conditions (lib := TaModel.lib)
                           Examples.long_position Examples.flat_1m Examples.flat_1m))
    = Some "take_profit"%string
  ∧ checked_level_reached Examples.long_position 1122.5 "TP3"
  ∧ Exit.fibonacci_hit
      (fst (ExitManager.analyze_exit_conditions (lib := TaModel.lib)
              Examples.long_position Examples.falling_1m
              Examples.rising_then_falling_5m))
    = Some "TP1"%string.
Proof.
  assert (Hreached : checked_level_reached Examples.long_position 105 "TP1").
  { split; [apply list_elem_of_here |].
    exists (100 + (110 - 100) * 0.382). split; [reflexivity |].
    split; [vm_compute; discriminate |].
    left. split; [reflexivity | vm_compute; discriminate]. }
  assert (Hreached1 : checked_level_reached Examples.long_position 1122.5 "TP1").
  { split; [apply list_elem_of_here |].
    exists (100 + (110 - 100) * 0.382). split; [reflexivity |].
    split; [vm_compute; discriminate |].
    left. split; [reflexivity | vm_compute; discriminate]. }
  assert (Hreached3 : checked_level_reached Examples.long_position 1122.5 "TP3").
  { split; [apply list_elem_of_In; simpl; tauto |].
    exists (100 + (110 - 100) * 1). split; [reflexivity |].
    split; [vm_compute; discriminate |].
    left. split; [reflexivity | vm_compute; discriminate]. }
  assert (Hl : Pd.iloc_last (col close Examples.flat_1m) = Some 105)
    by (vm_compute; reflexivity).
  assert (H5 : empty Examples.flat_1m = false) by reflexivity.
  assert (Hl' : Pd.iloc_last (col close Examples.falling_1m) = Some 1122.5)
    by (vm_compute; reflexivity).
  assert (H5' : empty Examples.rising_then_falling_5m = false) by reflexivity.
  assert (He : ¬ Position.entry_price Examples.long_position == 0)
    by (vm_compute; discriminate).
  split; [exact Hreached |]. split; [vm_compute; reflexivity |].
  split; [| split; [exact Hreached3 |]].
  - exact (proj1 (proj2 (proj2 (proj1 (take_profit_has_priority (lib := TaModel.lib)
             Examples.long_position Examples.flat_1m Examples.flat_1m)
           105 Hl H5 He) "TP1"%string Hreached))).
  - destruct (proj2 (proj1 (take_profit_has_priority (lib := TaModel.lib)
                Examples.long_position Examples.falling_1m
                Examples.rising_then_falling_5m) 1122.5 Hl' H5' He)
              "TP3"%string Hreached3)
      as (_ & _ & _ & (first & l1 & l2 & _ & -> & _ & Hsplit & _ & Hearlier) & _).
    destruct l1 as [| x l1].
    + by injection Hsplit as <- _.
    + injection Hsplit as <- _. exfalso.
      apply (Hearlier "TP1"%string); [apply list_elem_of_here | exact Hreached1].
Defined.

(** C2 as stated fails.  The same long without an entry price, on the same
    window: the price has reached the stored level TP1, the windows are not
    empty, and the evaluator (with any indicator library) reports no exit at
    all. *)
Lemma take_profit_counterexample :
  empty Examples.flat_1m = false
  ∧ level_reached Examples.long_without_entry 105 "TP1"
  ∧ ∀ lib : TA,
      let result := ExitManager.analyze_exit_conditions (lib := lib)
                      Examples.long_without_entry Examples.flat_1m Examples.flat_1m in
      Pd.iloc_last (col close Examples.flat_1m) = Some 105
      ∧ Exit.should_exit (fst result) = false
      ∧ Exit.exit_type (fst result) = None.
Proof.
  split; [reflexivity |]. split.
  - exists (100 + (110 - 100) * 0.382). split; [reflexivity |].
    left. split; [reflexivity | vm_compute; discriminate].
  - intros lib. cbv zeta. repeat split; reflexivity.
Qed.

(** ** Frames *)

Lemma rows_calculate_atr_stop_loss df atr_period multiplier direction :
  rows (snd (calculate_atr_stop_loss df atr_period multiplier direction)) = rows df.
Proof.
  unfold calculate_atr_stop_loss. by destruct (len df <? atr_period)%nat.
Qed.

Lemma columns_calculate_atr_stop_loss df atr_period multiplier direction :
  extra df = [] → (atr_period <= len df)%nat →
  columns (snd (calculate_atr_stop_loss df atr_period multiplier direction))
  = columns df ++ ["high_low"; "high_close"; "low_close"; "true_range"]%string.
Proof.
  intros Hextra Hlen. unfold calculate_atr_stop_loss.
  destruct (Nat.ltb_spec (len df) atr_period); [lia |].
  unfold columns, set_column. simpl. rewrite Hextra. reflexivity.
Qed.

Lemma calculate_atr_stop_loss_short_window df atr_period multiplier direction :
  (len df < atr_period)%nat →
  calculate_atr_stop_loss df atr_period multiplier direction = (Some None, df).
Proof.
  intros Hlen. unfold calculate_atr_stop_loss.
  by destruct (Nat.ltb_spec (len df) atr_period); [| lia].
Qed.

(** C5.  The caller's frame does not come back unchanged.  A frame that
    enters with the five columns open, high, low, close, volume leaves
    [calculate_atr_stop_loss] with four more (the rows keep their values,
    see [rows_calculate_atr_stop_loss]); the same happens to the 1m frame
    given to [check_entry_conditions] when a signal is emitted, and to the
    one given to [analyze_exit_conditions] when the take-profit check does
    not match. *)
Theorem calculate_atr_stop_loss_mutates_frame :
  columns Examples.flat_1m = ["open"; "high"; "low"; "close"; "volume"]%string
  ∧ columns (snd (calculate_atr_stop_loss Examples.flat_1m 14 2 "long"))
    = ["open"; "high"; "low"; "close"; "volume";
       "high_low"; "high_close"; "low_close"; "true_range"]%string
  ∧ columns (snd (SignalGenerator.check_entry_conditions (lib := TaModel.lib)
                    Examples.falling_1m Examples.rising_then_falling_5m "bullish"))
    = ["open"; "high"; "low"; "close"; "volume";
       "high_low"; "high_close"; "low_close"; "true_range"]%string
  ∧ columns (snd (ExitManager.analyze_exit_conditions (lib := TaModel.lib)
                    Examples.short_position Examples.falling_1m
                    Examples.rising_then_falling_5m))
    = ["open"; "high"; "low"; "close"; "volume";
       "high_low"; "high_close"; "low_close"; "true_range"]%string.
Proof. repeat split; vm_compute; reflexivity. Qed.

(** ** The indicator engine *)

Section Engine.
Context `{lib : TA}.
Import TechnicalAnalysis.

Lemma col_same_ohlcv (df df' : DataFrame) :
  ohlcv <$> rows df' = ohlcv <$> rows df →
  len df' = len df
  ∧ col open df' = col open df ∧ col high df' = col high df
  ∧ col low df' = col low df ∧ col close df' = col close df
  ∧ col volume df' = col volume df.
Proof.
  intros H. split.
  - unfold len. by rewrite <- (length_fmap ohlcv (rows df')), H, length_fmap.
  - unfold col.
    change (open <$> rows df') with ((λ t, fst (fst (fst (fst t)))) ∘ ohlcv <$> rows df').
    change (open <$> rows df) with ((λ t, fst (fst (fst (fst t)))) ∘ ohlcv <$> rows df).
    change (high <$> rows df') with ((λ t, snd (fst (fst (fst t)))) ∘ ohlcv <$> rows df').
    change (high <$> rows df) with ((λ t, snd (fst (fst (fst t)))) ∘ ohlcv <$> rows df).
    change (low <$> rows df') with ((λ t, snd (fst (fst t))) ∘ ohlcv <$> rows df').
    change (low <$> rows df) with ((λ t, snd (fst (fst t))) ∘ ohlcv <$> rows df).
    change (close <$> rows df') with ((λ t, snd (fst t)) ∘ ohlcv <$> rows df').
    change (close <$> rows df) with ((λ t, snd (fst t)) ∘ ohlcv <$> rows df).
    change (volume <$> rows df') with ((λ t : Q * Q * Q * Q * Q, snd t) ∘ ohlcv <$> rows df').
    change (volume <$> rows df) with ((λ t : Q * Q * Q * Q * Q, snd t) ∘ ohlcv <$> rows df).
    rewrite !list_fmap_compose, H. done.
Qed.

Lemma patterns_same_ohlcv (c c' p p' : Candle) :
  ohlcv c' = ohlcv c → ohlcv p' = ohlcv p →
  _is_doji c' = _is_doji c ∧ _is_hammer c' = _is_hammer c
  ∧ _is_inverted_hammer c' = _is_inverted_hammer c
  ∧ _is_bullish_engulfing p' c' = _is_bullish_engulfing p c
  ∧ _is_bearish_engulfing p' c' = _is_bearish_engulfing p c
  ∧ _is_bullish_pinbar c' = _is_bullish_pinbar c
  ∧ _is_bearish_pinbar c' = _is_bearish_pinbar c.
Proof.
  intros Hc Hp. unfold ohlcv in *.
  injection Hc as Ho Hh Hl Hcl _. injection Hp as Hpo _ _ Hpc _.
  unfold _is_doji, _is_hammer, _is_inverted_hammer, _is_bullish_engulfing,
    _is_bearish_engulfing, _is_bullish_pinbar, _is_bearish_pinbar,
    body_size, lower_shadow, upper_shadow, candle_range.
  by rewrite Ho, Hh, Hl, Hcl, Hpo, Hpc.
Qed.

Lemma identify_candlestick_patterns_same_ohlcv (df df' : DataFrame) :
  ohlcv <$> rows df' = ohlcv <$> rows df →
  identify_candlestick_patterns df' = identify_candlestick_patterns df.
Proof.
  intros H. destruct (col_same_ohlcv df df' H) as (Hlen & _).
  unfold identify_candlestick_patterns, Pd.iloc_neg, Pd.iloc_last. rewrite Hlen.
  destruct (len df <? 3)%nat; [reflexivity |].
  assert (Hlen' : length (rows df') = length (rows df)) by exact Hlen.
  rewrite Hlen'.
  assert (Hprev : ohlcv <$> (rows df' !! (length (rows df) - 2)%nat)
                  = ohlcv <$> (rows df !! (length (rows df) - 2)%nat))
    by (by rewrite <- !list_lookup_fmap, H).
  assert (Hcur : ohlcv <$> last (rows df') = ohlcv <$> last (rows df))
    by (by rewrite <- !fmap_last, H).
  destruct (2 <=? length (rows df))%nat; [| reflexivity].
  destruct (rows df' !! _) as [p'|], (rows df !! _) as [p|]; try done.
  destruct (last (rows df')) as [c'|], (last (rows df)) as [c|]; try done.
  change (Some (ohlcv p') = Some (ohlcv p)) in Hprev.
  change (Some (ohlcv c') = Some (ohlcv c)) in Hcur.
  apply (inj Some) in Hprev. apply (inj Some) in Hcur.
  destruct (patterns_same_ohlcv c c' p p' Hcur Hprev)
    as (-> & -> & -> & -> & -> & -> & ->).
  reflexivity.
Qed.

Lemma get_comprehensive_analysis_same_ohlcv (df df' : DataFrame) :
  ohlcv <$> rows df' = ohlcv <$> rows df →
  get_comprehensive_analysis df' = get_comprehensive_analysis df.
Proof.
  intros H. destruct (col_same_ohlcv df df' H) as (Hlen & Ho & Hh & Hl & Hc & Hv).
  unfold get_comprehensive_analysis, comprehensive_analysis_body,
    calculate_rsi, calculate_ema, calculate_obv, calculate_atr, analyze_trend,
    detect_volume_spike, calculate_support_resistance, calculate_ema.
  rewrite (identify_candlestick_patterns_same_ohlcv df df' H).
  by rewrite Hlen, Hh, Hl, Hc, Hv.
Qed.

Lemma get_comprehensive_analysis_populated (df : DataFrame) :
  rows df ≠ [] → indicators_answered df →
  ∃ current_price current_volume trend obv_trend spike patterns,
    Pd.iloc_last (col close df) = Some current_price
    ∧ Analysis.current_price (get_comprehensive_analysis df) = Some current_price
    ∧ Analysis.current_volume (get_comprehensive_analysis df) = Some current_volume
    ∧ Analysis.trend (get_comprehensive_analysis df) = Some trend
    ∧ Analysis.obv_trend (get_comprehensive_analysis df) = Some obv_trend
    ∧ Analysis.volume_spike (get_comprehensive_analysis df) = Some spike
    ∧ Analysis.candlestick_patterns (get_comprehensive_analysis df) = Some patterns.
Proof.
  intros Hrows (H7 & H14 & H20 & H50).
  assert (Hlast : ∀ {A} (l : list A), l ≠ [] → ∃ x, Pd.iloc_last l = Some x).
  { intros A l Hl. unfold Pd.iloc_last. destruct (last l) eqn:E; [eauto |].
    by apply last_None in E. }
  destruct (Hlast _ _ H7) as (r7 & E7), (Hlast _ _ H14) as (r14 & E14),
    (Hlast _ _ H20) as (e20 & E20), (Hlast _ _ H50) as (e50 & E50).
  assert (Hc : col close df ≠ []) by (unfold col; by destruct (rows df)).
  assert (Hv : col volume df ≠ []) by (unfold col; by destruct (rows df)).
  destruct (Hlast _ _ Hc) as (price & Ep), (Hlast _ _ Hv) as (vol & Ev).
  unfold get_comprehensive_analysis, comprehensive_analysis_body.
  rewrite E7, E14, E20, E50, Ep, Ev.
  destruct (7 <=? len df)%nat, (14 <=? len df)%nat, (20 <=? len df)%nat,
    (50 <=? len df)%nat; simpl;
    do 6 eexists; repeat split; reflexivity.
Qed.

(** C6, as amended.  The indicator engine does not validate its input.  The
    snapshot depends on the open, high, low, close and volume values only:
    two windows that differ in nothing but their timestamps have the same
    snapshot.  And every non-empty window (whether or not its timestamps
    increase and its candles respect the OHLC invariant) for which the
    indicator library answered is analysed: the snapshot is not the empty
    one, its current price is the last close, and its volume, trend, OBV
    trend, volume-spike flag and pattern flags are present. *)
Theorem get_comprehensive_analysis_does_not_validate (df : DataFrame) :
  (∀ df', ohlcv <$> rows df' = ohlcv <$> rows df →
          get_comprehensive_analysis df' = get_comprehensive_analysis df)
  ∧ (rows df ≠ [] → indicators_answered df →
     get_comprehensive_analysis df ≠ Analysis.empty
     ∧ ∃ current_price current_volume trend obv_trend spike patterns,
         Pd.iloc_last (col close df) = Some current_price
         ∧ Analysis.current_price (get_comprehensive_analysis df) = Some current_price
         ∧ Analysis.current_volume (get_comprehensive_analysis df) = Some current_volume
         ∧ Analysis.trend (get_comprehensive_analysis df) = Some trend
         ∧ Analysis.obv_trend (get_comprehensive_analysis df) = Some obv_trend
         ∧ Analysis.volume_spike (get_comprehensive_analysis df) = Some spike
         ∧ Analysis.candlestick_patterns (get_comprehensive_analysis df)
           = Some patterns).
Proof.
  split.
  - intros df'. apply get_comprehensive_analysis_same_ohlcv.
  - intros Hrows Hlib.
    destruct (get_comprehensive_analysis_populated df Hrows Hlib)
      as (p & v & t & o & s & m & Hl & Hp & Hrest).
    split; [| eauto 12].
    intros E. rewrite E in Hp. discriminate Hp.
Qed.

End Engine.

(** A window with decreasing timestamps and high < low on every candle is
    analysed. *)
Lemma get_comprehensive_analysis_does_not_validate_witness :
  malformed Examples.garbled_5m = true
  ∧ TechnicalAnalysis.get_comprehensive_analysis (lib := TaModel.lib)
      Examples.garbled_5m ≠ Analysis.empty.
Proof.
  split; [vm_compute; reflexivity |].
  refine (proj1 (proj2 (get_comprehensive_analysis_does_not_validate
                          (lib := TaModel.lib) Examples.garbled_5m) _ _)).
  - vm_compute. discriminate.
  - repeat split; vm_compute; discriminate.
Defined.

(** C6 as stated fails.  On the window with decreasing timestamps and
    high < low on every candle the engine returns a populated snapshot: a
    bullish trend, an RSI, a support above the current price. *)
Lemma malformed_window_is_analysed :
  malformed Examples.garbled_5m = true
  ∧ let snapshot :=
      TechnicalAnalysis.get_comprehensive_analysis (lib := TaModel.lib)
        Examples.garbled_5m in
    snapshot ≠ Analysis.empty
    ∧ Analysis.current_price snapshot = Some 1122.5
    ∧ Analysis.trend snapshot = Some "bullish"%string
    ∧ Analysis.obv_trend snapshot = Some "falling"%string
    ∧ Analysis.volume_spike snapshot = Some true
    ∧ is_Some (Analysis.rsi_14 snapshot)
    ∧ Analysis.support snapshot = Some 1126
    ∧ Analysis.resistance snapshot = Some 1168.
Proof.
  split; [vm_compute; reflexivity |]. cbv zeta.
  split.
  - intros E. apply (f_equal Analysis.current_price) in E.
    vm_compute in E. discriminate E.
  - repeat split; try (vm_compute; reflexivity).
    vm_compute. eexists. reflexivity.
Qed.

(** * Further properties of the same files *)

(** ** Indicators *)

Section Indicators.
Context `{lib : TA}.
Import TechnicalAnalysis.

Lemma iloc_last_snoc {A} (l : list A) (x : A) : Pd.iloc_last (l ++ [x]) = Some x.
Proof. unfold Pd.iloc_last. apply last_snoc. Qed.

Lemma iloc_slice_before_last {A} (pre window : list A) (cur : A) :
  Pd.iloc_slice_neg (length window + 1) 1 (pre ++ window ++ [cur]) = window.
Proof.
  unfold Pd.iloc_slice_neg. rewrite !length_app. simpl.
  replace (length pre + (length window + 1) - (length window + 1))%nat
    with (length pre) by lia.
  replace (length pre + (length window + 1) - 1 - length pre)%nat
    with (length window) by lia.
  rewrite drop_app_length. by rewrite take_app_length.
Qed.

(** [detect_volume_spike] answers [False] on fewer than [lookback + 1]
    rows; otherwise it compares the last volume with [multiplier] times the
    mean of exactly the [lookback] volumes that precede it (the last bar is
    not part of its own average, older bars are ignored). *)
Theorem detect_volume_spike_spec (df : DataFrame) (multiplier : Q) (lookback : nat) :
  ((len df < lookback + 1)%nat → detect_volume_spike df multiplier lookback = false)
  ∧ (∀ pre window cur,
       col volume df = pre ++ window ++ [cur] →
       length window = lookback → (1 <= lookback)%nat →
       detect_volume_spike df multiplier lookback
       = Py.gtb cur (Pd.sum window / inject_Z (Z.of_nat lookback) * multiplier)).
Proof.
  split.
  - intros H. unfold detect_volume_spike.
    by destruct (Nat.ltb_spec (len df) (lookback + 1)); [| lia].
  - intros pre window cur Hvol Hlen Hpos. unfold detect_volume_spike.
    assert (Hl : len df = (length pre + (lookback + 1))%nat).
    { unfold len. rewrite <- (length_fmap volume). fold (col volume df).
      rewrite Hvol, !length_app, Hlen. simpl. lia. }
    destruct (Nat.ltb_spec (len df) (lookback + 1)); [lia |].
    rewrite Hvol, app_assoc, iloc_last_snoc, <- app_assoc, <- Hlen,
      iloc_slice_before_last.
    unfold Pd.mean. destruct window; [simpl in Hlen; lia | reflexivity].
Qed.

End Indicators.

(** On the example frame: twenty volumes of 100 before a last volume of
    1000. *)
Lemma detect_volume_spike_spec_witness :
  TechnicalAnalysis.detect_volume_spike Examples.falling_1m 2 20 = true.
Proof.
  assert (H : col volume Examples.falling_1m
              = repeat 100 29 ++ repeat 100 20 ++ [1000]) by (vm_compute; reflexivity).
  rewrite (proj2 (detect_volume_spike_spec Examples.falling_1m 2 20)
             (repeat 100 29) (repeat 100 20) 1000 H); [| reflexivity | lia].
  vm_compute. reflexivity.
Defined.

(** ** Candlestick patterns *)

Section Patterns.
Import TechnicalAnalysis.

Lemma leb_proper x x' y y' : x == x' → y == y' → Py.leb x y = Py.leb x' y'.
Proof. intros Hx Hy. unfold Py.leb. by rewrite (Qcompare_comp _ _ Hx _ _ Hy). Qed.

Lemma ltb_proper x x' y y' : x == x' → y == y' → Py.ltb x y = Py.ltb x' y'.
Proof. intros Hx Hy. unfold Py.ltb. by rewrite (Qcompare_comp _ _ Hx _ _ Hy). Qed.

Lemma ltb_mirror pivot a b :
  Py.ltb (Mirror.price pivot a) (Mirror.price pivot b) = Py.ltb b a.
Proof.
  unfold Mirror.price.
  destruct (Py.ltb b a) eqn:E.
  - apply ltb_lt in E. apply ltb_lt. lra.
  - apply ltb_ge in E. apply ltb_ge. lra.
Qed.

Lemma body_size_nonneg c : 0 <= body_size c.
Proof. apply Qabs_nonneg. Qed.

Lemma body_size_mirror pivot c : body_size (mirror_candle pivot c) == body_size c.
Proof.
  unfold body_size, Mirror.price; cbn [mirror_candle open high low close]; unfold Mirror.price.
  rewrite <- (Qabs_opp (close c - open c)). apply Qabs_wd. lra.
Qed.

Lemma lower_shadow_mirror pivot c :
  lower_shadow (mirror_candle pivot c) == upper_shadow c.
Proof.
  unfold lower_shadow, upper_shadow; cbn [mirror_candle open high low close]; unfold Mirror.price.
  destruct (Q.min_spec (2 * pivot - open c) (2 * pivot - close c)) as [[? ->] | [? ->]],
    (Q.max_spec (open c) (close c)) as [[? ->] | [? ->]]; lra.
Qed.

Lemma upper_shadow_mirror pivot c :
  upper_shadow (mirror_candle pivot c) == lower_shadow c.
Proof.
  unfold lower_shadow, upper_shadow; cbn [mirror_candle open high low close]; unfold Mirror.price.
  destruct (Q.max_spec (2 * pivot - open c) (2 * pivot - close c)) as [[? ->] | [? ->]],
    (Q.min_spec (open c) (close c)) as [[? ->] | [? ->]]; lra.
Qed.

Lemma candle_range_mirror pivot c :
  candle_range (mirror_candle pivot c) == candle_range c.
Proof. unfold candle_range; cbn [mirror_candle open high low close]; unfold Mirror.price. lra. Qed.

(** The seven pattern tests are mirror images of one another: reflecting
    the candles about any pivot turns a hammer into an inverted hammer, a
    bullish engulfing into a bearish one and a bullish pinbar into a bearish
    one (and back), and leaves a doji a doji. *)
Theorem patterns_mirror_symmetric (pivot : Q) (prev cur : Candle) :
  let prev' := mirror_candle pivot prev in
  let cur' := mirror_candle pivot cur in
  _is_doji cur' = _is_doji cur
  ∧ _is_hammer cur' = _is_inverted_hammer cur
  ∧ _is_inverted_hammer cur' = _is_hammer cur
  ∧ _is_bullish_engulfing prev' cur' = _is_bearish_engulfing prev cur
  ∧ _is_bearish_engulfing prev' cur' = _is_bullish_engulfing prev cur
  ∧ _is_bullish_pinbar cur' = _is_bearish_pinbar cur
  ∧ _is_bearish_pinbar cur' = _is_bullish_pinbar cur.
Proof.
  cbv zeta.
  pose proof (body_size_mirror pivot cur) as Hb.
  pose proof (lower_shadow_mirror pivot cur) as Hl.
  pose proof (upper_shadow_mirror pivot cur) as Hu.
  pose proof (candle_range_mirror pivot cur) as Hr.
  unfold _is_doji, _is_hammer, _is_inverted_hammer, _is_bullish_pinbar,
    _is_bearish_pinbar, _is_bullish_engulfing, _is_bearish_engulfing,
    Py.geb, Py.gtb.
  repeat split.
  - apply leb_proper; [exact Hb | by rewrite Hr].
  - f_equal; [f_equal |].
    + apply leb_proper; [by rewrite Hb | exact Hl].
    + apply leb_proper; [exact Hu | by rewrite Hb].
    + apply ltb_proper; [reflexivity | exact Hb].
  - f_equal; [f_equal |].
    + apply leb_proper; [by rewrite Hb | exact Hu].
    + apply leb_proper; [exact Hl | by rewrite Hb].
    + apply ltb_proper; [reflexivity | exact Hb].
  - cbn [mirror_candle open high low close]. by rewrite !ltb_mirror.
  - cbn [mirror_candle open high low close]. by rewrite !ltb_mirror.
  - f_equal; [f_equal |].
    + apply leb_proper; [by rewrite Hr | exact Hl].
    + apply leb_proper; [exact Hb | by rewrite Hr].
    + apply leb_proper; [exact Hu | by rewrite Hr].
  - f_equal; [f_equal |].
    + apply leb_proper; [by rewrite Hr | exact Hu].
    + apply leb_proper; [exact Hb | by rewrite Hr].
    + apply leb_proper; [exact Hl | by rewrite Hr].
Qed.

(** A hammer is never an inverted hammer, and a bullish engulfing never a
    bearish one.  The two pinbars exclude each other on a candle whose high
    is above its low; a flat candle (open = high = low = close) is at once
    a doji, a bullish pinbar and a bearish pinbar, and neither hammer. *)
Theorem patterns_exclusive (prev cur : Candle) :
  (_is_hammer cur = true → _is_inverted_hammer cur = false)
  ∧ (_is_bullish_engulfing prev cur = true → _is_bearish_engulfing prev cur = false)
  ∧ (0 < candle_range cur →
     _is_bullish_pinbar cur = true → _is_bearish_pinbar cur = false)
  ∧ (open cur = close cur → high cur = close cur → low cur = close cur →
     _is_doji cur = true ∧ _is_bullish_pinbar cur = true
     ∧ _is_bearish_pinbar cur = true
     ∧ _is_hammer cur = false ∧ _is_inverted_hammer cur = false).
Proof.
  unfold _is_hammer, _is_inverted_hammer, _is_bullish_engulfing,
    _is_bearish_engulfing, _is_bullish_pinbar, _is_bearish_pinbar, _is_doji.
  split; [| split; [| split]].
  - rewrite !andb_true_iff, !geb_le, !leb_le, !gtb_lt. intros [[H1 H2] H3].
    apply andb_false_iff. left. apply andb_false_iff. right.
    apply leb_gt. lra.
  - rewrite !andb_true_iff, !gtb_lt, !ltb_lt. intros [[H1 H2] H3].
    apply andb_false_iff. left. apply andb_false_iff. right.
    apply ltb_ge. lra.
  - intros Hr. rewrite !andb_true_iff, !geb_le, !leb_le. intros [[H1 H2] H3].
    apply andb_false_iff. right. apply leb_gt. lra.
  - intros Ho Hh Hl.
    assert (Hb : body_size cur == 0).
    { unfold body_size. rewrite Ho.
      transitivity (Qabs 0); [apply Qabs_wd; lra | reflexivity]. }
    assert (Hls : lower_shadow cur == 0).
    { unfold lower_shadow. rewrite Ho, Hl.
      destruct (Q.min_spec (close cur) (close cur)) as [[? ->] | [? ->]]; lra. }
    assert (Hus : upper_shadow cur == 0).
    { unfold upper_shadow. rewrite Ho, Hh.
      destruct (Q.max_spec (close cur) (close cur)) as [[? ->] | [? ->]]; lra. }
    assert (Hrg : candle_range cur == 0) by (unfold candle_range; rewrite Hh, Hl; lra).
    repeat split.
    + apply leb_le. lra.
    + rewrite !andb_true_iff, !geb_le, !leb_le. lra.
    + rewrite !andb_true_iff, !geb_le, !leb_le. lra.
    + apply andb_false_iff. right. apply ltb_ge. lra.
    + apply andb_false_iff. right. apply ltb_ge. lra.
Qed.

End Patterns.

(** The hammer that ends [falling_1m], and a flat candle. *)
Lemma patterns_exclusive_witness :
  TechnicalAnalysis._is_hammer (mkCandle 2940 1122 1122.5 1120 1122.5 1000) = true
  ∧ TechnicalAnalysis._is_inverted_hammer (mkCandle 2940 1122 1122.5 1120 1122.5 1000)
    = false
  ∧ TechnicalAnalysis._is_bullish_pinbar (mkCandle 2940 1122 1122.5 1120 1122.5 1000)
    = true
  ∧ TechnicalAnalysis._is_bearish_pinbar (mkCandle 2940 1122 1122.5 1120 1122.5 1000)
    = false
  ∧ TechnicalAnalysis._is_doji (mkCandle 0 105 105 105 105 10) = true.
Proof.
  pose proof (patterns_exclusive (mkCandle 0 105 105 105 105 10)
                (mkCandle 2940 1122 1122.5 1120 1122.5 1000)) as (Hh & _ & Hp & _).
  pose proof (patterns_exclusive (mkCandle 0 105 105 105 105 10)
                (mkCandle 0 105 105 105 105 10)) as (_ & _ & _ & Hf).
  assert (H1 : TechnicalAnalysis._is_hammer
                 (mkCandle 2940 1122 1122.5 1120 1122.5 1000) = true)
    by (vm_compute; reflexivity).
  assert (H2 : TechnicalAnalysis._is_bullish_pinbar
                 (mkCandle 2940 1122 1122.5 1120 1122.5 1000) = true)
    by (vm_compute; reflexivity).
  split; [exact H1 |]. split; [exact (Hh H1) |]. split; [exact H2 |].
  split; [apply Hp; [vm_compute; reflexivity | exact H2] |].
  exact (proj1 (Hf eq_refl eq_refl eq_refl)).
Defined.

(** ** Pattern dictionary, support and resistance *)

Section Levels.
Import TechnicalAnalysis.

(** [identify_candlestick_patterns] reports nothing (the empty dictionary)
    on fewer than three rows, although every test needs at most two; from
    three rows on the dictionary has exactly the seven pattern keys, each
    holding its test of the last candle (the two engulfing tests: of the
    last candle and the one before it). *)
Theorem identify_candlestick_patterns_keys (df : DataFrame) :
  ((len df < 3)%nat → identify_candlestick_patterns df = ∅)
  ∧ ((3 <= len df)%nat →
     ∃ prev cur,
       Pd.iloc_neg 2 (rows df) = Some prev
       ∧ Pd.iloc_last (rows df) = Some cur
       ∧ dom (identify_candlestick_patterns df) = pattern_names
       ∧ identify_candlestick_patterns df !! "doji"%string = Some (_is_doji cur)
       ∧ identify_candlestick_patterns df !! "hammer"%string = Some (_is_hammer cur)
       ∧ identify_candlestick_patterns df !! "inverted_hammer"%string
         = Some (_is_inverted_hammer cur)
       ∧ identify_candlestick_patterns df !! "bullish_engulfing"%string
         = Some (_is_bullish_engulfing prev cur)
       ∧ identify_candlestick_patterns df !! "bearish_engulfing"%string
         = Some (_is_bearish_engulfing prev cur)
       ∧ identify_candlestick_patterns df !! "bullish_pinbar"%string
         = Some (_is_bullish_pinbar cur)
       ∧ identify_candlestick_patterns df !! "bearish_pinbar"%string
         = Some (_is_bearish_pinbar cur)).
Proof.
  unfold identify_candlestick_patterns. split.
  - intros H. by destruct (Nat.ltb_spec (len df) 3); [| lia].
  - intros H. destruct (Nat.ltb_spec (len df) 3); [lia |].
    unfold Pd.iloc_neg, Pd.iloc_last, len in *.
    destruct (Nat.leb_spec 2 (length (rows df))); [| lia].
    destruct (rows df !! (length (rows df) - 2)%nat) as [p|] eqn:Ep.
    2: { apply lookup_ge_None in Ep. lia. }
    destruct (last (rows df)) as [c|] eqn:Ec.
    2: { apply last_None in Ec. rewrite Ec in H. simpl in H. lia. }
    exists p, c. split; [done |]. split; [done |]. split.
    + rewrite !dom_insert_L, dom_empty_L. unfold pattern_names. set_solver.
    + by simplify_map_eq.
Qed.

Lemma dropna_app (s t : Series) : Pd.dropna (s ++ t) = Pd.dropna s ++ Pd.dropna t.
Proof. unfold Pd.dropna. apply omap_app. Qed.

Lemma window_at_end (w : nat) (l : list Q) :
  (1 <= w <= length l)%nat →
  Pd.window_at w (length l - 1) l = Some (Pd.tail w l).
Proof.
  intros H. unfold Pd.window_at, Pd.tail.
  replace (S (length l - 1)) with (length l) by lia.
  destruct (Nat.leb_spec 1 w); [| lia].
  destruct (Nat.leb_spec w (length l)); [| lia].
  rewrite Nat.leb_refl. simpl. f_equal.
  apply take_ge. rewrite length_drop. lia.
Qed.

Lemma window_at_beyond (w i : nat) (l : list Q) :
  (length l <= i)%nat → Pd.window_at w i l = None.
Proof.
  intros H. unfold Pd.window_at.
  destruct (Nat.leb_spec (S i) (length l)); [lia |].
  by rewrite andb_false_r.
Qed.

Lemma tail_nonempty {A} (w : nat) (l : list A) :
  (1 <= w <= length l)%nat → Pd.tail w l ≠ [].
Proof.
  intros H E. apply (f_equal length) in E. unfold Pd.tail in E.
  rewrite length_drop in E. simpl in E. lia.
Qed.

Lemma dropna_all_missing (s : Series) :
  (∀ x, x ∈ s → x = None) → Pd.dropna s = [].
Proof.
  induction s as [| x s IH]; intros H; [reflexivity |].
  unfold Pd.dropna in *. simpl.
  rewrite (H x) by apply list_elem_of_here. simpl.
  apply IH. intros y Hy. apply H. by apply list_elem_of_further.
Qed.

(** The last defined value of a centred rolling aggregate is the aggregate
    of the last [w] rows. *)
Lemma rolling_center_last (w : nat) (agg : list Q → option Q) (l : list Q) (v : Q) :
  (1 <= w <= length l)%nat →
  agg (Pd.tail w l) = Some v →
  Pd.iloc_last (Pd.dropna (Pd.rolling_center w agg l)) = Some v.
Proof.
  intros H Hagg. unfold Pd.rolling_center.
  set (off := ((w - 1) / 2)%nat).
  assert (Hoff : (off < w)%nat).
  { subst off. destruct w as [| w]; [lia |].
    apply Nat.Div0.div_lt_upper_bound. lia. }
  set (n := length l) in *.
  replace n with ((n - off - 1) + 1 + off)%nat at 1 by lia.
  rewrite !seq_app, !fmap_app, !dropna_app.
  assert (Hrest : Pd.dropna
            ((λ i, Pd.window_at w (i + off) l ≫= agg)
               <$> seq (0 + (n - off - 1 + 1)) off) = []).
  { apply dropna_all_missing. intros x Hx.
    apply list_elem_of_fmap in Hx as (i & -> & Hi).
    apply elem_of_seq in Hi.
    rewrite window_at_beyond; [reflexivity | fold n; lia]. }
  rewrite Hrest, app_nil_r.
  change (seq (0 + (n - off - 1)) 1) with [(0 + (n - off - 1))%nat].
  rewrite list_fmap_singleton.
  replace (0 + (n - off - 1) + off)%nat with (length l - 1)%nat by (fold n; lia).
  rewrite (window_at_end w l H). simpl mbind. rewrite Hagg.
  change (Pd.dropna [Some v]) with [v].
  apply iloc_last_snoc.
Qed.

Lemma max_is_Some (l : list Q) : l ≠ [] → ∃ v, Pd.max l = Some v.
Proof. destruct l; [done | eauto]. Qed.

Lemma min_is_Some (l : list Q) : l ≠ [] → ∃ v, Pd.min l = Some v.
Proof. destruct l; [done | eauto]. Qed.

(** [calculate_support_resistance] answers [None] for both levels on fewer
    than [window] rows.  Otherwise the support is the lowest low and the
    resistance the highest high of the last [window] rows: the last defined
    value of the centred rolling extreme is the one of the final window, so
    the fall-back to the extreme of the whole frame is never taken. *)
Theorem calculate_support_resistance_spec (df : DataFrame) (window : nat) :
  ((len df < window)%nat → calculate_support_resistance df window = (None, None))
  ∧ ((1 <= window <= len df)%nat →
     calculate_support_resistance df window
     = (Pd.min (Pd.tail window (col low df)), Pd.max (Pd.tail window (col high df)))
     ∧ is_Some (Pd.min (Pd.tail window (col low df)))
     ∧ is_Some (Pd.max (Pd.tail window (col high df)))).
Proof.
  unfold calculate_support_resistance. split.
  - intros H. by destruct (Nat.ltb_spec (len df) window); [| lia].
  - intros H. destruct (Nat.ltb_spec (len df) window); [lia |].
    assert (Hl : (1 <= window <= length (col low df))%nat)
      by (unfold col; rewrite length_fmap; exact H).
    assert (Hh : (1 <= window <= length (col high df))%nat)
      by (unfold col; rewrite length_fmap; exact H).
    destruct (min_is_Some _ (tail_nonempty window _ Hl)) as (lo & Hlo).
    destruct (max_is_Some _ (tail_nonempty window _ Hh)) as (hi & Hhi).
    rewrite (rolling_center_last window Pd.max _ hi Hh Hhi).
    rewrite (rolling_center_last window Pd.min _ lo Hl Hlo).
    rewrite Hlo, Hhi. eauto.
Qed.

End Levels.

(** The last candle of the fifty falling bars is a hammer and a bullish
    pinbar, and neither a doji nor a bearish pinbar; the first two rows of
    the twelve-row frame alone give no key. *)
Lemma identify_candlestick_patterns_keys_witness :
  TechnicalAnalysis.identify_candlestick_patterns Examples.falling_1m
    !! "hammer"%string = Some true
  ∧ TechnicalAnalysis.identify_candlestick_patterns Examples.falling_1m
      !! "bullish_pinbar"%string = Some true
  ∧ TechnicalAnalysis.identify_candlestick_patterns Examples.falling_1m
      !! "bearish_pinbar"%string = Some false
  ∧ TechnicalAnalysis.identify_candlestick_patterns Examples.falling_1m
      !! "doji"%string = Some false
  ∧ TechnicalAnalysis.identify_candlestick_patterns
      (df_of (take 2 (rows Examples.spike_1m))) = ∅.
Proof.
  assert (H : (3 <= len Examples.falling_1m)%nat) by (vm_compute; lia).
  destruct (proj2 (identify_candlestick_patterns_keys Examples.falling_1m) H)
    as (prev & cur & _ & Hcur & _ & Hdoji & Hhammer & _ & _ & _ & Hbull & Hbear).
  assert (Ecur : cur = mkCandle 2940 1122 1122.5 1120 1122.5 1000).
  { apply (inj Some). rewrite <- Hcur. vm_compute. reflexivity. }
  subst cur. rewrite Hdoji, Hhammer, Hbull, Hbear.
  split; [vm_compute; reflexivity |]. split; [vm_compute; reflexivity |].
  split; [vm_compute; reflexivity |]. split; [vm_compute; reflexivity |].
  refine (proj1 (identify_candlestick_patterns_keys
                   (df_of (take 2 (rows Examples.spike_1m)))) _).
  vm_compute. lia.
Defined.

(** On the 5m example frame: lowest low and highest high of the last 20
    bars. *)
Lemma calculate_support_resistance_spec_witness :
  TechnicalAnalysis.calculate_support_resistance Examples.rising_then_falling_5m 20
  = (Some 1120, Some 1171).
Proof.
  assert (H : (1 <= 20 <= len Examples.rising_then_falling_5m)%nat)
    by (vm_compute; lia).
  rewrite (proj1 (proj2 (calculate_support_resistance_spec
                           Examples.rising_then_falling_5m 20) H)).
  vm_compute. reflexivity.
Defined.

(** ** The ATR stop *)

Lemma iloc_last_rolling (w : nat) (agg : list Q → option Q) (l : list Q) :
  l ≠ [] →
  Pd.iloc_last (Pd.rolling w agg l) = Some (Pd.window_at w (length l - 1) l ≫= agg).
Proof.
  intros H. unfold Pd.rolling, Pd.iloc_last.
  destruct (length l) as [| n] eqn:E; [by destruct l |].
  rewrite seq_S, fmap_app, list_fmap_singleton, last_snoc.
  do 3 f_equal. simpl. lia.
Qed.

Lemma length_shift1 (l : list Q) : length (Pd.shift1 l) = length l.
Proof.
  unfold Pd.shift1. destruct l as [| x l]; [reflexivity |].
  cbn [length]. rewrite length_fmap, (removelast_firstn_len (x :: l)), length_take.
  cbn [length]. lia.
Qed.

Lemma length_true_range (df : DataFrame) : length (true_range df) = len df.
Proof.
  unfold true_range, high_low, high_close, low_close, len, col.
  rewrite !length_zip_with, !length_fmap, !length_shift1, !length_fmap. lia.
Qed.

Lemma Forall_zip_with_l {A B C} (P : A → Prop) (R : C → Prop) (f : A → B → C)
    (l : list A) (k : list B) :
  (∀ x y, P x → R (f x y)) → Forall P l → Forall R (zip_with f l k).
Proof.
  intros Hf Hl. revert k. induction Hl as [| x l Hx Hl IH]; intros [| y k]; simpl;
    constructor; auto.
Qed.

Lemma opt_max_ge (x : Q) (o : option Q) : x <= opt_max x o.
Proof.
  destruct o as [y|]; simpl; [apply Q.le_max_l | apply Qle_refl].
Qed.

Lemma true_range_nonneg (df : DataFrame) :
  high_above_low df → Forall (λ t, 0 <= t) (true_range df).
Proof.
  intros H. unfold true_range.
  apply (Forall_zip_with_l (λ t, 0 <= t)).
  - intros x y Hx.
    eapply Qle_trans; [| apply opt_max_ge]. eapply Qle_trans; [| apply opt_max_ge].
    exact Hx.
  - unfold high_low. apply Forall_fmap. eapply Forall_impl; [exact H |].
    intros c Hc. unfold compose. cbv beta in *. lra.
Qed.

Lemma fold_left_sum_nonneg (l : list Q) (acc : Q) :
  0 <= acc → Forall (λ t, 0 <= t) l → 0 <= fold_left Qplus l acc.
Proof.
  intros Hacc Hl. revert acc Hacc. induction Hl as [| x l Hx Hl IH]; intros acc Hacc.
  - exact Hacc.
  - simpl. apply IH. lra.
Qed.

Lemma mean_nonneg (l : list Q) (m : Q) :
  Forall (λ t, 0 <= t) l → Pd.mean l = Some m → 0 <= m.
Proof.
  intros Hl. unfold Pd.mean. destruct l as [| x l]; [done |].
  intros [= <-]. apply Qle_shift_div_l.
  - change 0 with (inject_Z 0). rewrite <- Zlt_Qlt. simpl. lia.
  - rewrite Qmult_0_l. apply fold_left_sum_nonneg; [apply Qle_refl | exact Hl].
Qed.

(** On at least [atr_period] rows the stop is computed from the last close
    and the mean of the last [atr_period] true ranges. *)
Lemma calculate_atr_stop_loss_value (df : DataFrame) (atr_period : nat) :
  (1 <= atr_period <= len df)%nat →
  ∃ price atr,
    Pd.iloc_last (col close df) = Some price
    ∧ Pd.mean (Pd.tail atr_period (true_range df)) = Some atr
    ∧ (∀ multiplier direction,
         fst (calculate_atr_stop_loss df atr_period multiplier direction)
         = Some (Some (if String.eqb (Py.lower direction) "long"
                       then price - atr * multiplier
                       else price + atr * multiplier)))
    ∧ (high_above_low df → 0 <= atr).
Proof.
  intros H.
  assert (Hrows : rows df ≠ []).
  { unfold len in H. destruct (rows df); [simpl in H; lia | done]. }
  assert (Htr : (1 <= atr_period <= length (true_range df))%nat)
    by (by rewrite length_true_range).
  destruct (Pd.iloc_last (col close df)) as [price|] eqn:Ep.
  2: { unfold Pd.iloc_last, col in Ep. apply last_None in Ep.
       apply fmap_nil_inv in Ep. done. }
  destruct (Pd.mean (Pd.tail atr_period (true_range df))) as [atr|] eqn:Ea.
  2: { unfold Pd.mean in Ea.
       pose proof (tail_nonempty atr_period _ Htr) as Hne.
       by destruct (Pd.tail atr_period (true_range df)). }
  exists price, atr. split; [reflexivity |]. split; [reflexivity |]. split.
  - intros multiplier direction. unfold calculate_atr_stop_loss.
    destruct (Nat.ltb_spec (len df) atr_period); [lia |].
    cbn [fst]. rewrite iloc_last_rolling.
    2: { intros E. rewrite E in Htr. simpl in Htr. lia. }
    rewrite (window_at_end _ _ Htr), Ep. simpl mbind. rewrite Ea.
    by destruct (String.eqb (Py.lower direction) "long").
  - intros Hwf. eapply mean_nonneg; [| exact Ea]. unfold Pd.tail.
    apply Forall_drop. by apply true_range_nonneg.
Qed.

(** [calculate_atr_stop_loss] answers [None], and leaves the frame alone,
    on fewer than [atr_period] rows.  Otherwise the stop is the last close
    minus (for ['long'], in any letter case) or plus (for every other
    direction string) [multiplier] times the mean true range of the last
    [atr_period] rows; on a frame whose highs are not below its lows and
    with a non-negative multiplier, the long stop is at or below the price
    and the other one at or above it. *)
Theorem calculate_atr_stop_loss_spec (df : DataFrame) (atr_period : nat)
    (multiplier : Q) :
  ((len df < atr_period)%nat → ∀ direction,
     calculate_atr_stop_loss df atr_period multiplier direction = (Some None, df))
  ∧ ((1 <= atr_period <= len df)%nat →
     ∃ price atr,
       Pd.iloc_last (col close df) = Some price
       ∧ Pd.mean (Pd.tail atr_period (true_range df)) = Some atr
       ∧ (∀ direction,
            fst (calculate_atr_stop_loss df atr_period multiplier direction)
            = Some (Some (if String.eqb (Py.lower direction) "long"
                          then price - atr * multiplier
                          else price + atr * multiplier)))
       ∧ (high_above_low df → 0 <= multiplier →
          price - atr * multiplier <= price <= price + atr * multiplier)).
Proof.
  split.
  - intros H direction. by apply calculate_atr_stop_loss_short_window.
  - intros H.
    destruct (calculate_atr_stop_loss_value df atr_period H)
      as (price & atr & Hp & Ha & Hstop & Hpos).
    exists price, atr. split; [exact Hp |]. split; [exact Ha |]. split.
    + intros direction. apply Hstop.
    + intros Hwf Hm.
      pose proof (Qmult_le_0_compat _ _ (Hpos Hwf) Hm). lra.
Qed.

(** Twelve rows give no stop; the fifty rows of [falling_1m] give a long
    stop below the last close. *)
Lemma calculate_atr_stop_loss_spec_witness :
  fst (calculate_atr_stop_loss Examples.spike_1m 14 2 "long") = Some None
  ∧ ∃ stop, fst (calculate_atr_stop_loss Examples.falling_1m 14 2 "long")
            = Some (Some stop) ∧ stop <= 1122.5.
Proof.
  split.
  - rewrite (proj1 (calculate_atr_stop_loss_spec Examples.spike_1m 14 2));
      [reflexivity | vm_compute; lia].
  - assert (H : (1 <= 14 <= len Examples.falling_1m)%nat) by (vm_compute; lia).
    destruct (proj2 (calculate_atr_stop_loss_spec Examples.falling_1m 14 2) H)
      as (price & atr & Hp & _ & Hstop & Hside).
    assert (E : price = 1122.5) by (vm_compute in Hp; congruence).
    exists (price - atr * 2). split; [exact (Hstop "long"%string) |].
    rewrite <- E. apply Hside; [| discriminate].
    assert (Hb : forallb (λ c, Py.leb (low c) (high c)) (rows Examples.falling_1m)
                 = true) by (vm_compute; reflexivity).
    unfold high_above_low. apply Forall_forall. intros c Hc. apply leb_le.
    apply (proj1 (forallb_forall _ _) Hb). by apply list_elem_of_In.
Defined.

(** ** What the calls do to the caller's frame *)

Lemma lookup_column_assign (name other : string) (s : Series)
    (cols : list (string * Series)) :
  lookup_column other (assign name s cols)
  = if String.eqb name other then Some s else lookup_column other cols.
Proof.
  induction cols as [| [n v] cols IH]; simpl.
  - destruct (String.eqb_spec name other); reflexivity.
  - destruct (String.eqb_spec n name) as [-> | Hn]; simpl.
    + destruct (String.eqb_spec name other); reflexivity.
    + destruct (String.eqb_spec n other) as [-> | Ho].
      * destruct (String.eqb_spec name other); [congruence | reflexivity].
      * exact IH.
Qed.

Lemma assign_same (name : string) (s : Series) (cols : list (string * Series)) :
  lookup_column name cols = Some s → assign name s cols = cols.
Proof.
  induction cols as [| [n v] cols IH]; simpl; [done |].
  destruct (String.eqb_spec n name) as [-> | Hn].
  - by intros [= ->].
  - intros H. by rewrite IH.
Qed.

Lemma set_column_same (name : string) (s : Series) (df : DataFrame) :
  get_column name df = Some s → set_column name s df = df.
Proof.
  unfold get_column, set_column. intros H. rewrite (assign_same _ _ _ H).
  by destruct df.
Qed.

(** What [calculate_atr_stop_loss] leaves in the frame it was given: the
    rows are untouched; on at least [atr_period] rows the frame afterwards
    carries the four work columns with the values computed from its rows,
    and every other column is as before.  A second call on the frame it left
    returns what the first frame would have returned and changes nothing
    more, whatever its multiplier and direction. *)
Theorem calculate_atr_stop_loss_frame (df : DataFrame) (atr_period : nat)
    (multiplier : Q) (direction : string) :
  let df' := snd (calculate_atr_stop_loss df atr_period multiplier direction) in
  rows df' = rows df
  ∧ ((atr_period <= len df)%nat →
     get_column "high_low" df' = Some (Some <$> high_low df)
     ∧ get_column "high_close" df' = Some (high_close df)
     ∧ get_column "low_close" df' = Some (low_close df)
     ∧ get_column "true_range" df' = Some (Some <$> true_range df)
     ∧ (∀ name, name ∉ ["high_low"; "high_close"; "low_close"; "true_range"]%string →
                get_column name df' = get_column name df))
  ∧ (∀ multiplier' direction',
       calculate_atr_stop_loss df' atr_period multiplier' direction'
       = (fst (calculate_atr_stop_loss df atr_period multiplier' direction'), df')).
Proof.
  cbv zeta. split; [apply rows_calculate_atr_stop_loss |].
  unfold calculate_atr_stop_loss.
  destruct (Nat.ltb_spec (len df) atr_period) as [Hlt | Hge].
  - split; [lia |]. intros m' d'. cbn [snd fst].
    by destruct (Nat.ltb_spec (len df) atr_period); [| lia].
  - cbn [snd fst].
    set (df4 := set_column "true_range" _ _).
    assert (Hrows : rows df4 = rows df) by reflexivity.
    assert (Hhl : get_column "high_low" df4 = Some (Some <$> high_low df)).
    { unfold get_column, df4, set_column. cbn [extra].
      rewrite !lookup_column_assign. reflexivity. }
    assert (Hhc : get_column "high_close" df4 = Some (high_close df)).
    { unfold get_column, df4, set_column. cbn [extra].
      rewrite !lookup_column_assign. reflexivity. }
    assert (Hlc : get_column "low_close" df4 = Some (low_close df)).
    { unfold get_column, df4, set_column. cbn [extra].
      rewrite !lookup_column_assign. reflexivity. }
    assert (Htr : get_column "true_range" df4 = Some (Some <$> true_range df)).
    { unfold get_column, df4, set_column. cbn [extra].
      rewrite !lookup_column_assign. reflexivity. }
    split.
    + intros _. repeat split; try assumption.
      intros name Hname. unfold get_column, df4, set_column. cbn [extra].
      rewrite !lookup_column_assign.
      repeat match goal with
      | |- context [String.eqb ?k name] =>
          destruct (String.eqb_spec k name) as [<- | ?]; [exfalso; apply Hname; set_solver |]
      end.
      reflexivity.
    + intros m' d'.
      assert (Hlen : len df4 = len df) by reflexivity.
      rewrite Hlen. destruct (Nat.ltb_spec (len df) atr_period); [lia |].
      assert (E1 : high_low df4 = high_low df) by reflexivity.
      assert (E2 : high_close df4 = high_close df) by reflexivity.
      assert (E3 : low_close df4 = low_close df) by reflexivity.
      assert (E4 : true_range df4 = true_range df) by reflexivity.
      assert (E5 : col close df4 = col close df) by reflexivity.
      rewrite E1, E2, E3, E4, E5.
      rewrite (set_column_same "high_low" _ df4 Hhl).
      rewrite (set_column_same "high_close" _ df4 Hhc).
      rewrite (set_column_same "low_close" _ df4 Hlc).
      rewrite (set_column_same "true_range" _ df4 Htr).
      reflexivity.
Qed.

(** On fourteen flat bars the true range column holds fourteen zeros. *)
Lemma calculate_atr_stop_loss_frame_witness :
  get_column "true_range"
    (snd (calculate_atr_stop_loss Examples.flat_1m 14 2 "long"))
  = Some (repeat (Some 0) 14).
Proof.
  assert (Hlen : (14 <= len Examples.flat_1m)%nat) by (vm_compute; lia).
  rewrite (proj1 (proj2 (proj2 (proj2 (proj1 (proj2
             (calculate_atr_stop_loss_frame Examples.flat_1m 14 2 "long")) Hlen))))).
  vm_compute. reflexivity.
Defined.

(** ** Exit rules *)

Lemma fold_left_sum_zero (l : list Q) (acc : Q) :
  Forall (λ t, 0 <= t) l → 0 <= acc → fold_left Qplus l acc == 0 →
  acc == 0 ∧ Forall (λ t, t == 0) l.
Proof.
  intros Hl. revert acc. induction Hl as [| x l Hx Hl IH]; intros acc Hacc Hsum.
  - split; [exact Hsum | constructor].
  - simpl in Hsum. destruct (IH (acc + x)) as [H0 Hz]; [lra | exact Hsum |].
    split; [lra |]. constructor; [lra | exact Hz].
Qed.

Lemma fold_left_sum_of_zeros (l : list Q) (acc : Q) :
  Forall (λ t, t == 0) l → fold_left Qplus l acc == acc.
Proof.
  intros Hl. revert acc. induction Hl as [| x l Hx Hl IH]; intros acc.
  - reflexivity.
  - simpl. rewrite IH. lra.
Qed.

Lemma mean_zero (l : list Q) (m : Q) :
  Forall (λ t, 0 <= t) l → Pd.mean l = Some m →
  (m == 0 ↔ Forall (λ t, t == 0) l).
Proof.
  intros Hl. unfold Pd.mean. destruct l as [| x l]; [done |].
  intros [= <-].
  set (n := inject_Z (Z.of_nat (length (x :: l)))).
  assert (Hn : 0 < n).
  { unfold n. change 0 with (inject_Z 0). rewrite <- Zlt_Qlt. simpl. lia. }
  split.
  - intros Hm.
    assert (Hs : Pd.sum (x :: l) == 0).
    { transitivity (Pd.sum (x :: l) / n * n); [field; lra |].
      transitivity (0 * n); [apply Qmult_comp; [exact Hm | reflexivity] | ring]. }
    apply (fold_left_sum_zero (x :: l) 0 Hl); [lra | exact Hs].
  - intros Hz. transitivity (0 / n); [| unfold Qdiv; ring].
    apply Qdiv_comp; [| reflexivity].
    unfold Pd.sum. apply (fold_left_sum_of_zeros _ _ Hz).
Qed.

Lemma lower_upper_long (s : string) :
  Py.upper s = "LONG"%string → String.eqb (Py.lower (Py.lower (Py.upper s))) "long" = true.
Proof. by intros ->. Qed.

Lemma lower_upper_short (s : string) :
  Py.upper s = "SHORT"%string → String.eqb (Py.lower (Py.lower (Py.upper s))) "long" = false.
Proof. by intros ->. Qed.

Section Exits.
Context `{lib : TA}.
Import ExitManager.

Lemma ema_cross_stop_reason direction df_5m r :
  ema_cross_stop direction df_5m = Some r →
  (direction = "LONG"%string ∧ r = EmaBearishCross)
  ∨ (direction = "SHORT"%string ∧ r = EmaBullishCross).
Proof.
  unfold ema_cross_stop.
  destruct (50 <=? len df_5m)%nat; [| done].
  destruct (Pd.iloc_last _) as [e20|]; [| done].
  destruct (Pd.iloc_last _) as [e50|]; [| done].
  destruct (String.eqb_spec direction "LONG") as [-> | _].
  - destruct (_ && _); [| done]. intros [= <-]. by left.
  - destruct (String.eqb_spec direction "SHORT") as [-> | _]; [| done].
    destruct (_ && _); [| done]. intros [= <-]. by right.
Qed.

Lemma rsi_extreme_stop_reason direction df_1m r :
  rsi_extreme_stop direction df_1m = Some r →
  (direction = "LONG"%string ∧ ∃ v, r = RsiExtremelyLow v ∧ v < 20)
  ∨ (direction = "SHORT"%string ∧ ∃ v, r = RsiExtremelyHigh v ∧ 80 < v).
Proof.
  unfold rsi_extreme_stop.
  destruct (Pd.iloc_last _) as [[v|]|]; [| done | done].
  destruct (String.eqb_spec direction "LONG") as [-> | _]; simpl.
  - destruct (Py.ltb v 20) eqn:E; [| done]. intros [= <-]. left.
    split; [done |]. exists v. split; [done |]. by apply ltb_lt.
  - destruct (String.eqb_spec direction "SHORT") as [-> | _]; simpl; [| done].
    destruct (Py.gtb v 80) eqn:E; [| done]. intros [= <-]. right.
    split; [done |]. exists v. split; [done |]. by apply gtb_lt.
Qed.

(** The ways in which [_check_dynamic_stop_loss] answers. *)
Lemma check_dynamic_stop_loss_cases position_data df_1m df_5m :
  let direction := Py.upper (Position.direction position_data) in
  let result := fst (_check_dynamic_stop_loss position_data df_1m df_5m) in
  result = no_stop
  ∨ (∃ price s df',
       Pd.iloc_last (col close df_1m) = Some price
       ∧ calculate_atr_stop_loss df_1m 14 2 (Py.lower direction) = (Some (Some s), df')
       ∧ Py.truthy s = true
       ∧ ((direction = "LONG"%string ∧ price <= s)
          ∨ (direction = "SHORT"%string ∧ s <= price))
       ∧ result = stop_with (AtrStopHit s))
  ∨ (∃ price prev,
       Pd.iloc_last (col close df_1m) = Some price
       ∧ Pd.iloc_neg 2 (rows df_1m) = Some prev
       ∧ ((direction = "LONG"%string ∧ price <= low prev
           ∧ result = stop_with (PrevLowBroken (low prev)))
          ∨ (direction = "SHORT"%string ∧ high prev <= price
             ∧ result = stop_with (PrevHighBroken (high prev)))))
  ∨ (direction = "LONG"%string ∧ result = stop_with EmaBearishCross)
  ∨ (direction = "SHORT"%string ∧ result = stop_with EmaBullishCross)
  ∨ (direction = "LONG"%string ∧ ∃ v, v < 20 ∧ result = stop_with (RsiExtremelyLow v))
  ∨ (direction = "SHORT"%string ∧ ∃ v, 80 < v ∧ result = stop_with (RsiExtremelyHigh v)).
Proof.
  cbv zeta. unfold _check_dynamic_stop_loss.
  set (direction := Py.upper (Position.direction position_data)).
  destruct (Pd.iloc_last (col close df_1m)) as [price|]; [| by left].
  destruct (calculate_atr_stop_loss df_1m 14 2 (Py.lower direction))
    as [[atr_stop|] df'] eqn:E; [| by left].
  assert (Hrest :
    ∀ rest : StopResult * DataFrame,
      rest = match Pd.iloc_neg 2 (rows df_1m) with
             | None => (no_stop, df')
             | Some prev_candle =>
                 if String.eqb direction "LONG" && Py.leb price (low prev_candle)
                 then (stop_with (PrevLowBroken (low prev_candle)), df')
                 else if String.eqb direction "SHORT" && Py.geb price (high prev_candle)
                 then (stop_with (PrevHighBroken (high prev_candle)), df')
                 else
                   match ema_cross_stop direction df_5m with
                   | Some r => (stop_with r, df')
                   | None =>
                       match rsi_extreme_stop direction df' with
                       | Some r => (stop_with r, df')
                       | None => (no_stop, df')
                       end
                   end
             end →
      fst rest = no_stop
      ∨ (∃ prev,
           Pd.iloc_neg 2 (rows df_1m) = Some prev
           ∧ ((direction = "LONG"%string ∧ price <= low prev
               ∧ fst rest = stop_with (PrevLowBroken (low prev)))
              ∨ (direction = "SHORT"%string ∧ high prev <= price
                 ∧ fst rest = stop_with (PrevHighBroken (high prev)))))
      ∨ (direction = "LONG"%string ∧ fst rest = stop_with EmaBearishCross)
      ∨ (direction = "SHORT"%string ∧ fst rest = stop_with EmaBullishCross)
      ∨ (direction = "LONG"%string ∧ ∃ v, v < 20 ∧ fst rest = stop_with (RsiExtremelyLow v))
      ∨ (direction = "SHORT"%string
         ∧ ∃ v, 80 < v ∧ fst rest = stop_with (RsiExtremelyHigh v))).
  { intros rest ->.
    destruct (Pd.iloc_neg 2 (rows df_1m)) as [prev|]; [| by left].
    destruct (String.eqb direction "LONG" && Py.leb price (low prev)) eqn:E1.
    { apply andb_true_iff in E1 as [Hd Hp]. apply String.eqb_eq in Hd.
      apply leb_le in Hp. right; left. exists prev. split; [done |]. by left. }
    destruct (String.eqb direction "SHORT" && Py.geb price (high prev)) eqn:E2.
    { apply andb_true_iff in E2 as [Hd Hp]. apply String.eqb_eq in Hd.
      apply geb_le in Hp. right; left. exists prev. split; [done |]. by right. }
    destruct (ema_cross_stop direction df_5m) as [r|] eqn:E3.
    { apply ema_cross_stop_reason in E3 as [[Hd ->] | [Hd ->]].
      - do 2 right. by left.
      - do 3 right. by left. }
    destruct (rsi_extreme_stop direction df') as [r|] eqn:E4; [| by left].
    apply rsi_extreme_stop_reason in E4 as [[Hd (v & -> & Hv)] | [Hd (v & -> & Hv)]].
    - do 4 right. left. eauto.
    - do 5 right. eauto. }
  assert (Hwrap :
    ∀ rest : StopResult * DataFrame,
      rest = match Pd.iloc_neg 2 (rows df_1m) with
             | None => (no_stop, df')
             | Some prev_candle =>
                 if String.eqb direction "LONG" && Py.leb price (low prev_candle)
                 then (stop_with (PrevLowBroken (low prev_candle)), df')
                 else if String.eqb direction "SHORT" && Py.geb price (high prev_candle)
                 then (stop_with (PrevHighBroken (high prev_candle)), df')
                 else
                   match ema_cross_stop direction df_5m with
                   | Some r => (stop_with r, df')
                   | None =>
                       match rsi_extreme_stop direction df' with
                       | Some r => (stop_with r, df')
                       | None => (no_stop, df')
                       end
                   end
             end →
      fst rest = no_stop
      ∨ (∃ price0 s df'0,
           Some price = Some price0
           ∧ (Some atr_stop, df') = (Some (Some s), df'0)
           ∧ Py.truthy s = true
           ∧ ((direction = "LONG"%string ∧ price0 <= s)
              ∨ (direction = "SHORT"%string ∧ s <= price0))
           ∧ fst rest = stop_with (AtrStopHit s))
      ∨ (∃ price0 prev,
           Some price = Some price0
           ∧ Pd.iloc_neg 2 (rows df_1m) = Some prev
           ∧ ((direction = "LONG"%string ∧ price0 <= low prev
               ∧ fst rest = stop_with (PrevLowBroken (low prev)))
              ∨ (direction = "SHORT"%string ∧ high prev <= price0
                 ∧ fst rest = stop_with (PrevHighBroken (high prev)))))
      ∨ (direction = "LONG"%string ∧ fst rest = stop_with EmaBearishCross)
      ∨ (direction = "SHORT"%string ∧ fst rest = stop_with EmaBullishCross)
      ∨ (direction = "LONG"%string
         ∧ ∃ v, v < 20 ∧ fst rest = stop_with (RsiExtremelyLow v))
      ∨ (direction = "SHORT"%string
         ∧ ∃ v, 80 < v ∧ fst rest = stop_with (RsiExtremelyHigh v))).
  { intros rest Hr.
    destruct (Hrest rest Hr) as [H | [(prev & Hp & H) | H]].
    - by left.
    - do 2 right. left. exists price, prev. eauto.
    - do 3 right. exact H. }
  destruct atr_stop as [s|]; [| by apply Hwrap].
  destruct (Py.truthy s) eqn:Es; [| by apply Hwrap].
  destruct (String.eqb direction "LONG" && Py.leb price s) eqn:E1.
  { apply andb_true_iff in E1 as [Hd Hp]. apply String.eqb_eq in Hd.
    apply leb_le in Hp. right; left. exists price, s, df'.
    repeat split; try done. by left. }
  destruct (String.eqb direction "SHORT" && Py.geb price s) eqn:E2.
  { apply andb_true_iff in E2 as [Hd Hp]. apply String.eqb_eq in Hd.
    apply geb_le in Hp. right; left. exists price, s, df'.
    repeat split; try done. by right. }
  by apply Hwrap.
Qed.

(** The ATR rule of [_check_dynamic_stop_loss] recomputes its stop from the
    current close, so on a frame whose highs are not below its lows it can
    only be hit when the stop is the price itself: the last fourteen true
    ranges are all zero.  Conversely, on such a flat window every long or
    short position with a non-zero price is stopped out by this rule. *)
Theorem atr_stop_fires_only_on_flat_window (position_data : Position.t)
    (df_1m df_5m : DataFrame) :
  let direction := Py.upper (Position.direction position_data) in
  let flat := Forall (λ t, t == 0) (Pd.tail 14 (true_range df_1m)) in
  high_above_low df_1m →
  (∀ s, reason (fst (_check_dynamic_stop_loss position_data df_1m df_5m))
        = Some (AtrStopHit s) →
        flat ∧ ∃ price, Pd.iloc_last (col close df_1m) = Some price ∧ s == price)
  ∧ (∀ price,
       (14 <= len df_1m)%nat →
       direction = "LONG"%string ∨ direction = "SHORT"%string →
       Pd.iloc_last (col close df_1m) = Some price → ¬ price == 0 → flat →
       ∃ s, fst (_check_dynamic_stop_loss position_data df_1m df_5m)
            = stop_with (AtrStopHit s) ∧ s == price).
Proof.
  cbv zeta. intros Hwf. split.
  - intros s Hs.
    pose proof (check_dynamic_stop_loss_cases position_data df_1m df_5m) as Hc.
    cbv zeta in Hc.
    destruct Hc as [H | [H | [H | [H | [H | [H | H]]]]]].
    + by rewrite H in Hs.
    + destruct H as (price & s' & df' & Hp & Hatr & Htruthy & Hdir & Hres).
      rewrite Hres in Hs. injection Hs as ->.
      destruct (Nat.ltb_spec (len df_1m) 14) as [Hlt | Hge].
      { rewrite (calculate_atr_stop_loss_short_window _ _ _ _ Hlt) in Hatr.
        discriminate. }
      destruct (calculate_atr_stop_loss_value df_1m 14)
        as (price' & atr & Hp' & Ha & Hstop & Hpos); [lia |].
      rewrite Hp in Hp'. injection Hp' as <-.
      specialize (Hstop 2 (Py.lower (Py.upper (Position.direction position_data)))).
      rewrite Hatr in Hstop. cbn [fst] in Hstop.
      specialize (Hpos Hwf).
      assert (Hz : atr == 0 ∧ s == price).
      { destruct Hdir as [[Hd Hle] | [Hd Hle]].
        - rewrite (lower_upper_long _ Hd) in Hstop. injection Hstop as ->.
          split; lra.
        - rewrite (lower_upper_short _ Hd) in Hstop. injection Hstop as ->.
          split; lra. }
      destruct Hz as [Hz Heq]. split; [| eauto].
      apply (mean_zero _ atr); [| exact Ha | exact Hz].
      unfold Pd.tail. apply Forall_drop. by apply true_range_nonneg.
    + destruct H as (price & prev & _ & _ & [(_ & _ & H) | (_ & _ & H)]);
        by rewrite H in Hs.
    + destruct H as [_ H]. by rewrite H in Hs.
    + destruct H as [_ H]. by rewrite H in Hs.
    + destruct H as [_ (v & _ & H)]. by rewrite H in Hs.
    + destruct H as [_ (v & _ & H)]. by rewrite H in Hs.
  - intros price Hlen Hdir Hp Hnz Hflat.
    destruct (calculate_atr_stop_loss_value df_1m 14)
      as (price' & atr & Hp' & Ha & Hstop & Hpos); [lia |].
    rewrite Hp in Hp'. injection Hp' as <-.
    specialize (Hstop 2 (Py.lower (Py.upper (Position.direction position_data)))).
    assert (Hz : atr == 0).
    { apply (mean_zero _ atr) in Hflat; [exact Hflat | | exact Ha].
      unfold Pd.tail. apply Forall_drop. by apply true_range_nonneg. }
    unfold _check_dynamic_stop_loss. rewrite Hp.
    destruct (calculate_atr_stop_loss df_1m 14 2 _) as [atr_stop df'].
    cbn [fst] in Hstop. subst atr_stop.
    destruct Hdir as [Hd | Hd].
    + rewrite (lower_upper_long _ Hd), Hd.
      assert (Ht : Py.truthy (price - atr * 2) = true)
        by (apply truthy_nonzero; lra).
      assert (Hl : Py.leb price (price - atr * 2) = true) by (apply leb_le; lra).
      rewrite Ht, Hl. simpl. eexists. split; [reflexivity | lra].
    + rewrite (lower_upper_short _ Hd), Hd.
      assert (Ht : Py.truthy (price + atr * 2) = true)
        by (apply truthy_nonzero; lra).
      assert (Hl : Py.geb price (price + atr * 2) = true) by (apply geb_le; lra).
      rewrite Ht, Hl. simpl. eexists. split; [reflexivity | lra].
Qed.


(** [_check_trend_reversal] asks for two of its four signals, and finds
    none for a direction that is neither long nor short. *)
Lemma check_trend_reversal_cases position_data df_1m df_5m :
  let direction := Py.upper (Position.direction position_data) in
  let r := _check_trend_reversal position_data df_1m df_5m in
  r = no_reversal
  ∨ (rev_should_exit r = true
     ∧ rev_reason r = Some (ReversalDetected (rev_signals r))
     ∧ (2 <= length (rev_signals r) <= 4)%nat
     ∧ (direction = "LONG"%string ∨ direction = "SHORT"%string)).
Proof.
  cbv zeta. unfold _check_trend_reversal.
  set (direction := Py.upper (Position.direction position_data)).
  set (a1 := TechnicalAnalysis.get_comprehensive_analysis df_1m).
  set (a5 := TechnicalAnalysis.get_comprehensive_analysis df_5m).
  destruct (String.eqb_spec direction "LONG") as [HL | HL];
    destruct (String.eqb_spec direction "SHORT") as [HS | HS];
    destruct (Analysis.obv_trend a1) as [t|]; try destruct (Py.truthy_str t);
    try destruct (String.eqb t "falling"); try destruct (String.eqb t "rising");
    try destruct (first_pattern bearish_patterns _);
    try destruct (first_pattern bullish_patterns _);
    destruct (Analysis.rsi_14 a1) as [v|]; try destruct (Py.truthy v);
    try destruct (Py.gtb v 75); try destruct (Py.ltb v 25);
    destruct (Analysis.trend a5) as [t5|]; try destruct (Py.truthy_str t5);
    try destruct (String.eqb t5 "bearish"); try destruct (String.eqb t5 "bullish");
    cbn; first [by left | right; repeat split; first [lia | by left | by right]].
Qed.

Lemma check_trailing_stop_cases position_data df_1m :
  let direction := Py.upper (Position.direction position_data) in
  let r := _check_trailing_stop position_data df_1m in
  r = no_stop
  ∨ (∃ level, r = mkStop true (Some (TrailingStopHit level)))
    ∧ (direction = "LONG"%string ∨ direction = "SHORT"%string).
Proof.
  cbv zeta. unfold _check_trailing_stop.
  destruct (Pd.iloc_last _) as [price|]; [| by left].
  destruct (Py.fleb _ _); [by left |].
  destruct (String.eqb_spec (Py.upper (Position.direction position_data)) "LONG").
  - destruct (Pd.max _); [| by left]. destruct (Py.leb _ _); [| by left].
    right. split; [eauto | by left].
  - destruct (String.eqb_spec (Py.upper (Position.direction position_data)) "SHORT");
      [| by left].
    destruct (Pd.min _); [| by left]. destruct (Py.geb _ _); [| by left].
    right. split; [eauto | by right].
Qed.

Lemma check_fibonacci_levels_cases position_data current_price level :
  _check_fibonacci_levels position_data current_price = Some level →
  level ∈ ["TP1"; "TP2"; "TP3"]%string
  ∧ (Py.upper (Position.direction position_data) = "LONG"%string
     ∨ Py.upper (Position.direction position_data) = "SHORT"%string).
Proof.
  unfold _check_fibonacci_levels.
  destruct (SignalGenerator.dict_empty _); [done |].
  destruct (String.eqb_spec (Py.upper (Position.direction position_data)) "LONG").
  - intros H. apply find_some in H as [H _]. split; [by apply list_elem_of_In | by left].
  - destruct (String.eqb_spec (Py.upper (Position.direction position_data)) "SHORT");
      [| done].
    intros H. apply find_some in H as [H _]. split; [by apply list_elem_of_In | by right].
Qed.

(** The shapes of the dictionary that [analyze_exit_conditions] returns. *)
Lemma analyze_exit_conditions_cases position_data df_1m df_5m :
  let direction := Py.upper (Position.direction position_data) in
  let e := fst (analyze_exit_conditions position_data df_1m df_5m) in
  (Exit.should_exit e = false ∧ Exit.exit_reason e = None ∧ Exit.exit_type e = None
   ∧ Exit.fibonacci_hit e = None ∧ Exit.technical_signals e = [])
  ∨ (Exit.should_exit e = true
     ∧ (direction = "LONG"%string ∨ direction = "SHORT"%string)
     ∧ is_Some (Exit.suggested_exit_price e)
     ∧ Exit.suggested_exit_price e = Pd.iloc_last (col close df_1m)
     ∧ ((∃ level, level ∈ ["TP1"; "TP2"; "TP3"]%string
                  ∧ Exit.exit_type e = Some "take_profit"%string
                  ∧ Exit.exit_reason e = Some (FibonacciHit level)
                  ∧ Exit.fibonacci_hit e = Some level
                  ∧ Exit.technical_signals e = [])
        ∨ (Exit.exit_type e = Some "stop_loss"%string
           ∧ is_Some (Exit.exit_reason e)
           ∧ Exit.exit_reason e
             = reason (fst (_check_dynamic_stop_loss position_data df_1m df_5m))
           ∧ Exit.fibonacci_hit e = None ∧ Exit.technical_signals e = [])
        ∨ (Exit.exit_type e = Some "reversal"%string
           ∧ Exit.exit_reason e = Some (ReversalDetected (Exit.technical_signals e))
           ∧ (2 <= length (Exit.technical_signals e) <= 4)%nat
           ∧ Exit.fibonacci_hit e = None)
        ∨ (Exit.exit_type e = Some "trailing_stop"%string
           ∧ (∃ level, Exit.exit_reason e = Some (TrailingStopHit level))
           ∧ Exit.fibonacci_hit e = None ∧ Exit.technical_signals e = []))).
Proof.
  cbv zeta. unfold analyze_exit_conditions.
  destruct (_ || _); [by left |].
  destruct (Pd.iloc_last (col close df_1m)) as [price|]; [| by left].
  destruct (_ || _); [by left |].
  destruct (_check_fibonacci_levels position_data price) as [level|] eqn:Ef.
  { apply check_fibonacci_levels_cases in Ef as [Hin Hdir].
    right. cbn. split; [done |]. split; [done |]. split; [done |]. split; [done |].
    left. exists level. done. }
  pose proof (check_dynamic_stop_loss_cases position_data df_1m df_5m) as Hstop.
  cbv zeta in Hstop.
  destruct (_check_dynamic_stop_loss position_data df_1m df_5m) as [stop df'].
  cbn [fst] in Hstop.
  destruct (should_stop stop) eqn:Es.
  { right. cbn.
    assert (Hr : is_Some (reason stop)
                 ∧ (Py.upper (Position.direction position_data) = "LONG"%string
                    ∨ Py.upper (Position.direction position_data) = "SHORT"%string)).
    { destruct Hstop as [H | [H | [H | [H | [H | [H | H]]]]]].
      - by rewrite H in Es.
      - destruct H as (? & ? & ? & _ & _ & _ & Hd & ->). split; [done |].
        destruct Hd as [[? _] | [? _]]; eauto.
      - destruct H as (? & ? & _ & _ & [(? & _ & ->) | (? & _ & ->)]); eauto.
      - destruct H as [? ->]. eauto.
      - destruct H as [? ->]. eauto.
      - destruct H as [? (? & _ & ->)]. eauto.
      - destruct H as [? (? & _ & ->)]. eauto. }
    destruct Hr as [Hr Hd].
    split; [done |]. split; [done |]. split; [done |]. split; [done |].
    right; left. done. }
  pose proof (check_trend_reversal_cases position_data df' df_5m) as Hrev.
  cbv zeta in Hrev.
  destruct (rev_should_exit (_check_trend_reversal position_data df' df_5m)) eqn:Er.
  { right. cbn. destruct Hrev as [H | (_ & Hreason & Hlen & Hd)].
    - by rewrite H in Er.
    - split; [done |]. split; [done |]. split; [done |]. split; [done |].
      do 2 right. left. done. }
  pose proof (check_trailing_stop_cases position_data df') as Htrail.
  cbv zeta in Htrail.
  destruct (should_stop (_check_trailing_stop position_data df')) eqn:Et.
  { right. cbn. destruct Htrail as [H | [(level & H) Hd]].
    - by rewrite H in Et.
    - split; [done |]. split; [done |]. split; [done |]. split; [done |].
      do 3 right. rewrite H. cbn. eauto. }
  left. done.
Qed.

(** Whatever the position and the frames, the exit analysis is of one of
    five kinds: no exit (no reason, no type, no level, no signals), or an
    exit of type take_profit, stop_loss, reversal or trailing_stop, each with
    its reason; the level hit is reported only with a take profit and is one
    of TP1, TP2, TP3; reversal signals are reported only with a reversal, two
    to four of them; and an exit always suggests the last close as price. *)
Theorem exit_analysis_consistent (position_data : Position.t)
    (df_1m df_5m : DataFrame) :
  let e := fst (analyze_exit_conditions position_data df_1m df_5m) in
  (Exit.should_exit e = true ↔ is_Some (Exit.exit_type e))
  ∧ (Exit.should_exit e = true ↔ is_Some (Exit.exit_reason e))
  ∧ (∀ ty, Exit.exit_type e = Some ty →
       ty ∈ ["take_profit"; "stop_loss"; "reversal"; "trailing_stop"]%string)
  ∧ (∀ level, Exit.fibonacci_hit e = Some level ↔
       Exit.exit_type e = Some "take_profit"%string
       ∧ Exit.exit_reason e = Some (FibonacciHit level))
  ∧ (∀ level, Exit.fibonacci_hit e = Some level →
       level ∈ ["TP1"; "TP2"; "TP3"]%string)
  ∧ (Exit.technical_signals e ≠ [] ↔ Exit.exit_type e = Some "reversal"%string)
  ∧ (length (Exit.technical_signals e) <= 4)%nat
  ∧ (Exit.should_exit e = true →
     is_Some (Pd.iloc_last (col close df_1m))
     ∧ Exit.suggested_exit_price e = Pd.iloc_last (col close df_1m)).
Proof.
  cbv zeta.
  pose proof (analyze_exit_conditions_cases position_data df_1m df_5m) as H.
  cbv zeta in H.
  destruct (fst (analyze_exit_conditions position_data df_1m df_5m))
    as [should why ty price pl fib sig].
  cbn in *.
  assert (Hmem : ∀ (x : string) (l : list string), In x l → x ∈ l)
    by (intros x l; apply list_elem_of_In).
  destruct H as [(-> & -> & -> & -> & ->) | (-> & _ & Hp & Hprice & H)].
  - split_and!; try done; try (split; [done | by intros [? ?]]); simpl; lia.
  - rewrite <- Hprice.
    destruct H as [(level & Hin & -> & -> & -> & ->)
                  | [(-> & Hr & _ & -> & ->)
                  | [(-> & Hr & Hlen & ->)
                  | (-> & (level & ->) & -> & ->)]]].
    all: split_and!; try done; try (split; by eauto); simpl; try lia;
      try (intros ty' [= <-]; apply Hmem; simpl; tauto).
    + intros level'. split; [by intros [= ->] | by intros [_ [= ->]]].
    + by intros level' [= <-].
    + by intros level'; split; [| intros [? ?]].
    + by intros level'; split; [| intros [? ?]].
    + split; [done |]. intros _ E. rewrite E in Hlen. simpl in Hlen. lia.
    + by intros level'; split; [| intros [? ?]].
Qed.

(** A position whose direction, upper-cased, is neither LONG nor SHORT is
    never told to exit: every rule of the exit manager is written for those
    two strings only.  On non-empty frames, with an entry price and a
    non-empty direction, its profit is nevertheless reported, by the
    formula of a short. *)
Theorem unknown_direction_never_exits (position_data : Position.t)
    (df_1m df_5m : DataFrame) :
  let direction := Py.upper (Position.direction position_data) in
  let entry_price := Position.entry_price position_data in
  let e := fst (analyze_exit_conditions position_data df_1m df_5m) in
  direction ≠ "LONG"%string → direction ≠ "SHORT"%string →
  Exit.should_exit e = false ∧ Exit.exit_type e = None ∧ Exit.exit_reason e = None
  ∧ (∀ price, rows df_5m ≠ [] → Pd.iloc_last (col close df_1m) = Some price →
       ¬ entry_price == 0 → direction ≠ ""%string →
       Exit.profit_loss_pct e = (entry_price - price) / entry_price * 100
       ∧ Exit.suggested_exit_price e = Some price).
Proof.
  cbv zeta. intros HL HS.
  pose proof (analyze_exit_conditions_cases position_data df_1m df_5m) as H.
  cbv zeta in H.
  destruct H as [(H1 & H2 & H3 & _) | (_ & [Hd | Hd] & _)]; [| done | done].
  split; [done |]. split; [done |]. split; [done |].
  intros price H5 Hp Hentry Hdir.
  clear H1 H2 H3. unfold analyze_exit_conditions.
  assert (E1 : empty df_1m = false).
  { unfold empty, len. destruct (rows df_1m) eqn:E; [| done].
    unfold col in Hp. by rewrite E in Hp. }
  assert (E5 : empty df_5m = false).
  { unfold empty, len. by destruct (rows df_5m). }
  rewrite E1, E5, Hp. cbn [orb].
  apply truthy_nonzero in Hentry. rewrite Hentry.
  assert (Ht : Py.truthy_str (Py.upper (Position.direction position_data)) = true).
  { by destruct (Py.upper (Position.direction position_data)). }
  rewrite Ht. cbn [negb orb].
  rewrite (eqb_false _ _ HL).
  pose proof (analyze_exit_conditions_cases position_data df_1m df_5m) as H.
  cbv zeta in H. unfold analyze_exit_conditions in H.
  rewrite E1, E5, Hp in H. cbn [orb] in H. rewrite Hentry, Ht in H.
  cbn [negb orb] in H. rewrite (eqb_false _ _ HL) in H.
  destruct (_check_fibonacci_levels position_data price).
  { destruct H as [(H1 & _) | (_ & [Hd | Hd] & _)]; done. }
  destruct (_check_dynamic_stop_loss position_data df_1m df_5m) as [stop df'].
  destruct (should_stop stop).
  { destruct H as [(H1 & _) | (_ & [Hd | Hd] & _)]; done. }
  destruct (rev_should_exit _).
  { destruct H as [(H1 & _) | (_ & [Hd | Hd] & _)]; done. }
  destruct (should_stop _).
  { destruct H as [(H1 & _) | (_ & [Hd | Hd] & _)]; done. }
  done.
Qed.

End Exits.

(** Targets as [calculate_fibonacci_levels] produces them, from a range
    with [0 < low <= high], are ordered away from the range's far end, and
    [_check_fibonacci_levels] walks them from TP1: it answers TP1 exactly
    when the price has reached the first target and never answers TP2 or
    TP3. *)
Theorem generated_targets_report_only_tp1 (high low entry_price price : Q)
    (direction : string) :
  0 < low → low <= high →
  (Py.upper direction = "LONG"%string →
   ExitManager._check_fibonacci_levels
     (Position.mk direction entry_price (calculate_fibonacci_levels high low "long"))
     price
   = if Py.geb price (low + (high - low) * 0.382) then Some "TP1"%string else None)
  ∧ (Py.upper direction = "SHORT"%string →
     ExitManager._check_fibonacci_levels
       (Position.mk direction entry_price (calculate_fibonacci_levels high low "short"))
       price
     = if Py.leb price (high - (high - low) * 0.382) then Some "TP1"%string else None).
Proof.
  intros Hlow Hhigh.
  destruct (fibonacci_formula high low)
    as [(L1 & L2 & L3 & _ & Ldom) (S1 & S2 & S3 & _ & Sdom)].
  cbv zeta in *.
  split; intros Hd; unfold ExitManager._check_fibonacci_levels;
    cbn [Position.fibonacci_levels Position.direction]; rewrite Hd.
  - destruct (SignalGenerator.dict_empty _) eqn:E.
    { apply dict_empty_true in E. rewrite E in L1. by rewrite lookup_empty in L1. }
    cbn [String.eqb Ascii.eqb Bool.eqb List.find]. simpl String.eqb.
    cbn [List.find]. rewrite L1, L2, L3.
    assert (T1 : Py.truthy (low + (high - low) * 0.382) = true)
      by (apply truthy_nonzero; lra).
    rewrite T1. cbn [andb].
    destruct (Py.geb price (low + (high - low) * 0.382)) eqn:G1; [done |].
    apply leb_gt in G1.
    assert (G2 : Py.geb price (low + (high - low) * 0.618) = false)
      by (apply leb_gt; lra).
    assert (G3 : Py.geb price (low + (high - low) * 1) = false)
      by (apply leb_gt; lra).
    by rewrite G2, G3, !andb_false_r.
  - destruct (SignalGenerator.dict_empty _) eqn:E.
    { apply dict_empty_true in E. rewrite E in S1. by rewrite lookup_empty in S1. }
    simpl String.eqb. cbn [List.find]. rewrite S1, S2, S3.
    assert (T1 : Py.truthy (high - (high - low) * 0.382) = true)
      by (apply truthy_nonzero; lra).
    rewrite T1. cbn [andb].
    destruct (Py.leb price (high - (high - low) * 0.382)) eqn:G1; [done |].
    apply leb_gt in G1.
    assert (G2 : Py.leb price (high - (high - low) * 0.618) = false)
      by (apply leb_gt; lra).
    assert (G3 : Py.leb price (high - (high - low) * 1) = false)
      by (apply leb_gt; lra).
    by rewrite G2, G3, !andb_false_r.
Qed.

(** A long with targets from the range 100..110: far above all three
    targets, the answer is still TP1. *)
Lemma generated_targets_report_only_tp1_witness :
  ExitManager._check_fibonacci_levels Examples.long_position 200 = Some "TP1"%string.
Proof.
  assert (Hlow : 0 < 100) by reflexivity.
  assert (Hhigh : 100 <= 110) by discriminate.
  exact (proj1 (generated_targets_report_only_tp1 110 100 100 200 "long" Hlow Hhigh)
           eq_refl).
Defined.

Lemma Forall_of_forallb {A} (f : A → bool) (P : A → Prop) (l : list A) :
  (∀ x, f x = true → P x) → forallb f l = true → Forall P l.
Proof.
  intros HP Hf. apply Forall_forall. intros x Hx. apply HP.
  apply (proj1 (forallb_forall _ _) Hf). by apply list_elem_of_In.
Qed.

(** Fourteen flat bars at 105 stop a long out at 105. *)
Lemma atr_stop_fires_only_on_flat_window_witness :
  ∃ s, fst (ExitManager._check_dynamic_stop_loss (lib := TaModel.lib)
              Examples.long_position Examples.flat_1m Examples.flat_1m)
       = ExitManager.stop_with (AtrStopHit s) ∧ s == 105.
Proof.
  assert (Hwf : high_above_low Examples.flat_1m).
  { apply (Forall_of_forallb (λ c, Py.leb (low c) (high c))).
    - intros c. apply leb_le.
    - vm_compute. reflexivity. }
  assert (Hflat : Forall (λ t, t == 0) (Pd.tail 14 (true_range Examples.flat_1m))).
  { apply (Forall_of_forallb (λ t, Py.eqb t 0)).
    - intros t. apply eqb_eq.
    - vm_compute. reflexivity. }
  assert (Hlen : (14 <= len Examples.flat_1m)%nat) by (vm_compute; lia).
  assert (Hnz : ¬ 105 == 0) by discriminate.
  exact (proj2 (atr_stop_fires_only_on_flat_window (lib := TaModel.lib)
                  Examples.long_position Examples.flat_1m Examples.flat_1m Hwf)
           105 Hlen (or_introl eq_refl) eq_refl Hnz Hflat).
Defined.

(** The flat frame is above the first target of the example long: the exit
    suggests the last close. *)
Lemma exit_analysis_consistent_witness :
  Exit.suggested_exit_price
    (fst (ExitManager.analyze_exit_conditions (lib := TaModel.lib)
            Examples.long_position Examples.flat_1m Examples.flat_1m))
  = Some 105.
Proof.
  assert (H : Exit.should_exit
                (fst (ExitManager.analyze_exit_conditions (lib := TaModel.lib)
                        Examples.long_position Examples.flat_1m Examples.flat_1m))
              = true) by (vm_compute; reflexivity).
  destruct (exit_analysis_consistent (lib := TaModel.lib)
              Examples.long_position Examples.flat_1m Examples.flat_1m)
    as (_ & _ & _ & _ & _ & _ & _ & Hprice).
  destruct (Hprice H) as [_ ->]. vm_compute. reflexivity.
Defined.

(** A position marked 'hold', entered at 100, on the flat frame at 105: no
    exit, and a reported profit of minus five percent. *)
Lemma unknown_direction_never_exits_witness :
  let e := fst (ExitManager.analyze_exit_conditions (lib := TaModel.lib)
                  (Position.mk "hold" 100 ∅) Examples.flat_1m Examples.flat_1m) in
  Exit.should_exit e = false ∧ Exit.profit_loss_pct e == -5.
Proof.
  cbv zeta.
  assert (HL : Py.upper "hold" ≠ "LONG"%string) by discriminate.
  assert (HS : Py.upper "hold" ≠ "SHORT"%string) by discriminate.
  destruct (unknown_direction_never_exits (lib := TaModel.lib)
              (Position.mk "hold" 100 ∅) Examples.flat_1m Examples.flat_1m HL HS)
    as (Hexit & _ & _ & Hpl).
  split; [exact Hexit |].
  assert (H5 : rows Examples.flat_1m ≠ []) by discriminate.
  assert (Hnz : ¬ 100 == 0) by discriminate.
  assert (Hne : Py.upper "hold" ≠ ""%string) by discriminate.
  destruct (Hpl 105 H5 eq_refl Hnz Hne) as [-> _]. reflexivity.
Defined.

(** ** Scores, reasons and the emitted signal *)

Lemma length_hit c r acc :
  length (reasons (hit c r acc)) = (length (reasons acc) + Nat.b2n c)%nat.
Proof. destruct c; simpl; [by rewrite length_app | lia]. Qed.

Lemma hit_counts c r acc :
  score acc = Z.of_nat (length (reasons acc)) →
  score (hit c r acc) = Z.of_nat (length (reasons (hit c r acc))).
Proof. intros H. rewrite score_hit, length_hit, H. destruct c; simpl; lia. Qed.

Lemma hit_rsi_counts rsi test r acc :
  score acc = Z.of_nat (length (reasons acc)) →
  score (hit_rsi rsi test r acc) = Z.of_nat (length (reasons (hit_rsi rsi test r acc))).
Proof. intros H. destruct rsi; simpl; [by apply hit_counts | exact H]. Qed.

Lemma hit_pattern_counts names patterns acc :
  score acc = Z.of_nat (length (reasons acc)) →
  score (hit_pattern names patterns acc)
  = Z.of_nat (length (reasons (hit_pattern names patterns acc))).
Proof.
  intros H. unfold hit_pattern.
  destruct (first_pattern names patterns); [by apply hit_counts | exact H].
Qed.

(** Both scoring functions return as many points as reasons. *)
Lemma score_counts_reasons a1 a5 btc :
  score (_check_long_conditions a1 a5 btc)
  = Z.of_nat (length (reasons (_check_long_conditions a1 a5 btc)))
  ∧ score (_check_short_conditions a1 a5 btc)
    = Z.of_nat (length (reasons (_check_short_conditions a1 a5 btc))).
Proof.
  unfold _check_long_conditions, _check_short_conditions. cbv zeta.
  split;
    repeat first [apply hit_counts | apply hit_pattern_counts | apply hit_rsi_counts];
    reflexivity.
Qed.

Lemma rsi_rules_exclusive rsi :
  rsi_rule rsi (λ v, Py.ltb v Config.RSI_OVERSOLD)
  && rsi_rule rsi (λ v, Py.gtb v Config.RSI_OVERBOUGHT) = false.
Proof.
  destruct rsi as [v|]; [| done]. unfold rsi_rule.
  destruct (Py.truthy v); [| done]. cbn [andb].
  destruct (Py.ltb v Config.RSI_OVERSOLD) eqn:E1; [| done].
  destruct (Py.gtb v Config.RSI_OVERBOUGHT) eqn:E2; [| done].
  apply ltb_lt in E1. apply gtb_lt in E2.
  unfold Config.RSI_OVERSOLD, Config.RSI_OVERBOUGHT in *. lra.
Qed.

Lemma str_is_exclusive o (a b : string) :
  a ≠ b → str_is o a && str_is o b = false.
Proof.
  intros H. destruct o as [s|]; [| done]. simpl.
  destruct (String.eqb_spec s a) as [-> | _]; [| done].
  by rewrite (eqb_false _ _ H).
Qed.

(** Of the eight rules, five are directional: reference trend, the two RSI
    zones, the 5m trend and the OBV trend never hold for both sides on the
    same input.  The volume spike holds for both sides or for neither, so it
    never changes which side is ahead.  The two scores therefore never add
    up to more than eleven. *)
Theorem directional_rules_exclusive (a1 a5 : Analysis.t) (btc : string) :
  let long := long_rules a1 a5 btc in
  let short := short_rules a1 a5 btc in
  (∀ i, (i < 5)%nat →
        default false (long !! i) && default false (short !! i) = false)
  ∧ long !! 5%nat = short !! 5%nat
  ∧ (∀ spike,
       (score (_check_long_conditions (with_volume_spike spike a1) a5 btc)
        - score (_check_short_conditions (with_volume_spike spike a1) a5 btc)
        = score (_check_long_conditions (with_volume_spike None a1) a5 btc)
          - score (_check_short_conditions (with_volume_spike None a1) a5 btc))%Z)
  ∧ (score (_check_long_conditions a1 a5 btc)
     + score (_check_short_conditions a1 a5 btc) <= 11)%Z.
Proof.
  cbv zeta.
  assert (E0 : String.eqb btc "bullish" && String.eqb btc "bearish" = false).
  { destruct (String.eqb_spec btc "bullish") as [-> | _]; done. }
  pose proof (rsi_rules_exclusive (Analysis.rsi_7 a1)) as E1.
  pose proof (rsi_rules_exclusive (Analysis.rsi_14 a1)) as E2.
  assert (E3 : str_is (Analysis.trend a5) "bullish"
               && str_is (Analysis.trend a5) "bearish" = false)
    by (by apply str_is_exclusive).
  assert (E4 : str_is (Analysis.obv_trend a1) "rising"
               && str_is (Analysis.obv_trend a1) "falling" = false)
    by (by apply str_is_exclusive).
  split; [| split; [| split]].
  - intros i Hi. unfold long_rules, short_rules.
    destruct i as [| [| [| [| [| i]]]]]; simpl; try assumption. lia.
  - reflexivity.
  - intros spike. rewrite !long_score_fired, !short_score_fired.
    unfold long_rules, short_rules, fired, with_volume_spike. simpl.
    destruct (default false spike); simpl; lia.
  - rewrite long_score_fired, short_score_fired.
    unfold long_rules, short_rules, fired. simpl.
    destruct (String.eqb btc "bullish"), (String.eqb btc "bearish");
      try discriminate E0;
    destruct (rsi_rule (Analysis.rsi_7 a1) (λ v, Py.ltb v Config.RSI_OVERSOLD)),
             (rsi_rule (Analysis.rsi_7 a1) (λ v, Py.gtb v Config.RSI_OVERBOUGHT));
      try discriminate E1;
    destruct (rsi_rule (Analysis.rsi_14 a1) (λ v, Py.ltb v Config.RSI_OVERSOLD)),
             (rsi_rule (Analysis.rsi_14 a1) (λ v, Py.gtb v Config.RSI_OVERBOUGHT));
      try discriminate E2;
    destruct (str_is (Analysis.trend a5) "bullish"),
             (str_is (Analysis.trend a5) "bearish");
      try discriminate E3;
    destruct (str_is (Analysis.obv_trend a1) "rising"),
             (str_is (Analysis.obv_trend a1) "falling");
      try discriminate E4;
    destruct (default false (Analysis.volume_spike a1));
    destruct (pattern_rule bullish_patterns _), (pattern_rule bearish_patterns _);
    destruct (near_support _ _), (near_resistance _ _); simpl; lia.
Qed.

(** One list of rules on the example snapshot: eight long points, no
    short point. *)
Lemma directional_rules_exclusive_witness :
  (score (_check_long_conditions Examples.oversold_1m Examples.oversold_1m "bullish")
   + score (_check_short_conditions Examples.oversold_1m Examples.oversold_1m "bullish")
   <= 11)%Z.
Proof.
  exact (proj2 (proj2 (proj2
    (directional_rules_exclusive Examples.oversold_1m Examples.oversold_1m "bullish")))).
Defined.

Section Emitted.
Context `{lib : TA}.
Import SignalGenerator.

(** The snapshot is the empty dictionary or carries the last close. *)
Lemma snapshot_cases (df : DataFrame) :
  let a := TechnicalAnalysis.get_comprehensive_analysis df in
  a = Analysis.empty
  ∨ (∃ price, Pd.iloc_last (col close df) = Some price
              ∧ Analysis.current_price a = Some price)
    ∧ (Analysis.obv_trend a = Some "rising"%string
       ∨ Analysis.obv_trend a = Some "falling"%string)
    ∧ Analysis.trend a = Some (TechnicalAnalysis.analyze_trend df 20 50)
    ∧ Analysis.volume_spike a = Some (TechnicalAnalysis.detect_volume_spike df 2 20)
    ∧ Analysis.candlestick_patterns a
      = Some (TechnicalAnalysis.identify_candlestick_patterns df)
    ∧ (Analysis.support a, Analysis.resistance a)
      = TechnicalAnalysis.calculate_support_resistance df 20.
Proof.
  cbv zeta.
  unfold TechnicalAnalysis.get_comprehensive_analysis,
    TechnicalAnalysis.comprehensive_analysis_body.
  destruct (if (7 <=? len df)%nat then _ else _) as [r7|]; [| by left].
  destruct (if (14 <=? len df)%nat then _ else _) as [r14|]; [| by left].
  destruct (if (20 <=? len df)%nat then _ else _) as [e20|]; [| by left].
  destruct (if (50 <=? len df)%nat then _ else _) as [e50|]; [| by left].
  cbn [mbind option_bind].
  destruct (Pd.iloc_last (col close df)) as [price|]; [| by left].
  destruct (Pd.iloc_last (col volume df)) as [vol|]; [| by left].
  right. cbn. split; [eauto |]. split.
  - destruct (Pd.iloc_last (TechnicalAnalysis.calculate_obv df)) as [[x|]|];
      destruct (Pd.iloc_neg 2 (TechnicalAnalysis.calculate_obv df)) as [[y|]|];
      try destruct (Py.gtb x y); auto.
  - repeat split. by destruct (TechnicalAnalysis.calculate_support_resistance df 20).
Qed.

Lemma empty_snapshot_scores (a5 : Analysis.t) (btc : string) :
  (score (_check_long_conditions Analysis.empty a5 btc) <= 2)%Z
  ∧ (score (_check_short_conditions Analysis.empty a5 btc) <= 2)%Z.
Proof.
  rewrite long_score_fired, short_score_fired.
  assert (Hb : pattern_rule bullish_patterns ∅ = false) by (vm_compute; reflexivity).
  assert (Hs : pattern_rule bearish_patterns ∅ = false) by (vm_compute; reflexivity).
  unfold long_rules, short_rules, fired.
  cbn [Analysis.empty Analysis.rsi_7 Analysis.rsi_14 Analysis.obv_trend
       Analysis.volume_spike Analysis.candlestick_patterns Analysis.current_price
       rsi_rule str_is default near_support near_resistance fold_right].
  rewrite Hb, Hs.
  destruct (String.eqb btc "bullish"), (String.eqb btc "bearish"),
    (str_is (Analysis.trend a5) "bullish"), (str_is (Analysis.trend a5) "bearish");
    simpl; lia.
Qed.


(** How [check_entry_conditions] emits. *)
Lemma check_entry_conditions_emitted df_1m df_5m btc_trend :
  let a1 := TechnicalAnalysis.get_comprehensive_analysis df_1m in
  let a5 := TechnicalAnalysis.get_comprehensive_analysis df_5m in
  let base := Signal.mk false None 0 [] (Py.Fin <$> Analysis.current_price a1)
                (Analysis.rsi_7 a1) (Analysis.rsi_14 a1)
                (default false (Analysis.volume_spike a1))
                (default ∅ (Analysis.candlestick_patterns a1)) ∅ None in
  let r := check_entry_conditions df_1m df_5m btc_trend in
  (Signal.has_signal (fst r) = false
   ∧ (fst r = no_signal ∨ fst r = base))
  ∨ ((50 <= len df_1m)%nat ∧ (50 <= len df_5m)%nat
     ∧ ∃ dir helper_dir c,
         ((dir = "LONG"%string ∧ helper_dir = "long"%string
           ∧ c = _check_long_conditions a1 a5 btc_trend)
          ∨ (dir = "SHORT"%string ∧ helper_dir = "short"%string
             ∧ c = _check_short_conditions a1 a5 btc_trend))
         ∧ (3 <= score c)%Z
         ∧ r = emit base dir helper_dir c df_1m df_5m).
Proof.
  cbv zeta. unfold check_entry_conditions.
  destruct (Nat.ltb_spec (len df_1m) 50); cbn [orb]; [left; auto |].
  destruct (Nat.ltb_spec (len df_5m) 50); cbn [orb]; [left; auto |].
  set (long := _check_long_conditions _ _ _).
  set (short := _check_short_conditions _ _ _).
  destruct (Z.ltb_spec (score short) (score long));
    destruct (Z.leb_spec 3 (score long)); cbn [andb].
  1: { right. split; [done |]. split; [done |].
       exists "LONG"%string, "long"%string, long. split; [by left | done]. }
  all: destruct (Z.ltb_spec (score long) (score short));
    destruct (Z.leb_spec 3 (score short)); cbn [andb];
    try (left; split; [reflexivity | by right]).
  all: right; split; [done |]; split; [done |];
    exists "SHORT"%string, "short"%string, short; split; [by right | done].
Qed.

(** A signal is emitted with as many points as reasons, three to eight of
    them, and is complete: it carries the last 1m close as price (the empty
    snapshot of a failed analysis cannot reach three points), the four
    Fibonacci targets computed from the highest high and the lowest low of
    the last twenty 5m bars, the third target being that high for a long and
    that low for a short, and an ATR stop which, on a 1m frame whose highs
    are not below its lows, is on the losing side of the price.  When no
    signal is emitted, the strength stays 0 and there are no reasons,
    targets or stop, whatever the two scores were. *)
Theorem emitted_signal_is_complete (df_1m df_5m : DataFrame) (btc_trend : string) :
  let s := fst (check_entry_conditions df_1m df_5m btc_trend) in
  (Signal.has_signal s = false →
   Signal.direction s = None ∧ Signal.strength s = 0%Z ∧ Signal.reasons s = []
   ∧ Signal.fibonacci_levels s = ∅ ∧ Signal.stop_loss s = None)
  ∧ (Signal.has_signal s = true →
     Signal.strength s = Z.of_nat (length (Signal.reasons s))
     ∧ (3 <= Signal.strength s <= 8)%Z
     ∧ (∃ price stop,
          Pd.iloc_last (col close df_1m) = Some price
          ∧ Signal.price s = Some (Py.Fin price)
          ∧ Signal.stop_loss s = Some (Py.Fin stop)
          ∧ (high_above_low df_1m →
             (Signal.direction s = Some "LONG"%string → stop <= price)
             ∧ (Signal.direction s = Some "SHORT"%string → price <= stop)))
     ∧ (∃ h l,
          Pd.max (Pd.tail 20 (col high df_5m)) = Some h
          ∧ Pd.min (Pd.tail 20 (col low df_5m)) = Some l
          ∧ dom (Signal.fibonacci_levels s) = {["TP1"; "TP2"; "TP3"; "TP4"]}%string
          ∧ (Signal.direction s = Some "LONG"%string →
             Signal.fibonacci_levels s = calculate_fibonacci_levels h l "long"
             ∧ holds (Signal.fibonacci_levels s) "TP3" h)
          ∧ (Signal.direction s = Some "SHORT"%string →
             Signal.fibonacci_levels s = calculate_fibonacci_levels h l "short"
             ∧ holds (Signal.fibonacci_levels s) "TP3" l))).
Proof.
  cbv zeta.
  pose proof (check_entry_conditions_emitted df_1m df_5m btc_trend) as H.
  cbv zeta in H.
  destruct H as [[Hno Hs] | (H1 & H5 & dir & hd & c & Hdir & H3 & Hr)].
  { split; [| by rewrite Hno]. intros _. by destruct Hs as [-> | ->]. }
  rewrite Hr. clear Hr.
  set (a1 := TechnicalAnalysis.get_comprehensive_analysis df_1m) in *.
  set (a5 := TechnicalAnalysis.get_comprehensive_analysis df_5m) in *.
  assert (Hh : (1 <= 20 <= length (col high df_5m))%nat)
    by (unfold col; rewrite length_fmap; fold (len df_5m); lia).
  assert (Hl : (1 <= 20 <= length (col low df_5m))%nat)
    by (unfold col; rewrite length_fmap; fold (len df_5m); lia).
  destruct (max_is_Some _ (tail_nonempty 20 _ Hh)) as (h & Emax).
  destruct (min_is_Some _ (tail_nonempty 20 _ Hl)) as (l & Emin).
  destruct (calculate_atr_stop_loss_value df_1m 14)
    as (price & atr & Hp & Ha & Hstop & Hpos); [lia |].
  specialize (Hstop 2 hd).
  assert (Hprice : Analysis.current_price a1 = Some price).
  { destruct (snapshot_cases df_1m) as [He | [(p & Hp' & Hc) _]].
    - exfalso. fold a1 in He.
      destruct (empty_snapshot_scores a5 btc_trend) as [HL HS].
      rewrite He in Hdir. destruct Hdir as [(_ & _ & ->) | (_ & _ & ->)]; lia.
    - fold a1 in Hc. rewrite Hc. congruence. }
  assert (Hrange : (score c <= 8)%Z ∧ score c = Z.of_nat (length (reasons c))).
  { destruct Hdir as [(_ & _ & ->) | (_ & _ & ->)].
    - split; [apply long_score_range | apply score_counts_reasons].
    - split; [apply short_score_range | apply score_counts_reasons]. }
  unfold emit. rewrite Emax, Emin, Hprice.
  destruct (calculate_atr_stop_loss df_1m 14 2 hd) as [stop df'].
  cbn [fst] in Hstop. subst stop. cbn.
  split; [done |]. intros _.
  destruct (fibonacci_formula h l)
    as [(_ & _ & L3 & _ & Ldom) (_ & _ & S3 & _ & Sdom)]. cbv zeta in *.
  split; [apply Hrange |]. split; [lia |]. split.
  - exists price. eexists. split; [exact Hp |]. split; [reflexivity |].
    split; [reflexivity |]. intros Hwf. specialize (Hpos Hwf).
    destruct Hdir as [(-> & -> & _) | (-> & -> & _)]; simpl;
      split; intros [=]; lra.
  - exists h, l. split; [done |]. split; [done |].
    destruct Hdir as [(-> & -> & _) | (-> & -> & _)].
    + split; [exact Ldom |]. split; [| by intros [=]].
      intros _. split; [done |]. exists (l + (h - l) * 1). split; [exact L3 | ring].
    + split; [exact Sdom |]. split; [by intros [=] |].
      intros _. split; [done |]. exists (h - (h - l) * 1). split; [exact S3 | ring].
Qed.

End Emitted.

(** The long signal of the example frames: eight reasons, price 1122.5, and
    a third target at the highest of the last twenty 5m highs. *)
Lemma emitted_signal_is_complete_witness :
  let s := fst (SignalGenerator.check_entry_conditions (lib := TaModel.lib)
                  Examples.falling_1m Examples.rising_then_falling_5m "bullish") in
  length (Signal.reasons s) = 8%nat ∧ Signal.price s = Some (Py.Fin 1122.5).
Proof.
  cbv zeta.
  assert (H : Signal.has_signal
                (fst (SignalGenerator.check_entry_conditions (lib := TaModel.lib)
                        Examples.falling_1m Examples.rising_then_falling_5m "bullish"))
              = true) by (vm_compute; reflexivity).
  destruct (proj2 (emitted_signal_is_complete (lib := TaModel.lib)
                     Examples.falling_1m Examples.rising_then_falling_5m "bullish") H)
    as (Hlen & _ & (price & stop & Hp & Hprice & _) & _).
  split.
  - apply Nat2Z.inj. rewrite <- Hlen. vm_compute. reflexivity.
  - rewrite Hprice. f_equal. f_equal. apply (inj Some). rewrite <- Hp.
    vm_compute. reflexivity.
Defined.


(** ** The reference trend, position size, symbols and the position cache *)

Section ReferenceTrend.
Context `{lib : TA}.

Lemma analyze_trend_values (df : DataFrame) (fast slow : nat) :
  TechnicalAnalysis.analyze_trend df fast slow = "bullish"%string
  ∨ TechnicalAnalysis.analyze_trend df fast slow = "bearish"%string
  ∨ TechnicalAnalysis.analyze_trend df fast slow = "neutral"%string.
Proof.
  unfold TechnicalAnalysis.analyze_trend.
  destruct (_ <? _)%nat; [auto |].
  destruct (Pd.iloc_last _) as [[f|]|]; [| auto | auto].
  destruct (Pd.iloc_last _) as [[s|]|]; [| auto | auto].
  destruct (Py.gtb f s); [auto |].
  destruct (Py.ltb f s); auto.
Qed.

Lemma analyze_trend_short_window (df : DataFrame) :
  (len df < 50)%nat → TechnicalAnalysis.analyze_trend df 20 50 = "neutral"%string.
Proof.
  intros H. unfold TechnicalAnalysis.analyze_trend.
  by destruct (Nat.ltb_spec (len df) (Nat.max 20 50)); [| simpl in *; lia].
Qed.

(** [analyze_btc_trend] by the last value of the RSI series. *)
Lemma analyze_btc_trend_cases (btc_data : DataFrame) :
  let trend := TechnicalAnalysis.analyze_trend btc_data 20 50 in
  Reference.analyze_btc_trend btc_data
  = match Pd.iloc_last (TechnicalAnalysis.calculate_rsi btc_data 14) with
    | None => trend
    | Some None => "neutral"%string
    | Some (Some r) =>
        if String.eqb trend "bullish" && Py.gtb r 40 then "bullish"%string
        else if String.eqb trend "bearish" && Py.ltb r 60 then "bearish"%string
        else "neutral"%string
    end.
Proof.
  cbv zeta. unfold Reference.analyze_btc_trend.
  destruct (Nat.ltb_spec (len btc_data) 50) as [Hlt | Hge].
  - rewrite (analyze_trend_short_window _ Hlt).
    by destruct (Pd.iloc_last _) as [[r|]|].
  - destruct (Pd.iloc_last _) as [[r|]|].
    + reflexivity.
    + by rewrite !andb_false_r.
    + assert (G : Py.gtb 50 40 = true) by reflexivity.
      assert (L : Py.ltb 50 60 = true) by reflexivity.
      rewrite G, L, !andb_true_r.
      destruct (analyze_trend_values btc_data 20 50) as [-> | [-> | ->]]; reflexivity.
Qed.

(** [analyze_btc_trend] only ever weakens the EMA trend of the reference
    pair: it answers 'neutral' on fewer than 50 rows; otherwise it answers
    'bullish' exactly when the EMA trend is bullish and RSI(14) is above 40,
    'bearish' exactly when the EMA trend is bearish and RSI(14) is below 60,
    and 'neutral' in every other case.  An RSI series that comes back empty
    counts as 50 and leaves the EMA trend as it is; a last RSI value that is
    missing turns every trend into 'neutral'. *)
Theorem analyze_btc_trend_spec (btc_data : DataFrame) :
  let trend := TechnicalAnalysis.analyze_trend btc_data 20 50 in
  let rsi := TechnicalAnalysis.calculate_rsi btc_data 14 in
  let result := Reference.analyze_btc_trend btc_data in
  (result = trend ∨ result = "neutral"%string)
  ∧ ((len btc_data < 50)%nat → result = "neutral"%string)
  ∧ (rsi = [] → result = trend)
  ∧ (Pd.iloc_last rsi = Some None → result = "neutral"%string)
  ∧ (∀ r, Pd.iloc_last rsi = Some (Some r) →
       (result = "bullish"%string ↔ trend = "bullish"%string ∧ 40 < r)
       ∧ (result = "bearish"%string ↔ trend = "bearish"%string ∧ r < 60)).
Proof.
  cbv zeta. rewrite analyze_btc_trend_cases. cbv zeta.
  pose proof (analyze_trend_values btc_data 20 50) as Hv.
  set (trend := TechnicalAnalysis.analyze_trend btc_data 20 50) in *.
  split; [| split; [| split; [| split]]].
  - destruct (Pd.iloc_last _) as [[r|]|]; [| by right | by left].
    destruct (String.eqb_spec trend "bullish") as [-> | _]; cbn [andb].
    { destruct (Py.gtb r 40); [by left | by right]. }
    destruct (String.eqb_spec trend "bearish") as [-> | _]; cbn [andb].
    { destruct (Py.ltb r 60); [by left | by right]. }
    by right.
  - intros Hlt. unfold trend. rewrite (analyze_trend_short_window _ Hlt).
    by destruct (Pd.iloc_last _) as [[r|]|].
  - by intros ->.
  - by intros ->.
  - intros r ->.
    destruct Hv as [-> | [-> | ->]]; simpl String.eqb; cbn [andb].
    + destruct (Py.gtb r 40) eqn:E.
      * apply gtb_lt in E. split; split; try done. by intros [? _].
      * apply ltb_ge in E. split; split; try done; intros [? ?]; try done. lra.
    + destruct (Py.ltb r 60) eqn:E.
      * apply ltb_lt in E. split; split; try done. by intros [? _].
      * apply ltb_ge in E. split; split; try done; intros [? ?]; try done. lra.
    + split; split; try done; by intros [? _].
Qed.

End ReferenceTrend.

(** On the fifty 5m bars that rise and then fall, the EMA trend is bullish
    but RSI(14) is below 40, so the reference trend is only 'neutral'; on
    the fifty falling 1m bars the bearish trend is confirmed.  With a
    library whose RSI call raises, the bullish EMA trend of the 5m bars is
    kept; with one whose RSI is still missing, it is dropped.  Twelve bars
    are too few for any trend. *)
Lemma analyze_btc_trend_spec_witness :
  TechnicalAnalysis.analyze_trend (lib := TaModel.lib)
    Examples.rising_then_falling_5m 20 50 = "bullish"%string
  ∧ Reference.analyze_btc_trend (lib := TaModel.lib) Examples.rising_then_falling_5m
    = "neutral"%string
  ∧ Reference.analyze_btc_trend (lib := TaModel.lib) Examples.falling_1m
    = "bearish"%string
  ∧ Reference.analyze_btc_trend (lib := TaModel.without_rsi)
      Examples.rising_then_falling_5m = "bullish"%string
  ∧ Reference.analyze_btc_trend (lib := TaModel.warming_rsi)
      Examples.rising_then_falling_5m = "neutral"%string
  ∧ Reference.analyze_btc_trend (lib := TaModel.lib) Examples.spike_1m
    = "neutral"%string.
Proof.
  assert (Htrend : TechnicalAnalysis.analyze_trend (lib := TaModel.lib)
                     Examples.rising_then_falling_5m 20 50 = "bullish"%string)
    by (vm_compute; reflexivity).
  split; [exact Htrend |]. split; [| split; [| split; [| split]]].
  - destruct (analyze_btc_trend_spec (lib := TaModel.lib)
                Examples.rising_then_falling_5m)
      as ([Hkeep | Hneutral] & _ & _ & _ & Hrsi); [| exact Hneutral].
    destruct (Pd.iloc_last (TechnicalAnalysis.calculate_rsi (lib := TaModel.lib)
                              Examples.rising_then_falling_5m 14))
      as [[r|]|] eqn:Er; [| vm_compute in Er; discriminate Er
                          | vm_compute in Er; discriminate Er].
    assert (Hr : r <= 40).
    { assert (E : Pd.iloc_last (TechnicalAnalysis.calculate_rsi (lib := TaModel.lib)
                                  Examples.rising_then_falling_5m 14)
                  = Some (Some r)) by exact Er.
      vm_compute in E. injection E as <-. vm_compute. discriminate. }
    rewrite Htrend in Hkeep.
    destruct (proj1 (proj1 (Hrsi r eq_refl)) Hkeep) as [_ Hgt]. lra.
  - destruct (analyze_btc_trend_spec (lib := TaModel.lib) Examples.falling_1m)
      as (_ & _ & _ & _ & Hrsi).
    destruct (Pd.iloc_last (TechnicalAnalysis.calculate_rsi (lib := TaModel.lib)
                              Examples.falling_1m 14))
      as [[r|]|] eqn:Er; [| vm_compute in Er; discriminate Er
                          | vm_compute in Er; discriminate Er].
    apply (proj2 (Hrsi r eq_refl)). split; [vm_compute; reflexivity |].
    assert (E : Pd.iloc_last (TechnicalAnalysis.calculate_rsi (lib := TaModel.lib)
                                Examples.falling_1m 14)
                = Some (Some r)) by exact Er.
    vm_compute in E. injection E as <-. vm_compute. reflexivity.
  - assert (Hempty : TechnicalAnalysis.calculate_rsi (lib := TaModel.without_rsi)
                       Examples.rising_then_falling_5m 14 = []) by reflexivity.
    rewrite (proj1 (proj2 (proj2 (analyze_btc_trend_spec (lib := TaModel.without_rsi)
                                    Examples.rising_then_falling_5m))) Hempty).
    vm_compute. reflexivity.
  - assert (Hnan : Pd.iloc_last
                     (TechnicalAnalysis.calculate_rsi (lib := TaModel.warming_rsi)
                        Examples.rising_then_falling_5m 14) = Some None)
      by (vm_compute; reflexivity).
    exact (proj1 (proj2 (proj2 (proj2
             (analyze_btc_trend_spec (lib := TaModel.warming_rsi)
                Examples.rising_then_falling_5m)))) Hnan).
  - assert (H : (len Examples.spike_1m < 50)%nat) by (vm_compute; lia).
    exact (proj1 (proj2 (analyze_btc_trend_spec (lib := TaModel.lib)
                           Examples.spike_1m)) H).
Defined.

Lemma py_max_spec (a b : Q) :
  (a < b ∧ py_max a b = b) ∨ (b <= a ∧ py_max a b = a).
Proof.
  unfold py_max. destruct (Py.gtb b a) eqn:E.
  - apply gtb_lt in E. by left.
  - apply ltb_ge in E. by right.
Qed.

(** The position size of the signal generator is one percent of the balance
    and at least one USDT; it is the helper of [helpers.py] at the configured
    percentage and minimum, and neither the price nor the leverage that are
    passed in have any effect on it. *)
Theorem calculate_position_size_spec (balance price : Q) (leverage : option Z) :
  let size := Reference.calculate_position_size balance price leverage in
  size = Helpers.calculate_position_size balance
           TradingConfig.POSITION_SIZE_PERCENT TradingConfig.MIN_POSITION_SIZE_USDT
  ∧ (∀ price' leverage',
       Reference.calculate_position_size balance price' leverage' = size)
  ∧ 1 <= size
  ∧ (100 <= balance → size == balance / 100)
  ∧ (balance <= 100 → size == 1)
  ∧ (∀ percentage min_size,
       let helper := Helpers.calculate_position_size balance percentage min_size in
       min_size <= helper ∧ balance * (percentage / 100) <= helper
       ∧ (helper = min_size ∨ helper = balance * (percentage / 100))).
Proof.
  cbv zeta.
  unfold Reference.calculate_position_size, Helpers.calculate_position_size,
    TradingConfig.POSITION_SIZE_PERCENT, TradingConfig.MIN_POSITION_SIZE_USDT.
  split; [reflexivity |]. split; [reflexivity |].
  assert (E : balance * (1 / 100) == balance / 100) by (field; discriminate).
  assert (E' : balance == 100 * (balance / 100)) by (field; discriminate).
  destruct (py_max_spec (balance * (1 / 100)) 1) as [[Hlt ->] | [Hle ->]];
    [rewrite E in Hlt | rewrite E in Hle]; generalize dependent (balance / 100);
    intros x E E'.
  - split; [lra |]. split; [intros H; lra |]. split; [reflexivity |].
    intros percentage min_size.
    destruct (py_max_spec (balance * (percentage / 100)) min_size)
      as [[H ->] | [H ->]]; split_and!; auto; lra.
  - split; [lra |]. split; [intros H; exact E |]. split; [intros H; lra |].
    intros percentage min_size.
    destruct (py_max_spec (balance * (percentage / 100)) min_size)
      as [[H ->] | [H ->]]; split_and!; auto; lra.
Qed.

(** The margin of 1000 USDT that [send_signals] assumes gives a position of
    10 USDT. *)
Lemma calculate_position_size_spec_witness :
  Reference.calculate_position_size 1000 1122.5 None == 10.
Proof.
  assert (H : 100 <= 1000) by discriminate.
  rewrite (proj1 (proj2 (proj2 (proj2
             (calculate_position_size_spec 1000 1122.5 None)))) H).
  reflexivity.
Defined.

Lemma upper_ascii_idempotent (c : ascii) :
  Py.upper_ascii (Py.upper_ascii c) = Py.upper_ascii c.
Proof. by destruct c as [[] [] [] [] [] [] [] []]. Qed.

Lemma upper_ascii_slash (c : ascii) :
  Ascii.eqb (Py.upper_ascii c) "/" = Ascii.eqb c "/".
Proof. by destruct c as [[] [] [] [] [] [] [] []]. Qed.

Lemma upper_replace_char (s : string) :
  Py.upper (replace_char "/" "_" s) = replace_char "/" "_" (Py.upper s).
Proof.
  induction s as [| c s IH]; [done |]. simpl. rewrite IH. f_equal.
  rewrite upper_ascii_slash. by destruct (Ascii.eqb c "/").
Qed.

Lemma upper_idempotent (s : string) : Py.upper (Py.upper s) = Py.upper s.
Proof.
  induction s as [| c s IH]; [done |]. simpl.
  by rewrite IH, upper_ascii_idempotent.
Qed.

Lemma replace_char_idempotent (s : string) :
  replace_char "/" "_" (replace_char "/" "_" s) = replace_char "/" "_" s.
Proof.
  induction s as [| c s IH]; [done |]. cbn [replace_char]. rewrite IH. f_equal.
  destruct (Ascii.eqb c "/") eqn:E; [done | by rewrite E].
Qed.

(** [validate_symbol] on ASCII text is idempotent, keeps the length, and
    its result holds no slash and no lower-case letter; it is insensitive to
    the letter case of its argument. *)
Theorem validate_symbol_normal_form (symbol : string) :
  let result := Helpers.validate_symbol symbol in
  Helpers.validate_symbol result = result
  ∧ String.length result = String.length symbol
  ∧ (∀ c, In c (list_ascii_of_string result) →
          c ≠ "/"%char ∧ Py.upper_ascii c = c)
  ∧ Helpers.validate_symbol (Py.lower symbol) = result
  ∧ Helpers.validate_symbol (Py.upper symbol) = result.
Proof.
  cbv zeta. unfold Helpers.validate_symbol. split_and!.
  - by rewrite upper_replace_char, upper_idempotent, replace_char_idempotent.
  - induction symbol as [| c s IH]; [done |]. simpl. by rewrite IH.
  - induction symbol as [| c s IH]; [done |]. simpl.
    intros c' [<- | Hin]; [| by apply IH].
    by destruct c as [[] [] [] [] [] [] [] []].
  - f_equal. induction symbol as [| c s IH]; [done |]. simpl. rewrite IH. f_equal.
    by destruct c as [[] [] [] [] [] [] [] []].
  - by rewrite upper_idempotent.
Qed.

Section Cache.
Context {V : Type}.
Import PositionCache.

(** The cache of active positions: after an update the symbol holds the
    position dictionary with its ['last_update'] set to the time of the call
    (replacing one the caller may have supplied) and every other key as
    given, and the other symbols are untouched; a second update replaces the
    first; removing the symbol afterwards gives the cache without it, and
    removing a symbol that is not cached changes nothing. *)
Theorem position_cache_round_trip (symbol : string) (position_data : gmap string V)
    (now : V) (active_positions : gmap string (gmap string V)) :
  let updated := update_position_cache symbol position_data now active_positions in
  (∃ stored, get_active_positions updated !! symbol = Some stored
             ∧ stored !! "last_update"%string = Some now
             ∧ ∀ key, key ≠ "last_update"%string → stored !! key = position_data !! key)
  ∧ (∀ other, other ≠ symbol →
       get_active_positions updated !! other = active_positions !! other)
  ∧ (∀ position_data' now',
       update_position_cache symbol position_data' now' updated
       = update_position_cache symbol position_data' now' active_positions)
  ∧ remove_position_from_cache symbol updated = delete symbol active_positions
  ∧ (active_positions !! symbol = None →
     remove_position_from_cache symbol active_positions = active_positions
     ∧ remove_position_from_cache symbol updated = active_positions)
  ∧ remove_position_from_cache symbol (remove_position_from_cache symbol active_positions)
    = remove_position_from_cache symbol active_positions.
Proof.
  cbv zeta. unfold update_position_cache, remove_position_from_cache, get_active_positions.
  split_and!.
  - eexists. split; [apply lookup_insert_eq |]. split; [apply lookup_insert_eq |].
    intros key Hkey. by apply lookup_insert_ne.
  - intros other Hother. by apply lookup_insert_ne.
  - intros position_data' now'. apply insert_insert_eq.
  - rewrite lookup_insert_eq. apply delete_insert_eq.
  - intros Hnone. rewrite Hnone, lookup_insert_eq. split; [done |].
    rewrite delete_insert_eq. by apply delete_id.
  - destruct (active_positions !! symbol) eqn:E.
    + by rewrite lookup_delete_eq.
    + by rewrite E.
Qed.

End Cache.

(** A position for BTC_USDT cached at time 7 and then removed. *)
Lemma position_cache_round_trip_witness :
  PositionCache.remove_position_from_cache "BTC_USDT"
    (PositionCache.update_position_cache "BTC_USDT" {[ "entry_price"%string := 100%Z ]}
       7%Z ∅)
  = (∅ : gmap string (gmap string Z)).
Proof.
  assert (H : (∅ : gmap string (gmap string Z)) !! "BTC_USDT"%string = None)
    by apply lookup_empty.
  exact (proj2 (proj1 (proj2 (proj2 (proj2 (proj2
    (position_cache_round_trip "BTC_USDT" {[ "entry_price"%string := 100%Z ]} 7%Z ∅)))))
    H)).
Defined.

(** A lower-case pair with a slash becomes the exchange's symbol, which is
    its own normal form. *)
Lemma validate_symbol_normal_form_witness :
  Helpers.validate_symbol "BTC_USDT" = "BTC_USDT"%string.
Proof. exact (proj1 (validate_symbol_normal_form "btc/usdt")). Defined.

(** ** When the caller's frame is written *)

Lemma calculate_atr_stop_loss_written (df : DataFrame) (atr_period : nat)
    (multiplier : Q) (direction : string) :
  (atr_period <= len df)%nat →
  work_columns_written df
    (snd (calculate_atr_stop_loss df atr_period multiplier direction)).
Proof.
  intros Hlen. unfold calculate_atr_stop_loss.
  destruct (Nat.ltb_spec (len df) atr_period); [lia |]. cbn [snd].
  unfold work_columns_written, get_column, set_column. cbn [extra rows].
  rewrite !lookup_column_assign. split_and!; try reflexivity.
  intros name Hname. rewrite !lookup_column_assign.
  repeat match goal with
  | |- context [String.eqb ?k name] =>
      destruct (String.eqb_spec k name) as [<- | ?];
        [exfalso; apply Hname; apply list_elem_of_In; simpl; tauto |]
  end.
  reflexivity.
Qed.

Section Writes.
Context `{lib : TA}.
Import SignalGenerator ExitManager.

Lemma snd_check_dynamic_stop_loss_called position_data df_1m df_5m :
  rows df_1m ≠ [] →
  snd (_check_dynamic_stop_loss position_data df_1m df_5m)
  = snd (calculate_atr_stop_loss df_1m 14 2
           (Py.lower (Py.upper (Position.direction position_data)))).
Proof.
  intros Hne. unfold _check_dynamic_stop_loss.
  destruct (Pd.iloc_last (col close df_1m)) as [price|] eqn:Ep.
  2: { unfold Pd.iloc_last, col in Ep. apply last_None in Ep.
       by apply fmap_nil_inv in Ep. }
  destruct (calculate_atr_stop_loss df_1m 14 2 _) as [[[s|]|] df'];
    cbn [snd]; try reflexivity;
    repeat match goal with
    | |- context [if ?b then _ else _] => destruct b
    | |- context [match ?o with Some _ => _ | None => _ end] => destruct o
    end; reflexivity.
Qed.

(** The two core calls write to the 1m frame they are given in exactly one
    situation each.  [check_entry_conditions] leaves the frame as it was
    when it reports no signal, and assigns the four work columns of the ATR
    stop whenever it emits one (a signal needs fifty rows, the stop
    fourteen).  [analyze_exit_conditions] leaves the frame as it was when the
    take-profit check matches, when it returns the default analysis, and on
    fewer than fourteen rows; in every other case it assigns the four
    columns, whether or not it then finds an exit. *)
Theorem core_calls_write_work_columns (position_data : Position.t)
    (df_1m df_5m : DataFrame) (btc_trend : string) :
  let entry := check_entry_conditions df_1m df_5m btc_trend in
  let exit := analyze_exit_conditions position_data df_1m df_5m in
  (Signal.has_signal (fst entry) = false → snd entry = df_1m)
  ∧ (Signal.has_signal (fst entry) = true → work_columns_written df_1m (snd entry))
  ∧ (is_Some (Exit.fibonacci_hit (fst exit)) ∨ fst exit = no_exit
     ∨ (len df_1m < 14)%nat →
     snd exit = df_1m)
  ∧ ((14 <= len df_1m)%nat → Exit.fibonacci_hit (fst exit) = None →
     fst exit ≠ no_exit →
     work_columns_written df_1m (snd exit)).
Proof.
  cbv zeta. split; [| split].
  - intros Hno.
    destruct (check_entry_conditions_emitted df_1m df_5m btc_trend)
      as [[_ Hs] | (_ & _ & dir & hd & c & _ & _ & Hr)]; cbv zeta in *.
    + unfold check_entry_conditions in *.
      destruct (_ || _); [reflexivity |].
      destruct (_ && _).
      { exfalso. unfold emit in Hs.
        destruct (calculate_atr_stop_loss df_1m 14 2 "long").
        by destruct Hs as [Hs | Hs]. }
      destruct (_ && _); [| reflexivity].
      exfalso. unfold emit in Hs.
      destruct (calculate_atr_stop_loss df_1m 14 2 "short").
      by destruct Hs as [Hs | Hs].
    + rewrite Hr in Hno. unfold emit in Hno.
      by destruct (calculate_atr_stop_loss df_1m 14 2 hd).
  - intros Hyes.
    destruct (check_entry_conditions_emitted df_1m df_5m btc_trend)
      as [[Hno _] | (H1 & _ & dir & hd & c & _ & _ & Hr)]; cbv zeta in *.
    + congruence.
    + rewrite Hr. unfold emit.
      pose proof (calculate_atr_stop_loss_written df_1m 14 2 hd) as Hw.
      destruct (calculate_atr_stop_loss df_1m 14 2 hd) as [stop df'].
      cbn [snd] in *. apply Hw. lia.
  - unfold analyze_exit_conditions.
    destruct (empty df_1m || empty df_5m) eqn:Eempty.
    { split; [reflexivity |]. by intros _ _ H. }
    destruct (Pd.iloc_last (col close df_1m)) as [price|].
    2: { split; [reflexivity |]. by intros _ _ H. }
    destruct (negb (Py.truthy _) || _).
    { split; [reflexivity |]. by intros _ _ H. }
    destruct (_check_fibonacci_levels position_data price) as [hit|].
    { split; [reflexivity |]. cbn. by intros _ [=]. }
    assert (Hne : rows df_1m ≠ []).
    { apply orb_false_iff in Eempty as [E _]. unfold empty in E.
      by destruct (rows df_1m). }
    pose proof (snd_check_dynamic_stop_loss_called position_data df_1m df_5m Hne)
      as Hsnd.
    destruct (_check_dynamic_stop_loss position_data df_1m df_5m) as [stop df'].
    cbn [snd] in Hsnd.
    assert (Hcases :
      ∀ r : Exit.t * DataFrame,
        snd r = df' → Exit.fibonacci_hit (fst r) = None → fst r ≠ no_exit →
        (is_Some (Exit.fibonacci_hit (fst r)) ∨ fst r = no_exit
         ∨ (len df_1m < 14)%nat → snd r = df_1m)
        ∧ ((14 <= len df_1m)%nat → Exit.fibonacci_hit (fst r) = None →
           fst r ≠ no_exit → work_columns_written df_1m (snd r))).
    { intros r Hr Hfib Hdef. rewrite Hr, Hsnd. split.
      - intros [[x Hx] | [H | Hlt]].
        + by rewrite Hfib in Hx.
        + done.
        + by rewrite (calculate_atr_stop_loss_short_window _ _ _ _ Hlt).
      - intros Hlen _ _. by apply calculate_atr_stop_loss_written. }
    destruct (should_stop stop); [by apply Hcases |].
    destruct (rev_should_exit _); [by apply Hcases |].
    destruct (should_stop _); by apply Hcases.
Qed.

End Writes.

(** The long signal of the example frames leaves the four columns in the
    1m frame; so does the exit analysis of a short on the same frames,
    which finds no target reached; the take profit of the long on the flat
    frame leaves that frame as it was. *)
Lemma core_calls_write_work_columns_witness :
  work_columns_written Examples.falling_1m
    (snd (SignalGenerator.check_entry_conditions (lib := TaModel.lib)
            Examples.falling_1m Examples.rising_then_falling_5m "bullish"))
  ∧ work_columns_written Examples.falling_1m
      (snd (ExitManager.analyze_exit_conditions (lib := TaModel.lib)
              Examples.short_position Examples.falling_1m
              Examples.rising_then_falling_5m))
  ∧ snd (ExitManager.analyze_exit_conditions (lib := TaModel.lib)
           Examples.long_position Examples.flat_1m Examples.flat_1m)
    = Examples.flat_1m.
Proof.
  split; [| split].
  - assert (H : Signal.has_signal
                  (fst (SignalGenerator.check_entry_conditions (lib := TaModel.lib)
                          Examples.falling_1m Examples.rising_then_falling_5m
                          "bullish")) = true) by (vm_compute; reflexivity).
    exact (proj1 (proj2 (core_calls_write_work_columns (lib := TaModel.lib)
                           Examples.short_position Examples.falling_1m
                           Examples.rising_then_falling_5m "bullish")) H).
  - assert (Hlen : (14 <= len Examples.falling_1m)%nat) by (vm_compute; lia).
    assert (Hfib : Exit.fibonacci_hit
                     (fst (ExitManager.analyze_exit_conditions (lib := TaModel.lib)
                             Examples.short_position Examples.falling_1m
                             Examples.rising_then_falling_5m)) = None)
      by (vm_compute; reflexivity).
    assert (Hdef : fst (ExitManager.analyze_exit_conditions (lib := TaModel.lib)
                          Examples.short_position Examples.falling_1m
                          Examples.rising_then_falling_5m) ≠ ExitManager.no_exit).
    { intros E. apply (f_equal Exit.suggested_exit_price) in E.
      vm_compute in E. discriminate E. }
    exact (proj2 (proj2 (proj2 (core_calls_write_work_columns (lib := TaModel.lib)
                                  Examples.short_position Examples.falling_1m
                                  Examples.rising_then_falling_5m "bullish")))
             Hlen Hfib Hdef).
  - assert (Hhit : is_Some (Exit.fibonacci_hit
                     (fst (ExitManager.analyze_exit_conditions (lib := TaModel.lib)
                             Examples.long_position Examples.flat_1m
                             Examples.flat_1m))))
      by (vm_compute; eauto).
    exact (proj1 (proj2 (proj2 (core_calls_write_work_columns (lib := TaModel.lib)
                                  Examples.long_position Examples.flat_1m
                                  Examples.flat_1m "bullish")))
             (or_introl Hhit)).
Defined.
